(** * Content collector bot: ingestion pipeline

    A shallow embedding of [bot.py] (class [ContentCollectorBot]): the
    fingerprint index, the classifier and persistence gateway of
    [_save_telethon_message], the unified-record reconciliation into
    [message_channel], the channel cursor of [_monitor_loop], channel
    registration and de-registration, and the media-group buffer of
    [_handle_media_group].

    The file has three parts: the model of the program, function by
    function and under the names of the source; the notions in which the
    properties are stated, with a worked run of the model; the
    properties C1 to C10 with their lemmas, and further properties of
    the functions around them.

    Conventions.
    - A Python [str] is a [string] holding its UTF-8 bytes, so
      [encode('utf-8')] is the byte list of the string.  [None] and the
      empty string, both falsy, are the empty string.
    - A Python [int] is a [Z]; an optional value is an [option]; the
      truth value of [Some 0] is false, like that of [None].
    - An operation takes the state of the bot and of its surroundings
      and returns the new state with its result.  An exception is a
      result of its own ([None], [false]) handled where the source
      handles it.
    - Awaited calls run to completion one after the other, but for
      [_download_file] on the Bot API side: a coroutine that waits
      there is suspended, the event loop runs what is ready meanwhile,
      and the coroutine goes on when the download is over.  The store
      answers every statement; a statement fails only on a value that
      the store does not take (a text holding U+0000, a value too long
      for its column) or on a constraint of the schema.
    - The clock is a counter read by [datetime.now()]; the event loop
      has its own time, in milliseconds, given with each event. *)

From Stdlib Require Import ZArith List String Ascii Bool Lia Sorted.
From Stdlib Require Import Init.Byte.
From stdpp Require Import base option gmap strings list fin_maps pretty.

Local Open Scope Z_scope.

(** * The model *)

(** ** [hashlib.md5(data).hexdigest()]  (RFC 1321) *)

Module Md5.

Definition w32 (x : Z) : Z := x mod 2 ^ 32.
Definition add32 (a b : Z) : Z := w32 (a + b).
Definition not32 (a : Z) : Z := Z.lxor a 0xFFFFFFFF.
Definition rotl32 (x c : Z) : Z :=
  Z.lor (w32 (Z.shiftl x c)) (Z.shiftr x (32 - c)).

Definition K : list Z :=
  [ 0xd76aa478; 0xe8c7b756; 0x242070db; 0xc1bdceee;
    0xf57c0faf; 0x4787c62a; 0xa8304613; 0xfd469501;
    0x698098d8; 0x8b44f7af; 0xffff5bb1; 0x895cd7be;
    0x6b901122; 0xfd987193; 0xa679438e; 0x49b40821;
    0xf61e2562; 0xc040b340; 0x265e5a51; 0xe9b6c7aa;
    0xd62f105d; 0x02441453; 0xd8a1e681; 0xe7d3fbc8;
    0x21e1cde6; 0xc33707d6; 0xf4d50d87; 0x455a14ed;
    0xa9e3e905; 0xfcefa3f8; 0x676f02d9; 0x8d2a4c8a;
    0xfffa3942; 0x8771f681; 0x6d9d6122; 0xfde5380c;
    0xa4beea44; 0x4bdecfa9; 0xf6bb4b60; 0xbebfbc70;
    0x289b7ec6; 0xeaa127fa; 0xd4ef3085; 0x04881d05;
    0xd9d4d039; 0xe6db99e5; 0x1fa27cf8; 0xc4ac5665;
    0xf4292244; 0x432aff97; 0xab9423a7; 0xfc93a039;
    0x655b59c3; 0x8f0ccc92; 0xffeff47d; 0x85845dd1;
    0x6fa87e4f; 0xfe2ce6e0; 0xa3014314; 0x4e0811a1;
    0xf7537e82; 0xbd3af235; 0x2ad7d2bb; 0xeb86d391 ].

Definition shifts : list Z :=
  [ 7; 12; 17; 22; 7; 12; 17; 22; 7; 12; 17; 22; 7; 12; 17; 22;
    5; 9; 14; 20; 5; 9; 14; 20; 5; 9; 14; 20; 5; 9; 14; 20;
    4; 11; 16; 23; 4; 11; 16; 23; 4; 11; 16; 23; 4; 11; 16; 23;
    6; 10; 15; 21; 6; 10; 15; 21; 6; 10; 15; 21; 6; 10; 15; 21 ].

(** Little-endian encoding of [x] on [n] bytes. *)
Fixpoint le_bytes (n : nat) (x : Z) : list Z :=
  match n with
  | O => []
  | S n' => (x mod 256) :: le_bytes n' (x / 256)
  end.

Fixpoint le_word (bs : list Z) : Z :=
  match bs with
  | [] => 0
  | b :: bs' => b + 256 * le_word bs'
  end.

(** The message, the bit 1, zeros up to 56 modulo 64, the bit length. *)
Definition pad (msg : list Z) : list Z :=
  let len := Z.of_nat (length msg) in
  let zeros := Z.to_nat ((55 - len) mod 64) in
  msg ++ [0x80] ++ repeat 0 zeros ++ le_bytes 8 ((8 * len) mod 2 ^ 64).

Fixpoint words (n : nat) (bs : list Z) : list Z :=
  match n with
  | O => []
  | S n' => le_word (firstn 4 bs) :: words n' (skipn 4 bs)
  end.

Fixpoint blocks (n : nat) (bs : list Z) : list (list Z) :=
  match n with
  | O => []
  | S n' => words 16 (firstn 64 bs) :: blocks n' (skipn 64 bs)
  end.

Definition round (M : list Z) (st : Z * Z * Z * Z) (i : Z) : Z * Z * Z * Z :=
  let '(a, b, c, d) := st in
  let '(f, g) :=
    if i <? 16 then (Z.lor (Z.land b c) (Z.land (not32 b) d), i)
    else if i <? 32 then
      (Z.lor (Z.land d b) (Z.land (not32 d) c), (5 * i + 1) mod 16)
    else if i <? 48 then (Z.lxor b (Z.lxor c d), (3 * i + 5) mod 16)
    else (Z.lxor c (Z.lor b (not32 d)), (7 * i) mod 16) in
  let f' := add32 (add32 (add32 f a) (nth (Z.to_nat i) K 0))
                  (nth (Z.to_nat g) M 0) in
  (d, add32 b (rotl32 f' (nth (Z.to_nat i) shifts 0)), b, c).

Definition block (st : Z * Z * Z * Z) (M : list Z) : Z * Z * Z * Z :=
  let '(a0, b0, c0, d0) := st in
  let '(a, b, c, d) :=
    fold_left (round M) (map Z.of_nat (seq 0 64)) st in
  (add32 a0 a, add32 b0 b, add32 c0 c, add32 d0 d).

Definition hex_digit (n : Z) : ascii :=
  ascii_of_nat (Z.to_nat (if n <? 10 then 48 + n else 87 + n)).

Fixpoint hex (bs : list Z) : string :=
  match bs with
  | [] => EmptyString
  | b :: bs' => String (hex_digit (b / 16)) (String (hex_digit (b mod 16)) (hex bs'))
  end.

Definition digest (msg : list Z) : list Z :=
  let p := pad msg in
  let '(a, b, c, d) :=
    fold_left block (blocks (length p / 64) p)
              (0x67452301, 0xefcdab89, 0x98badcfe, 0x10325476) in
  le_bytes 4 a ++ le_bytes 4 b ++ le_bytes 4 c ++ le_bytes 4 d.

Definition hexdigest (data : list byte) : string :=
  hex (digest (map (fun b => Z.of_N (Byte.to_N b)) data)).

End Md5.

(** [str.encode('utf-8')]. *)
Definition encode_utf8 (s : string) : list byte := list_byte_of_string s.

(** ** Strings, paths and URLs *)

Definition ord (c : ascii) : Z := Z.of_N (N_of_ascii c).

(** Truth value of a Python string. *)
Definition nonempty (s : string) : bool :=
  match s with EmptyString => false | String _ _ => true end.

(** Truth value of an optional integer: [None] and [0] are false. *)
Definition truthy (x : option Z) : bool :=
  match x with Some v => negb (v =? 0) | None => false end.

Fixpoint strip_prefix (p s : string) : option string :=
  match p, s with
  | EmptyString, _ => Some s
  | String a p', String b s' => if Ascii.eqb a b then strip_prefix p' s' else None
  | String _ _, EmptyString => None
  end.

Definition startswith (p s : string) : bool :=
  match strip_prefix p s with Some _ => true | None => false end.

Fixpoint contains (c : ascii) (s : string) : bool :=
  match s with
  | EmptyString => false
  | String a s' => Ascii.eqb a c || contains c s'
  end.

Fixpoint last_char (s : string) : option ascii :=
  match s with
  | EmptyString => None
  | String a EmptyString => Some a
  | String _ s' => last_char s'
  end.

(** [name.split('.')[-1]]: the part after the last dot. *)
Fixpoint after_last_dot (s : string) : string :=
  match s with
  | EmptyString => EmptyString
  | String a s' =>
      if contains "."%char s' then after_last_dot s'
      else if Ascii.eqb a "."%char then s' else String a s'
  end.

(** [os.path.join(a, b)] on POSIX. *)
Definition path_join (a b : string) : string :=
  if startswith "/" b then b
  else if negb (nonempty a) || bool_decide (last_char a = Some "/"%char)
       then a +:+ b
       else a +:+ "/" +:+ b.

(** One character of the class repeated by [url_pattern]:
    [[a-zA-Z]|[0-9]|[$-_@.&+]|[!*\\(\\),]].  The range [$-_] runs from
    code 36 to code 95.  The last alternative of the pattern, a percent
    sign and two hexadecimal digits, begins with a character of [$-_]
    and is therefore never reached. *)
Definition url_char (c : ascii) : bool :=
  let n := ord c in
  ((97 <=? n) && (n <=? 122)) || ((65 <=? n) && (n <=? 90))
  || ((48 <=? n) && (n <=? 57))
  || ((36 <=? n) && (n <=? 95)) || (n =? 64) || (n =? 46) || (n =? 38)
  || (n =? 43)
  || (n =? 33) || (n =? 42) || (n =? 92) || (n =? 40) || (n =? 41)
  || (n =? 44).

(** The greedy repetition: the longest run of class characters. *)
Fixpoint url_body (s : string) : string :=
  match s with
  | EmptyString => EmptyString
  | String c s' => if url_char c then String c (url_body s') else EmptyString
  end.

(** [http[s]?://]: the optional [s] is tried first. *)
Definition url_scheme (s : string) : option (string * string) :=
  match strip_prefix "http" s with
  | None => None
  | Some r1 =>
      match strip_prefix "s://" r1 with
      | Some r => Some ("https://", r)
      | None =>
          match strip_prefix "://" r1 with
          | Some r => Some ("http://", r)
          | None => None
          end
      end
  end.

(** A match of [url_pattern] at the start of [s]. *)
Definition match_url (s : string) : option string :=
  match url_scheme s with
  | Some (sch, r) =>
      let body := url_body r in
      if nonempty body then Some (sch +:+ body) else None
  | None => None
  end.

(** [re.findall(url_pattern, text)]: leftmost matches, not overlapping;
    [skip] counts the characters of the last match still to be passed. *)
Fixpoint findall_from (skip : nat) (s : string) {struct s} : list string :=
  match s with
  | EmptyString => []
  | String _ s' =>
      match skip with
      | S k => findall_from k s'
      | O =>
          match match_url s with
          | Some u => u :: findall_from (Nat.pred (String.length u)) s'
          | None => findall_from O s'
          end
      end
  end.

Definition findall_urls (text : string) : list string := findall_from O text.

Definition is_alpha (c : ascii) : bool :=
  let n := ord c in
  ((97 <=? n) && (n <=? 122)) || ((65 <=? n) && (n <=? 90)).

Definition scheme_char (c : ascii) : bool :=
  let n := ord c in
  is_alpha c || ((48 <=? n) && (n <=? 57)) || (n =? 43) || (n =? 45)
  || (n =? 46).

(** The text after the first colon when what precedes it is a scheme. *)
Fixpoint after_scheme (first : bool) (s : string) : option string :=
  match s with
  | EmptyString => None
  | String c s' =>
      if Ascii.eqb c ":"%char then (if first then None else Some s')
      else if (if first then is_alpha c else scheme_char c)
           then after_scheme false s'
           else None
  end.

(** The network location ends at the first of [/], [?] and [#]. *)
Fixpoint netloc_of (s : string) : string :=
  match s with
  | EmptyString => EmptyString
  | String c s' =>
      if Ascii.eqb c "/"%char || Ascii.eqb c "?"%char || Ascii.eqb c "#"%char
      then EmptyString
      else String c (netloc_of s')
  end.

(** [s.partition(c)]: what precedes and what follows the first [c],
    or [None] when [c] does not occur. *)
Fixpoint partition (c : ascii) (s : string) : option (string * string) :=
  match s with
  | EmptyString => None
  | String a s' =>
      if Ascii.eqb a c then Some (EmptyString, s')
      else
        match partition c s' with
        | Some (x, y) => Some (String a x, y)
        | None => None
        end
  end.

(** [s.rpartition(c)[2]]: what follows the last [c], or [s]. *)
Fixpoint after_last (c : ascii) (s : string) : string :=
  match s with
  | EmptyString => EmptyString
  | String a s' =>
      if contains c s' then after_last c s'
      else if Ascii.eqb a c then s' else String a s'
  end.

(** [s.split(c)] *)
Fixpoint split_on (c : ascii) (s : string) : list string :=
  match s with
  | EmptyString => [EmptyString]
  | String a s' =>
      if Ascii.eqb a c then EmptyString :: split_on c s'
      else
        match split_on c s' with
        | p :: ps => String a p :: ps
        | [] => [String a EmptyString]
        end
  end.

Definition is_digit (c : ascii) : bool := (48 <=? ord c) && (ord c <=? 57).

Definition is_hex_digit (c : ascii) : bool :=
  let n := ord c in
  is_digit c || ((65 <=? n) && (n <=? 70)) || ((97 <=? n) && (n <=? 102)).

Definition all_chars (f : ascii -> bool) (s : string) : bool :=
  forallb f (list_ascii_of_string s).

(** [int(s, 10)] for a string of decimal digits. *)
Definition decimal_value (s : string) : Z :=
  fold_left (fun acc c => 10 * acc + (ord c - 48)) (list_ascii_of_string s) 0.

(** [ipaddress]: [_parse_octet]; [None] stands for its [ValueError]. *)
Definition parse_octet (octet_str : string) : option Z :=
  if negb (nonempty octet_str) then None
  else if negb (all_chars is_digit octet_str) then None
  else if (3 <? String.length octet_str)%nat then None
  else if negb (String.eqb octet_str "0") && startswith "0" octet_str then None
  else if 255 <? decimal_value octet_str then None
  else Some (decimal_value octet_str).

(** [IPv4Address(s)]: the four octets, or [None] for
    [AddressValueError]. *)
Definition ipv4_address (s : string) : option (Z * Z * Z * Z) :=
  if contains "/"%char s then None
  else if negb (nonempty s) then None
  else
    match split_on "."%char s with
    | [a; b; c; d] =>
        match parse_octet a, parse_octet b, parse_octet c, parse_octet d with
        | Some a, Some b, Some c, Some d => Some (a, b, c, d)
        | _, _, _, _ => None
        end
    | _ => None
    end.

(** ['%x' % n] for [n] below 65536. *)
Definition hex_word (n : Z) : string :=
  let digit (d : Z) : string := String (Md5.hex_digit d) EmptyString in
  (if 4096 <=? n then digit (n / 4096) else EmptyString)
  +:+ (if 256 <=? n then digit (n / 256 mod 16) else EmptyString)
  +:+ (if 16 <=? n then digit (n / 16 mod 16) else EmptyString)
  +:+ digit (n mod 16).

(** [_parse_hextet] succeeds: hexadecimal digits, one to four. *)
Definition parse_hextet (hextet_str : string) : bool :=
  all_chars is_hex_digit hextet_str
  && (String.length hextet_str <=? 4)%nat
  && nonempty hextet_str.

(** The indices from [i] on of the empty strings of [parts]. *)
Fixpoint empty_indices (i : nat) (parts : list string) : list nat :=
  match parts with
  | [] => []
  | p :: ps =>
      (if nonempty p then [] else [i]) ++ empty_indices (S i) ps
  end.

(** [IPv6Address(s)] succeeds: [_split_scope_id], then
    [_ip_int_from_string] on the address without its scope. *)
Definition ipv6_address (s : string) : bool :=
  if contains "/"%char s then false
  else
    let addr :=
      match partition "%"%char s with
      | None => Some s
      | Some (addr, scope_id) =>
          if negb (nonempty scope_id) || contains "%"%char scope_id
          then None else Some addr
      end in
    match addr with
    | None => false
    | Some ip_str =>
        if negb (nonempty ip_str) then false
        else
          let parts := split_on ":"%char ip_str in
          if (length parts <? 3)%nat then false
          else
            let parts :=
              if contains "."%char (List.last parts EmptyString) then
                match ipv4_address (List.last parts EmptyString) with
                | Some (a, b, c, d) =>
                    Some (removelast parts
                          ++ [hex_word (a * 256 + b); hex_word (c * 256 + d)])
                | None => None
                end
              else Some parts in
            match parts with
            | None => false
            | Some parts =>
                if (9 <? length parts)%nat then false
                else
                  let first_empty := negb (nonempty (hd EmptyString parts)) in
                  let last_empty :=
                    negb (nonempty (List.last parts EmptyString)) in
                  match empty_indices 1 (removelast (tl parts)) with
                  | _ :: _ :: _ => false
                  | [skip_index] =>
                      let parts_hi :=
                        if first_empty then (skip_index - 1)%nat
                        else skip_index in
                      let parts_lo :=
                        if last_empty
                        then (length parts - skip_index - 1 - 1)%nat
                        else (length parts - skip_index - 1)%nat in
                      if first_empty && negb (parts_hi =? 0)%nat then false
                      else if last_empty && negb (parts_lo =? 0)%nat
                      then false
                      else if (8 - (parts_hi + parts_lo) <? 1)%nat then false
                      else
                        forallb parse_hextet (firstn parts_hi parts)
                        && forallb parse_hextet
                             (skipn (length parts - parts_lo) parts)
                  | [] =>
                      (length parts =? 8)%nat
                      && negb first_empty && negb last_empty
                      && forallb parse_hextet parts
                  end
            end
    end.

(** The hexadecimal digits at the start of [s] are dropped. *)
Fixpoint skip_hex (s : string) : string :=
  match s with
  | EmptyString => EmptyString
  | String c s' => if is_hex_digit c then skip_hex s' else s
  end.

(** [re.match(r"\Av[a-fA-F0-9]+\..+\Z", hostname)] *)
Definition ipvfuture (hostname : string) : bool :=
  match hostname with
  | String "v" r =>
      match r with
      | String c _ =>
          is_hex_digit c
          && match skip_hex r with
             | String "." rest =>
                 nonempty rest && negb (contains "010"%char rest)
             | _ => false
             end
      | EmptyString => false
      end
  | _ => false
  end.

(** [_check_bracketed_host] returns: an IPvFuture address, or an IPv6
    address; an IPv4 address is refused between brackets. *)
Definition _check_bracketed_host (hostname : string) : bool :=
  if startswith "v" hostname then ipvfuture hostname
  else
    match ipv4_address hostname with
    | Some _ => false
    | None => ipv6_address hostname
    end.

(** [_check_bracketed_netloc] returns. *)
Definition _check_bracketed_netloc (netloc : string) : bool :=
  let hostname_and_port := after_last "@"%char netloc in
  match partition "["%char hostname_and_port with
  | Some (before_bracket, bracketed) =>
      if nonempty before_bracket then false
      else
        let '(hostname, port) :=
          match partition "]"%char bracketed with
          | Some (hostname, port) => (hostname, port)
          | None => (bracketed, EmptyString)
          end in
        if nonempty port && negb (startswith ":" port) then false
        else _check_bracketed_host hostname
  | None =>
      let hostname :=
        match partition ":"%char hostname_and_port with
        | Some (hostname, _) => hostname
        | None => hostname_and_port
        end in
      _check_bracketed_host hostname
  end.

(** [urlparse(url).netloc] for a URL of ASCII characters, as those of
    the pattern are; [None] stands for the [ValueError] that
    [urlsplit] raises when only one of the two square brackets occurs
    in the location, or when both occur and [_check_bracketed_netloc]
    raises. *)
Definition urlparse_netloc (url : string) : option string :=
  let rest := match after_scheme true url with Some r => r | None => url end in
  match strip_prefix "//" rest with
  | None => Some EmptyString
  | Some r =>
      let netloc := netloc_of r in
      if xorb (contains "["%char netloc) (contains "]"%char netloc)
      then None
      else if contains "["%char netloc && contains "]"%char netloc
           then (if _check_bracketed_netloc netloc then Some netloc else None)
           else Some netloc
  end.

Record LinkData := {
  ld_url : string;
  ld_domain : string;
  ld_title : option string;
  ld_description : option string }.

(** [_extract_links]: a URL whose parsing raises is skipped. *)
Definition _extract_links (text : string) : list LinkData :=
  if negb (nonempty text) then []
  else
    flat_map
      (fun url =>
         match urlparse_netloc url with
         | Some domain =>
             [ {| ld_url := url; ld_domain := domain;
                  ld_title := None; ld_description := None |} ]
         | None => []
         end)
      (findall_urls text).

(** ** The relational store

    One list of rows per table, in insertion order; every table has an
    identity sequence holding the next key.  [fetchrow] and [fetchval]
    return the first matching row.  A statement with a value that the
    store does not take raises before a key is drawn; a statement that
    violates a constraint raises and leaves the rows as they were, its
    key being consumed. *)

Inductive MediaKind := Image | Video | Audio | Document | Sticker | Animation.

Global Instance MediaKind_eq_dec : EqDecision MediaKind.
Proof. solve_decision. Defined.

(** The [content_type] strings of the source. *)
Definition kind_name (k : MediaKind) : string :=
  match k with
  | Image => "image" | Video => "video" | Audio => "audio"
  | Document => "document" | Sticker => "sticker" | Animation => "animation"
  end.

(** [LENGTH(s)] counts characters: the bytes that do not continue a
    UTF-8 sequence. *)
Fixpoint sql_length (s : string) : Z :=
  match s with
  | EmptyString => 0
  | String c s' =>
      (if Z.land (ord c) 0xC0 =? 0x80 then 0 else 1) + sql_length s'
  end.

(** A text value that holds U+0000 is refused. *)
Definition has_nul (s : string) : bool := contains "000"%char s.

(** The first [n] characters of [s] and what follows them. *)
Fixpoint split_chars (n : nat) (s : string) : string * string :=
  match s with
  | EmptyString => (EmptyString, EmptyString)
  | String c s' =>
      if Z.land (ord c) 0xC0 =? 0x80
      then let '(a, b) := split_chars n s' in (String c a, b)
      else
        match n with
        | O => (EmptyString, s)
        | S k => let '(a, b) := split_chars k s' in (String c a, b)
        end
  end.

(** The value that a [VARCHAR(n)] column takes for [s]: [s] when it
    has at most [n] characters, and its first [n] characters when those
    that follow are all spaces.  [None] stands for the exception of a
    value with U+0000 or too long for the column. *)
Definition varchar (n : Z) (s : string) : option string :=
  if has_nul s then None
  else if sql_length s <=? n then Some s
  else
    let '(taken, excess) := split_chars (Z.to_nat n) s in
    if forallb (Ascii.eqb " "%char) (list_ascii_of_string excess)
    then Some taken else None.

(** [CHECK(LENGTH(col) > 3)] *)
Definition length_checked (s : string) : bool := 3 <? sql_length s.

Record TextRow := { text_id : Z; message_text : string }.

(** A row of [photo], [video], [audio], [document], [sticker] or
    [animation]; only [document] has [original_name]. *)
Record MediaRow := {
  media_id : Z;
  media_link : string;
  original_name : option string }.

Record LinkRow := {
  link_id : Z;
  url : string;
  domain : string;
  title : option string;
  description : option string }.

Record ChannelRow := {
  channel_id : Z;
  tag_channel : string;
  name_channel : string;
  is_active : bool;
  added_by : Z;
  last_message_id : Z;
  last_check_at : Z }.

Record MessageChannelRow := {
  message_id : Z;
  mc_channel_id : Z;
  creation_time : Z;
  mc_text_id : option Z;
  mc_photo_id : option Z;
  mc_video_id : option Z;
  mc_audio_id : option Z;
  mc_document_id : option Z;
  mc_sticker_id : option Z;
  mc_animation_id : option Z;
  mc_link_id : option Z;
  telegram_message_id : option Z;
  file_hash : option string }.

Record Database := {
  text_tbl : list TextRow;
  text_seq : Z;
  media_tbl : MediaKind -> list MediaRow;
  media_seq : MediaKind -> Z;
  links_tbl : list LinkRow;
  links_seq : Z;
  channel_tbl : list ChannelRow;
  channel_seq : Z;
  mc_tbl : list MessageChannelRow;
  mc_seq : Z }.

Definition empty_db : Database :=
  {| text_tbl := []; text_seq := 1;
     media_tbl := fun _ => []; media_seq := fun _ => 1;
     links_tbl := []; links_seq := 1;
     channel_tbl := []; channel_seq := 1;
     mc_tbl := []; mc_seq := 1 |}.

Definition upd_fun {A} (f : MediaKind -> A) (k : MediaKind) (v : A)
  : MediaKind -> A :=
  fun k' => if decide (k' = k) then v else f k'.

Definition with_text (db : Database) (rows : list TextRow) (s : Z) : Database :=
  {| text_tbl := rows; text_seq := s;
     media_tbl := media_tbl db; media_seq := media_seq db;
     links_tbl := links_tbl db; links_seq := links_seq db;
     channel_tbl := channel_tbl db; channel_seq := channel_seq db;
     mc_tbl := mc_tbl db; mc_seq := mc_seq db |}.

Definition with_media (db : Database) (t : MediaKind -> list MediaRow)
  (s : MediaKind -> Z) : Database :=
  {| text_tbl := text_tbl db; text_seq := text_seq db;
     media_tbl := t; media_seq := s;
     links_tbl := links_tbl db; links_seq := links_seq db;
     channel_tbl := channel_tbl db; channel_seq := channel_seq db;
     mc_tbl := mc_tbl db; mc_seq := mc_seq db |}.

Definition with_links (db : Database) (rows : list LinkRow) (s : Z) : Database :=
  {| text_tbl := text_tbl db; text_seq := text_seq db;
     media_tbl := media_tbl db; media_seq := media_seq db;
     links_tbl := rows; links_seq := s;
     channel_tbl := channel_tbl db; channel_seq := channel_seq db;
     mc_tbl := mc_tbl db; mc_seq := mc_seq db |}.

Definition with_channel (db : Database) (rows : list ChannelRow) (s : Z)
  : Database :=
  {| text_tbl := text_tbl db; text_seq := text_seq db;
     media_tbl := media_tbl db; media_seq := media_seq db;
     links_tbl := links_tbl db; links_seq := links_seq db;
     channel_tbl := rows; channel_seq := s;
     mc_tbl := mc_tbl db; mc_seq := mc_seq db |}.

Definition with_mc (db : Database) (rows : list MessageChannelRow) (s : Z)
  : Database :=
  {| text_tbl := text_tbl db; text_seq := text_seq db;
     media_tbl := media_tbl db; media_seq := media_seq db;
     links_tbl := links_tbl db; links_seq := links_seq db;
     channel_tbl := channel_tbl db; channel_seq := channel_seq db;
     mc_tbl := rows; mc_seq := s |}.

(** [INSERT INTO "text" (message_text) VALUES ($1) RETURNING text_id];
    [message_text] is [TEXT NOT NULL]. *)
Definition insert_text (db : Database) (t : string) : Database * option Z :=
  if has_nul t then (db, None)
  else
    let id := text_seq db in
    (with_text db (text_tbl db ++ [ {| text_id := id; message_text := t |} ])
               (id + 1), Some id).

(** [INSERT INTO <kind> (<kind>_link) VALUES ($1) RETURNING <kind>_id]
    (with [original_name] for [document]); the link is
    [VARCHAR(250) NOT NULL CHECK(LENGTH(link) > 3)]. *)
Definition insert_media (db : Database) (k : MediaKind) (link : string)
  (name : option string) : Database * option Z :=
  let id := media_seq db k in
  let burnt := upd_fun (media_seq db) k (id + 1) in
  let stored_name :=
    match name with
    | Some n => Some <$> varchar 250 n
    | None => Some None
    end in
  match varchar 250 link, stored_name with
  | Some link, Some name =>
      if length_checked link
      then
        (with_media db
           (upd_fun (media_tbl db) k
              (media_tbl db k
               ++ [ {| media_id := id; media_link := link;
                       original_name := name |} ]))
           burnt, Some id)
      else (with_media db (media_tbl db) burnt, None)
  | _, _ => (db, None)
  end.

(** [INSERT INTO links ... ON CONFLICT (url) DO UPDATE SET url =
    EXCLUDED.url RETURNING link_id]: the row already holding the URL is
    returned unchanged, a new row is added otherwise; [url] is
    [VARCHAR(500)] with [LENGTH(url) > 3], [domain] is [VARCHAR(100)]. *)
Definition upsert_link (db : Database) (ld : LinkData) : Database * option Z :=
  let id := links_seq db in
  match varchar 500 (ld_url ld), varchar 100 (ld_domain ld) with
  | Some u, Some d =>
      if length_checked u
      then
        match List.find (fun r => String.eqb (url r) u) (links_tbl db) with
        | Some r => (with_links db (links_tbl db) (id + 1), Some (link_id r))
        | None =>
            (with_links db
               (links_tbl db
                ++ [ {| link_id := id; url := u; domain := d;
                        title := ld_title ld;
                        description := ld_description ld |} ])
               (id + 1), Some id)
        end
      else (with_links db (links_tbl db) (id + 1), None)
  | _, _ => (db, None)
  end.

(** [SELECT channel_id FROM channel WHERE tag_channel = $1] *)
Definition select_channel_id (db : Database) (tag : string) : option Z :=
  channel_id <$> List.find (fun r => String.eqb (tag_channel r) tag) (channel_tbl db).

(** [UPDATE channel SET ... WHERE tag_channel = $1]; the count of
    updated rows is the one of the status string [UPDATE n]. *)
Definition update_channel (db : Database) (tag : string)
  (f : ChannelRow -> ChannelRow) : Database * nat :=
  (with_channel db
     (map (fun r => if String.eqb (tag_channel r) tag then f r else r)
          (channel_tbl db))
     (channel_seq db),
   length (List.filter (fun r => String.eqb (tag_channel r) tag) (channel_tbl db))).

(** [INSERT INTO channel (tag_channel, name_channel, is_active, added_by,
    last_message_id, last_check_at) ... RETURNING channel_id]; tag and
    name are [VARCHAR(50)] with a length above 3. *)
Definition insert_channel (db : Database) (tag name : string) (active : bool)
  (by_ : Z) (last : Z) (now : Z) : Database * option Z :=
  let id := channel_seq db in
  match varchar 50 tag, varchar 50 name with
  | Some tag, Some name =>
      if length_checked tag && length_checked name
      then
        (with_channel db
           (channel_tbl db
            ++ [ {| channel_id := id; tag_channel := tag;
                    name_channel := name;
                    is_active := active; added_by := by_;
                    last_message_id := last; last_check_at := now |} ])
           (id + 1), Some id)
      else (with_channel db (channel_tbl db) (id + 1), None)
  | _, _ => (db, None)
  end.

(** [SELECT message_id FROM message_channel WHERE telegram_message_id =
    $1 AND channel_id = $2] *)
Definition same_key (cid tmid : Z) (r : MessageChannelRow) : bool :=
  bool_decide (telegram_message_id r = Some tmid) && (mc_channel_id r =? cid).

Definition select_existing (db : Database) (tmid cid : Z) : option Z :=
  message_id <$> List.find (same_key cid tmid) (mc_tbl db).

(** [file_hash VARCHAR(64) UNIQUE]: no two rows hold the same non-null
    hash. *)
Definition hash_taken (db : Database) (h : option string) : bool :=
  match h with
  | None => false
  | Some _ => existsb (fun r => bool_decide (file_hash r = h)) (mc_tbl db)
  end.

(** [channel_id BIGINT NOT NULL REFERENCES channel(channel_id)]. *)
Definition channel_known (db : Database) (cid : Z) : bool :=
  existsb (fun r => channel_id r =? cid) (channel_tbl db).

(** [INSERT INTO message_channel (...) VALUES (...)]: [row] gives the
    record for the key drawn from the sequence.  [false] stands for the
    exception of a violated constraint. *)
Definition insert_message_channel (db : Database)
  (row : Z -> MessageChannelRow) : Database * bool :=
  let r := row (mc_seq db) in
  if channel_known db (mc_channel_id r)
     && negb (hash_taken db (file_hash r))
     && match file_hash r with
        | Some h => sql_length h <=? 64
        | None => true
        end
  then (with_mc db (mc_tbl db ++ [r]) (mc_seq db + 1), true)
  else (with_mc db (mc_tbl db) (mc_seq db + 1), false).

(** ** Messages *)

(** A [datetime]: its wall-clock reading and its [tzinfo]. *)
Record DateTime := { dt_wall : Z; dt_tzinfo : option Z }.

(** What [tg_client.download_media(msg, file=bio)] does for a message. *)
Inductive Download :=
| DownloadRaises
| DownloadBytes (data : list byte).

(** A Telethon message.  [tg_media] is [None] when [msg.media] is
    falsy; the six flags are the truth values of [msg.photo],
    [msg.video], [msg.audio], [msg.sticker], [msg.gif] and
    [getattr(msg, 'animation', None)]. *)
Record TgMessage := {
  tg_id : Z;
  tg_date : option DateTime;
  tg_message : string;
  tg_media : option Download;
  tg_photo : bool;
  tg_video : bool;
  tg_audio : bool;
  tg_sticker : bool;
  tg_gif : bool;
  tg_animation : bool }.

Record PhotoSize := { ps_file_id : string; ps_file_size : option Z }.

Record FileRef := { file_id : string; file_name : option string }.

(** [message.content_type] of a Bot API message together with the
    attribute read for it. *)
Inductive Content :=
| TEXT (text : string)
| PHOTO (photo : list PhotoSize)
| DOCUMENT (document : FileRef)
| VIDEO (video : FileRef)
| AUDIO (audio : FileRef)
| STICKER (sticker_file_id : string)
| ANIMATION (animation : FileRef)
| OTHER.

Record Message := {
  content : Content;
  media_group_id : string }.

(** ** The bot and its surroundings *)

Record ProcessedContent := {
  pc_file_hash : string;
  pc_file_path : string;
  pc_db_id : Z;
  pc_timestamp : Z }.

(** A value of [monitored_channels]. *)
Record ChannelMeta := {
  meta_is_active : bool;
  meta_last_id : Z;
  meta_channel_id : Z }.

(** The lines of the log that the properties refer to. *)
Inductive LogLine :=
| LogEmptyMessage (id : Z)
| LogRecordCreated (cid tmid : Z)
| LogRecordExists (tmid : Z)
| LogRecordFailed
| LogDuplicateFile
| LogMediaGroup (items : nat).

(** One [bot.send_message(notification_chat_id, ...)] of the monitor:
    the number of new posts and the counter of content types. *)
Record Notification := {
  note_chat : Z;
  note_new_count : Z;
  note_counter : gmap string Z }.

(** A coroutine of the Bot API side that waits for [_download_file]:
    the handler of a single message, or a call of
    [_process_media_group] with the list it iterates and the index of
    the fragment whose file it waits for. *)
Inductive Task :=
| Single (message : Message)
| Flush (messages : nat) (index : nat).

(** The fields of [ContentCollectorBot] followed by the surroundings it
    acts on.  The values of [media_groups] are list objects that
    [_handle_media_group] appends to while [_process_media_group]
    iterates them: [media_groups] holds the reference of each, and
    [buffers] the lists by reference.  Then the local disk, the files
    the Bot API serves, the clock, the sleeping [process_group_later]
    tasks with their wake-up time, the coroutines that wait for a
    download, the log and the notifications sent. *)
Record State := {
  download_path : string;
  processed_content : gmap string ProcessedContent;
  media_groups : gmap string nat;
  buffers : list (list Message);
  monitored_channels : list (string * ChannelMeta);
  tg_client : bool;
  notification_chat_id : option Z;
  db_pool : option Database;
  disk : gmap string (list byte);
  disk_writable : string -> bool;
  bot_api_files : string -> option (list byte);
  clock : Z;
  timers : list (Z * string);
  suspended : list Task;
  log : list LogLine;
  outbox : list Notification }.

Definition set_processed_content (f : gmap string ProcessedContent ->
  gmap string ProcessedContent) (st : State) : State :=
  {| download_path := download_path st;
     processed_content := f (processed_content st);
     media_groups := media_groups st; buffers := buffers st;
     monitored_channels := monitored_channels st;
     tg_client := tg_client st;
     notification_chat_id := notification_chat_id st;
     db_pool := db_pool st; disk := disk st;
     disk_writable := disk_writable st; bot_api_files := bot_api_files st;
     clock := clock st; timers := timers st; suspended := suspended st;
     log := log st;
     outbox := outbox st |}.

Definition set_media_groups (f : gmap string nat -> gmap string nat)
  (st : State) : State :=
  {| download_path := download_path st;
     processed_content := processed_content st;
     media_groups := f (media_groups st); buffers := buffers st;
     monitored_channels := monitored_channels st;
     tg_client := tg_client st;
     notification_chat_id := notification_chat_id st;
     db_pool := db_pool st; disk := disk st;
     disk_writable := disk_writable st; bot_api_files := bot_api_files st;
     clock := clock st; timers := timers st; suspended := suspended st;
     log := log st;
     outbox := outbox st |}.

Definition set_monitored_channels (f : list (string * ChannelMeta) ->
  list (string * ChannelMeta)) (st : State) : State :=
  {| download_path := download_path st;
     processed_content := processed_content st;
     media_groups := media_groups st; buffers := buffers st;
     monitored_channels := f (monitored_channels st);
     tg_client := tg_client st;
     notification_chat_id := notification_chat_id st;
     db_pool := db_pool st; disk := disk st;
     disk_writable := disk_writable st; bot_api_files := bot_api_files st;
     clock := clock st; timers := timers st; suspended := suspended st;
     log := log st;
     outbox := outbox st |}.

Definition set_db (db : Database) (st : State) : State :=
  {| download_path := download_path st;
     processed_content := processed_content st;
     media_groups := media_groups st; buffers := buffers st;
     monitored_channels := monitored_channels st;
     tg_client := tg_client st;
     notification_chat_id := notification_chat_id st;
     db_pool := Some db; disk := disk st;
     disk_writable := disk_writable st; bot_api_files := bot_api_files st;
     clock := clock st; timers := timers st; suspended := suspended st;
     log := log st;
     outbox := outbox st |}.

Definition set_disk (f : gmap string (list byte) -> gmap string (list byte))
  (st : State) : State :=
  {| download_path := download_path st;
     processed_content := processed_content st;
     media_groups := media_groups st; buffers := buffers st;
     monitored_channels := monitored_channels st;
     tg_client := tg_client st;
     notification_chat_id := notification_chat_id st;
     db_pool := db_pool st; disk := f (disk st);
     disk_writable := disk_writable st; bot_api_files := bot_api_files st;
     clock := clock st; timers := timers st; suspended := suspended st;
     log := log st;
     outbox := outbox st |}.

Definition set_clock (t : Z) (st : State) : State :=
  {| download_path := download_path st;
     processed_content := processed_content st;
     media_groups := media_groups st; buffers := buffers st;
     monitored_channels := monitored_channels st;
     tg_client := tg_client st;
     notification_chat_id := notification_chat_id st;
     db_pool := db_pool st; disk := disk st;
     disk_writable := disk_writable st; bot_api_files := bot_api_files st;
     clock := t; timers := timers st; suspended := suspended st;
     log := log st;
     outbox := outbox st |}.

Definition set_timers (ts : list (Z * string)) (st : State) : State :=
  {| download_path := download_path st;
     processed_content := processed_content st;
     media_groups := media_groups st; buffers := buffers st;
     monitored_channels := monitored_channels st;
     tg_client := tg_client st;
     notification_chat_id := notification_chat_id st;
     db_pool := db_pool st; disk := disk st;
     disk_writable := disk_writable st; bot_api_files := bot_api_files st;
     clock := clock st; timers := ts; suspended := suspended st;
     log := log st;
     outbox := outbox st |}.

Definition set_buffers (f : list (list Message) -> list (list Message))
  (st : State) : State :=
  {| download_path := download_path st;
     processed_content := processed_content st;
     media_groups := media_groups st; buffers := f (buffers st);
     monitored_channels := monitored_channels st;
     tg_client := tg_client st;
     notification_chat_id := notification_chat_id st;
     db_pool := db_pool st; disk := disk st;
     disk_writable := disk_writable st; bot_api_files := bot_api_files st;
     clock := clock st; timers := timers st; suspended := suspended st;
     log := log st;
     outbox := outbox st |}.

Definition set_suspended (f : list Task -> list Task) (st : State) : State :=
  {| download_path := download_path st;
     processed_content := processed_content st;
     media_groups := media_groups st; buffers := buffers st;
     monitored_channels := monitored_channels st;
     tg_client := tg_client st;
     notification_chat_id := notification_chat_id st;
     db_pool := db_pool st; disk := disk st;
     disk_writable := disk_writable st; bot_api_files := bot_api_files st;
     clock := clock st; timers := timers st; suspended := f (suspended st);
     log := log st;
     outbox := outbox st |}.

Definition add_log (l : LogLine) (st : State) : State :=
  {| download_path := download_path st;
     processed_content := processed_content st;
     media_groups := media_groups st; buffers := buffers st;
     monitored_channels := monitored_channels st;
     tg_client := tg_client st;
     notification_chat_id := notification_chat_id st;
     db_pool := db_pool st; disk := disk st;
     disk_writable := disk_writable st; bot_api_files := bot_api_files st;
     clock := clock st; timers := timers st; suspended := suspended st;
     log := log st ++ [l];
     outbox := outbox st |}.

Definition send_message (n : Notification) (st : State) : State :=
  {| download_path := download_path st;
     processed_content := processed_content st;
     media_groups := media_groups st; buffers := buffers st;
     monitored_channels := monitored_channels st;
     tg_client := tg_client st;
     notification_chat_id := notification_chat_id st;
     db_pool := db_pool st; disk := disk st;
     disk_writable := disk_writable st; bot_api_files := bot_api_files st;
     clock := clock st; timers := timers st; suspended := suspended st;
     log := log st;
     outbox := outbox st ++ [n] |}.

(** *** Small operations of the class *)

(** [datetime.now()]: the clock is read and moves on. *)
Definition datetime_now (st : State) : State * Z :=
  (set_clock (clock st + 1) st, clock st).

(** [_calculate_file_hash] *)
Definition _calculate_file_hash (file_data : list byte) : string :=
  Md5.hexdigest file_data.

(** [_is_duplicate]: membership in [processed_content]. *)
Definition _is_duplicate (st : State) (file_hash : string) : bool :=
  bool_decide (is_Some (processed_content st !! file_hash)).

(** [_normalize_datetime] *)
Definition _normalize_datetime (st : State) (dt : option DateTime)
  : State * DateTime :=
  match dt with
  | None =>
      let '(st1, now) := datetime_now st in
      (st1, {| dt_wall := now; dt_tzinfo := None |})
  | Some d =>
      match dt_tzinfo d with
      | Some _ => (st, {| dt_wall := dt_wall d; dt_tzinfo := None |})
      | None => (st, d)
      end
  end.

(** [_generate_filename]; [strftime] renders the instant read from the
    clock, here in decimal. *)
Definition _generate_filename (st : State) (original_name : option string)
  (content_type : string) : State * string :=
  let '(st1, now) := datetime_now st in
  let timestamp : string := pretty now in
  match original_name with
  | Some name =>
      if nonempty name then
        let extension :=
          if contains "."%char name then after_last_dot name else "bin" in
        (st1, content_type +:+ "_" +:+ timestamp +:+ "." +:+ extension)
      else (st1, content_type +:+ "_" +:+ timestamp)
  | None => (st1, content_type +:+ "_" +:+ timestamp)
  end.

(** [_save_file_locally]: [None] when opening or writing raises. *)
Definition _save_file_locally (st : State) (file_data : list byte)
  (filename content_type : string) : State * option string :=
  let file_dir := path_join (download_path st) content_type in
  let file_path := path_join file_dir filename in
  if disk_writable st file_path
  then (set_disk (insert file_path file_data) st, Some file_path)
  else (st, None).

(** [processed_content[file_hash] = ProcessedContent(...)] *)
Definition record_fingerprint (st : State) (file_hash file_path : string)
  : State :=
  let '(st1, now) := datetime_now st in
  set_processed_content
    (insert file_hash
       {| pc_file_hash := file_hash; pc_file_path := file_path;
          pc_db_id := -1; pc_timestamp := now |})
    st1.

(** ** [_save_telethon_message] *)

(** The local variables of [_save_telethon_message]. *)
Record Locals := {
  saved_any : bool;
  message_processed : bool;
  v_text_id : option Z;
  v_photo_id : option Z;
  v_video_id : option Z;
  v_audio_id : option Z;
  v_document_id : option Z;
  v_sticker_id : option Z;
  v_animation_id : option Z;
  v_link_id : option Z;
  v_file_hash : option string }.

Definition initial_locals : Locals :=
  {| saved_any := false; message_processed := false;
     v_text_id := None; v_photo_id := None; v_video_id := None;
     v_audio_id := None; v_document_id := None; v_sticker_id := None;
     v_animation_id := None; v_link_id := None; v_file_hash := None |}.

Definition set_flags (saved processed : bool) (l : Locals) : Locals :=
  {| saved_any := saved; message_processed := processed;
     v_text_id := v_text_id l; v_photo_id := v_photo_id l;
     v_video_id := v_video_id l; v_audio_id := v_audio_id l;
     v_document_id := v_document_id l; v_sticker_id := v_sticker_id l;
     v_animation_id := v_animation_id l; v_link_id := v_link_id l;
     v_file_hash := v_file_hash l |}.

Definition mark_processed (l : Locals) : Locals := set_flags (saved_any l) true l.
Definition mark_saved (l : Locals) : Locals := set_flags true (message_processed l) l.

Definition set_file_hash (h : string) (l : Locals) : Locals :=
  {| saved_any := saved_any l; message_processed := message_processed l;
     v_text_id := v_text_id l; v_photo_id := v_photo_id l;
     v_video_id := v_video_id l; v_audio_id := v_audio_id l;
     v_document_id := v_document_id l; v_sticker_id := v_sticker_id l;
     v_animation_id := v_animation_id l; v_link_id := v_link_id l;
     v_file_hash := Some h |}.

Definition set_text_id (id : Z) (l : Locals) : Locals :=
  {| saved_any := saved_any l; message_processed := message_processed l;
     v_text_id := Some id; v_photo_id := v_photo_id l;
     v_video_id := v_video_id l; v_audio_id := v_audio_id l;
     v_document_id := v_document_id l; v_sticker_id := v_sticker_id l;
     v_animation_id := v_animation_id l; v_link_id := v_link_id l;
     v_file_hash := v_file_hash l |}.

Definition set_link_id (id : Z) (l : Locals) : Locals :=
  {| saved_any := saved_any l; message_processed := message_processed l;
     v_text_id := v_text_id l; v_photo_id := v_photo_id l;
     v_video_id := v_video_id l; v_audio_id := v_audio_id l;
     v_document_id := v_document_id l; v_sticker_id := v_sticker_id l;
     v_animation_id := v_animation_id l; v_link_id := Some id;
     v_file_hash := v_file_hash l |}.

(** [media_id = result[...]] followed by the assignment to the variable
    of the kind. *)
Definition set_media_id (k : MediaKind) (id : Z) (l : Locals) : Locals :=
  let pick (k' : MediaKind) (old : option Z) :=
    if decide (k = k') then Some id else old in
  {| saved_any := saved_any l; message_processed := message_processed l;
     v_text_id := v_text_id l;
     v_photo_id := pick Image (v_photo_id l);
     v_video_id := pick Video (v_video_id l);
     v_audio_id := pick Audio (v_audio_id l);
     v_document_id := pick Document (v_document_id l);
     v_sticker_id := pick Sticker (v_sticker_id l);
     v_animation_id := pick Animation (v_animation_id l);
     v_link_id := v_link_id l; v_file_hash := v_file_hash l |}.

(** [channel_id] as looked up at the start when it was not passed. *)
Definition resolve_channel_id (st : State) (channel_name : string)
  (channel_id : option Z) : option Z :=
  match channel_id with
  | Some c => Some c
  | None =>
      match db_pool st with
      | Some db =>
          if nonempty channel_name then select_channel_id db channel_name
          else None
      | None => None
      end
  end.

(** [self.db_pool and channel_id] *)
Definition db_ready (st : State) (channel_id : option Z) : option (Database * Z) :=
  match db_pool st, channel_id with
  | Some db, Some c => if c =? 0 then None else Some (db, c)
  | _, _ => None
  end.

(** The classification of lines 450 to 461. *)
Definition classify (msg : TgMessage) : MediaKind :=
  if tg_photo msg then Image
  else if tg_video msg then Video
  else if tg_audio msg then Audio
  else if tg_sticker msg then Sticker
  else if tg_gif msg || tg_animation msg then Animation
  else Document.

(** The text branch.  [None] is an exception that reaches the outer
    handler: the text statement or the link statement refused by the
    store. *)
Definition save_text (st : State) (msg : TgMessage) (channel_id : option Z)
  (l : Locals) : State * option Locals :=
  if negb (nonempty (tg_message msg)) then (st, Some l)
  else
    let l := mark_processed l in
    let text_bytes := encode_utf8 (tg_message msg) in
    let '(st, filename) := _generate_filename st None "text" in
    let '(st, file_path) := _save_file_locally st text_bytes filename "text" in
    match file_path with
    | None => (st, Some l)
    | Some file_path =>
        let file_hash := _calculate_file_hash text_bytes in
        let l := set_file_hash file_hash l in
        if _is_duplicate st file_hash then (st, Some l)
        else
          let stored :=
            match db_ready st channel_id with
            | Some (db, _) =>
                match insert_text db (tg_message msg) with
                | (db, Some text_id) =>
                    let l := set_text_id text_id l in
                    match _extract_links (tg_message msg) with
                    | link_data :: _ =>
                        match upsert_link db link_data with
                        | (db, Some link_id) =>
                            (set_db db st, Some (set_link_id link_id l))
                        | (db, None) => (set_db db st, None)
                        end
                    | [] => (set_db db st, Some l)
                    end
                | (db, None) => (set_db db st, None)
                end
            | None => (st, Some l)
            end in
          match stored with
          | (st, Some l) =>
              (record_fingerprint st file_hash file_path, Some (mark_saved l))
          | (st, None) => (st, None)
          end
    end.

(** The media branch; everything from the download on is inside a [try]
    whose handler only logs. *)
Definition save_media (st : State) (msg : TgMessage) (channel_id : option Z)
  (l : Locals) : State * Locals :=
  match tg_media msg with
  | None => (st, l)
  | Some download =>
      let l := mark_processed l in
      if negb (tg_client st) then (st, l)
      else
        match download with
        | DownloadRaises => (st, l)
        | DownloadBytes [] => (st, l)
        | DownloadBytes data =>
            let file_hash := _calculate_file_hash data in
            let l := set_file_hash file_hash l in
            if _is_duplicate st file_hash then (st, l)
            else
              let content_type := classify msg in
              let '(st, filename) :=
                _generate_filename st None (kind_name content_type) in
              let '(st, file_path) :=
                _save_file_locally st data filename (kind_name content_type) in
              match file_path with
              | None => (st, l)
              | Some file_path =>
                  match db_ready st channel_id with
                  | Some (db, _) =>
                      let name :=
                        match content_type with
                        | Document => Some filename
                        | _ => None
                        end in
                      match insert_media db content_type file_path name with
                      | (db, Some media_id) =>
                          (record_fingerprint (set_db db st) file_hash file_path,
                           mark_saved (set_media_id content_type media_id l))
                      | (db, None) => (set_db db st, l)
                      end
                  | None =>
                      (record_fingerprint st file_hash file_path, mark_saved l)
                  end
              end
        end
  end.

(** A message with neither text nor media, but with an id. *)
Definition note_empty (st : State) (msg : TgMessage) (l : Locals)
  : State * Locals :=
  if negb (message_processed l) && negb (tg_id msg =? 0)
  then (add_log (LogEmptyMessage (tg_id msg)) st, mark_processed l)
  else (st, l).

(** The values of the [INSERT INTO message_channel]. *)
Definition unified_row (l : Locals) (channel_id telegram_id created key : Z)
  : MessageChannelRow :=
  {| message_id := key; mc_channel_id := channel_id;
     creation_time := created;
     mc_text_id := v_text_id l; mc_photo_id := v_photo_id l;
     mc_video_id := v_video_id l; mc_audio_id := v_audio_id l;
     mc_document_id := v_document_id l; mc_sticker_id := v_sticker_id l;
     mc_animation_id := v_animation_id l; mc_link_id := v_link_id l;
     telegram_message_id := Some telegram_id;
     file_hash := v_file_hash l |}.

(** The single record of [message_channel] for the message. *)
Definition reconcile (st : State) (msg : TgMessage) (channel_id : option Z)
  (l : Locals) : State * Locals :=
  match db_ready st channel_id with
  | Some (db, cid) =>
      if tg_id msg =? 0 then (st, l)
      else
        let existing := select_existing db (tg_id msg) cid in
        if truthy existing then (add_log (LogRecordExists (tg_id msg)) st, l)
        else
          let '(st, creation) := _normalize_datetime st (tg_date msg) in
          match insert_message_channel db
                  (unified_row l cid (tg_id msg) (dt_wall creation)) with
          | (db, true) =>
              (add_log (LogRecordCreated cid (tg_id msg)) (set_db db st),
               mark_saved l)
          | (db, false) => (add_log LogRecordFailed (set_db db st), l)
          end
  | None => (st, l)
  end.

Definition types_saved (l : Locals) : list string :=
  (if truthy (v_text_id l) then ["text"] else [])
  ++ (if truthy (v_photo_id l) then ["photo"] else [])
  ++ (if truthy (v_video_id l) then ["video"] else [])
  ++ (if truthy (v_audio_id l) then ["audio"] else [])
  ++ (if truthy (v_document_id l) then ["document"] else [])
  ++ (if truthy (v_sticker_id l) then ["sticker"] else [])
  ++ (if truthy (v_animation_id l) then ["animation"] else [])
  ++ (if truthy (v_link_id l) then ["link"] else []).

Definition _save_telethon_message (st : State) (msg : TgMessage)
  (channel_name : string) (channel_id : option Z)
  : State * (bool * list string) :=
  let channel_id := resolve_channel_id st channel_name channel_id in
  match save_text st msg channel_id initial_locals with
  | (st, None) => (st, (false, []))
  | (st, Some l) =>
      let '(st, l) := save_media st msg channel_id l in
      let '(st, l) := note_empty st msg l in
      let '(st, l) := reconcile st msg channel_id l in
      (st, (message_processed l || saved_any l, types_saved l))
  end.

(** ** The transport *)

(** What [tg_client.get_entity(channel)] resolves to: the title, when
    the entity has one, and the messages of the channel in the order in
    which [iter_messages] delivers them. *)
Record Entity := {
  ent_title : option string;
  ent_messages : list TgMessage }.

(** [None] when [get_entity] raises. *)
Definition Transport := string -> option Entity.

(** [iter_messages(entity, min_id=last_id)]: the messages with an id
    strictly above [min_id]. *)
Definition iter_messages_since (entity : Entity) (min_id : Z) : list TgMessage :=
  List.filter (fun m => min_id <? tg_id m) (ent_messages entity).

(** [iter_messages(entity, limit=1)] yields the newest message, the one
    with the greatest id. *)
Fixpoint newest (msgs : list TgMessage) : option TgMessage :=
  match msgs with
  | [] => None
  | m :: ms =>
      match newest ms with
      | Some n => if tg_id m <? tg_id n then Some n else Some m
      | None => Some m
      end
  end.

(** [getattr(last, 'id', 0)] for the message [last], if any, that
    [iter_messages(entity, limit=1)] yields. *)
Definition latest_id (entity : Entity) : Z :=
  match newest (ent_messages entity) with
  | Some last => tg_id last
  | None => 0
  end.

(** ** [monitored_channels]: a dictionary in insertion order *)

Fixpoint dict_get {V} (k : string) (d : list (string * V)) : option V :=
  match d with
  | [] => None
  | (k', v) :: d' => if String.eqb k' k then Some v else dict_get k d'
  end.

Fixpoint dict_set {V} (k : string) (v : V) (d : list (string * V))
  : list (string * V) :=
  match d with
  | [] => [(k, v)]
  | (k', v') :: d' =>
      if String.eqb k' k then (k, v) :: d' else (k', v') :: dict_set k v d'
  end.

Definition with_last_id (id : Z) (meta : ChannelMeta) : ChannelMeta :=
  {| meta_is_active := meta_is_active meta; meta_last_id := id;
     meta_channel_id := meta_channel_id meta |}.

Definition with_is_active (b : bool) (meta : ChannelMeta) : ChannelMeta :=
  {| meta_is_active := b; meta_last_id := meta_last_id meta;
     meta_channel_id := meta_channel_id meta |}.

(** [meta.get('last_id', 0)] for the entry of [channel]. *)
Definition cursor (st : State) (channel : string) : Z :=
  match dict_get channel (monitored_channels st) with
  | Some meta => meta_last_id meta
  | None => 0
  end.

(** ** [_monitor_loop] *)

(** [Counter.update(types)] *)
Definition counter_update (types : list string) (c : gmap string Z)
  : gmap string Z :=
  fold_left (fun c t => <[t := default 0 (c !! t) + 1]> c) types c.

(** What one channel's turn has counted so far, and the calls of
    [_save_telethon_message] it made with their [success]. *)
Record Cycle := {
  new_count : Z;
  content_counter : gmap string Z;
  handled : list (TgMessage * bool) }.

Definition set_row_cursor (id now : Z) (r : ChannelRow) : ChannelRow :=
  {| channel_id := channel_id r; tag_channel := tag_channel r;
     name_channel := name_channel r; is_active := is_active r;
     added_by := added_by r; last_message_id := id; last_check_at := now |}.

Definition set_row_checked (now : Z) (r : ChannelRow) : ChannelRow :=
  {| channel_id := channel_id r; tag_channel := tag_channel r;
     name_channel := name_channel r; is_active := is_active r;
     added_by := added_by r; last_message_id := last_message_id r;
     last_check_at := now |}.

Definition set_row_active (b : bool) (by_ : option Z) (now : Z) (r : ChannelRow)
  : ChannelRow :=
  {| channel_id := channel_id r; tag_channel := tag_channel r;
     name_channel := name_channel r; is_active := b;
     added_by := default (added_by r) by_;
     last_message_id := last_message_id r; last_check_at := now |}.

(** [meta['last_id'] = msg.id] and the [UPDATE] that follows it. *)
Definition advance_cursor (st : State) (channel : string) (id : Z) : State :=
  let st :=
    match dict_get channel (monitored_channels st) with
    | Some meta =>
        set_monitored_channels (dict_set channel (with_last_id id meta)) st
    | None => st
    end in
  match db_pool st with
  | Some db =>
      set_db (fst (update_channel db channel (set_row_cursor id (clock st)))) st
  | None => st
  end.

(** The body of the [async for] of the monitor. *)
Definition monitor_message (channel : string) (cid : Z)
  (acc : State * Cycle) (msg : TgMessage) : State * Cycle :=
  let '(st, c) := acc in
  let '(st, (success, types)) :=
    _save_telethon_message st msg channel (Some cid) in
  if success then
    let c :=
      {| new_count := new_count c + 1;
         content_counter := counter_update types (content_counter c);
         handled := handled c ++ [(msg, true)] |} in
    if negb (tg_id msg =? 0) && (cursor st channel <? tg_id msg)
    then (advance_cursor st channel (tg_id msg), c)
    else (st, c)
  else
    (st, {| new_count := new_count c; content_counter := content_counter c;
            handled := handled c ++ [(msg, false)] |}).

(** One channel's turn inside a pass of the monitor; [None] when the
    channel is inactive or cannot be resolved. *)
Definition monitor_channel (st : State) (transport : Transport)
  (channel : string) : State * option Cycle :=
  match dict_get channel (monitored_channels st) with
  | None => (st, None)
  | Some meta =>
      if negb (meta_is_active meta) then (st, None)
      else
        match transport channel with
        | None => (st, None)
        | Some entity =>
            let last_id := meta_last_id meta in
            let '(st, c) :=
              fold_left (monitor_message channel (meta_channel_id meta))
                (iter_messages_since entity last_id)
                (st, {| new_count := 0; content_counter := ∅; handled := [] |}) in
            let st :=
              if negb (new_count c =? 0) && truthy (notification_chat_id st)
              then send_message
                     {| note_chat := default 0 (notification_chat_id st);
                        note_new_count := new_count c;
                        note_counter := content_counter c |} st
              else st in
            let st :=
              match db_pool st with
              | Some db =>
                  set_db (fst (update_channel db channel
                                 (set_row_checked (clock st)))) st
              | None => st
              end in
            (st, Some c)
        end
  end.

(** One pass of the [while True] loop over the snapshot
    [list(self.monitored_channels.items())]. *)
Definition monitor_pass (st : State) (transport : Transport) : State :=
  if tg_client st && bool_decide (monitored_channels st <> [])
  then
    fold_left (fun st ch => fst (monitor_channel st transport ch))
              (map fst (monitored_channels st)) st
  else st.

(** ** [_add_channel] and [_stop_channel] *)

Definition _add_channel (st : State) (transport : Transport)
  (channel : string) (added_by : Z) : State * bool :=
  if negb (tg_client st) then (st, false)
  else
    match transport channel with
    | None => (st, false)
    | Some entity =>
        let channel_title := default channel (ent_title entity) in
        let last_id := latest_id entity in
        match db_pool st with
        | None => (st, false)     (* [channel_id] is unbound: NameError *)
        | Some db =>
            let registered :=
              match select_channel_id db channel with
              | Some existing =>
                  (fst (update_channel db channel
                          (fun r => set_row_cursor last_id (clock st)
                                      (set_row_active true (Some added_by)
                                                      (clock st) r))),
                   Some existing)
              | None =>
                  insert_channel db channel channel_title true added_by
                                 last_id (clock st)
              end in
            match registered with
            | (db, Some channel_id) =>
                (set_monitored_channels
                   (dict_set channel
                      {| meta_is_active := true; meta_last_id := last_id;
                         meta_channel_id := channel_id |})
                   (set_db db st), true)
            | (db, None) => (set_db db st, false)
            end
        end
    end.

Definition _stop_channel (st : State) (channel : string) : State * bool :=
  let in_memory (st : State) : State :=
    match dict_get channel (monitored_channels st) with
    | Some meta =>
        set_monitored_channels (dict_set channel (with_is_active false meta)) st
    | None => st
    end in
  match db_pool st with
  | Some db =>
      let '(db, n) :=
        update_channel db channel (set_row_active false None (clock st)) in
      if bool_decide (n = O) then (set_db db st, false)
      else (in_memory (set_db db st), true)
  | None => (in_memory st, true)
  end.

(** ** [start]: a new process on the same store *)

(** The object that [__init__] builds: the dictionaries of the process
    are empty; the store, the disk and the rest of the surroundings are
    those of [st]. *)
Definition new_process (st : State) : State :=
  {| download_path := download_path st;
     processed_content := ∅; media_groups := ∅; buffers := [];
     monitored_channels := [];
     tg_client := tg_client st;
     notification_chat_id := notification_chat_id st;
     db_pool := db_pool st; disk := disk st;
     disk_writable := disk_writable st; bot_api_files := bot_api_files st;
     clock := clock st; timers := []; suspended := [];
     log := log st; outbox := outbox st |}.

(** The loading of [start]: [SELECT channel_id, tag_channel, is_active,
    last_message_id FROM channel WHERE is_active = TRUE], each row
    becoming an entry of [monitored_channels]. *)
Definition load_channels (st : State) : State :=
  match db_pool st with
  | Some db =>
      fold_left
        (fun st r =>
           set_monitored_channels
             (dict_set (tag_channel r)
                {| meta_is_active := is_active r;
                   meta_last_id := last_message_id r;
                   meta_channel_id := channel_id r |}) st)
        (List.filter is_active (channel_tbl db)) st
  | None => st
  end.

(** ** The handlers of Bot API messages *)

(** [_download_file]: [None] when the Bot API call raises. *)
Definition _download_file (st : State) (file_id : string) : option (list byte) :=
  bot_api_files st file_id.

Definition _process_single_file (st : State) (file_id content_type : string)
  (original_name : option string) : State * bool :=
  match _download_file st file_id with
  | None => (st, false)
  | Some [] => (st, false)
  | Some file_data =>
      let file_hash := _calculate_file_hash file_data in
      if _is_duplicate st file_hash then (add_log LogDuplicateFile st, false)
      else
        let '(st, filename) := _generate_filename st original_name content_type in
        let '(st, file_path) :=
          _save_file_locally st file_data filename content_type in
        match file_path with
        | Some file_path => (record_fingerprint st file_hash file_path, true)
        | None => (st, false)
        end
  end.

Definition _process_text (st : State) (text : string) : State * bool :=
  if negb (nonempty text) then (st, false)
  else
    let text_data := encode_utf8 text in
    let '(st, filename) := _generate_filename st None "text" in
    let '(st, file_path) := _save_file_locally st text_data filename "text" in
    match file_path with
    | Some file_path =>
        let file_hash := _calculate_file_hash text_data in
        if negb (_is_duplicate st file_hash)
        then (record_fingerprint st file_hash file_path, true)
        else (st, false)
    | None => (st, false)
    end.

(** [max(photos, key=lambda p: p.file_size or 0)]: the first of the
    largest. *)
Fixpoint largest_photo (first : PhotoSize) (photos : list PhotoSize) : PhotoSize :=
  match photos with
  | [] => first
  | p :: ps =>
      if default 0 (ps_file_size first) <? default 0 (ps_file_size p)
      then largest_photo p ps
      else largest_photo first ps
  end.

Definition _process_photo (st : State) (photos : list PhotoSize) : State * bool :=
  match photos with
  | [] => (st, false)
  | p :: ps =>
      let largest := largest_photo p ps in
      _process_single_file st (ps_file_id largest) "image"
        (Some ("photo_" +:+ ps_file_id largest +:+ ".jpg"))
  end.

Definition _process_document (st : State) (d : FileRef) : State * bool :=
  _process_single_file st (file_id d) "document" (file_name d).

Definition _process_video (st : State) (v : FileRef) : State * bool :=
  _process_single_file st (file_id v) "video" (file_name v).

(** [x.file_name if x.file_name else fallback] *)
Definition name_or (name : option string) (fallback : string) : string :=
  match name with
  | Some n => if nonempty n then n else fallback
  | None => fallback
  end.

Definition _process_audio (st : State) (a : FileRef) : State * bool :=
  _process_single_file st (file_id a) "audio"
    (Some (name_or (file_name a) ("audio_" +:+ file_id a +:+ ".mp3"))).

Definition _process_sticker (st : State) (sticker_id : string) : State * bool :=
  _process_single_file st sticker_id "sticker"
    (Some ("sticker_" +:+ sticker_id +:+ ".webp")).

Definition _process_animation (st : State) (a : FileRef) : State * bool :=
  _process_single_file st (file_id a) "animation"
    (Some (name_or (file_name a) ("animation_" +:+ file_id a +:+ ".gif"))).

Definition _process_message_content (st : State) (message : Message) : State :=
  match content message with
  | TEXT t => fst (_process_text st t)
  | PHOTO ps => fst (_process_photo st ps)
  | DOCUMENT d => fst (_process_document st d)
  | VIDEO v => fst (_process_video st v)
  | AUDIO a => fst (_process_audio st a)
  | STICKER s => fst (_process_sticker st s)
  | ANIMATION a => fst (_process_animation st a)
  | OTHER => st
  end.

(** ** Media groups and the event loop *)

(** The Bot API side waits for a file, in [_download_file], for every
    message but a text, a photo without sizes and a message of another
    content type. *)
Definition downloads (message : Message) : bool :=
  match content message with
  | TEXT _ | PHOTO [] | OTHER => false
  | _ => true
  end.

(** The end of [_process_media_group]: the group of the first message
    of the list is unbound. *)
Definition end_flush (st : State) (messages : nat) : State :=
  match default [] (buffers st !! messages) with
  | first :: _ =>
      if nonempty (media_group_id first)
      then set_media_groups (delete (media_group_id first)) st
      else st
  | [] => st
  end.

(** The loop of [_process_media_group] at the message of index [index],
    [rest] being the list from there on.  It goes on to the first
    message that needs a download, where the coroutine is suspended, or
    to the end of the list. *)
Fixpoint run_flush (st : State) (messages index : nat) (rest : list Message)
  : State :=
  match rest with
  | [] => end_flush st messages
  | message :: rest' =>
      if downloads message
      then set_suspended (fun tasks => tasks ++ [Flush messages index]) st
      else run_flush (_process_message_content st message)
                     messages (S index) rest'
  end.

Definition _process_media_group (st : State) (messages : nat) : State :=
  let items := default [] (buffers st !! messages) in
  let st := add_log (LogMediaGroup (length items)) st in
  run_flush st messages 0 items.

(** [asyncio.sleep(2.0)], in milliseconds. *)
Definition quiescence_delay : Z := 2000.

(** A sleeping task is kept behind those that wake up no later. *)
Fixpoint schedule (task : Z * string) (ts : list (Z * string))
  : list (Z * string) :=
  match ts with
  | [] => [task]
  | t :: ts' =>
      if fst t <=? fst task then t :: schedule task ts' else task :: t :: ts'
  end.

(** [_handle_media_group] for a message handled at loop time [now]. *)
Definition _handle_media_group (st : State) (now : Z) (message : Message)
  : State * bool :=
  if negb (nonempty (media_group_id message)) then (st, false)
  else
    let gid := media_group_id message in
    let st :=
      match media_groups st !! gid with
      | Some _ => st
      | None =>
          set_media_groups (insert gid (length (buffers st)))
                           (set_buffers (fun bs => bs ++ [[]]) st)
      end in
    let st :=
      match media_groups st !! gid with
      | Some messages =>
          set_buffers (alter (fun items => items ++ [message]) messages) st
      | None => st
      end in
    (set_timers (schedule (now + quiescence_delay, gid) (timers st)) st, true).

(** [process_group_later] once its sleep is over. *)
Definition process_group_later (st : State) (gid : string) : State :=
  match media_groups st !! gid with
  | Some messages => _process_media_group st messages
  | None => st
  end.

(** The event loop at time [now]: the tasks whose sleep has ended run,
    in the order of their wake-up times, each as far as its first
    download. *)
Definition run_timers (st : State) (now : Z) : State :=
  let due := List.filter (fun t => fst t <=? now) (timers st) in
  let later := List.filter (fun t => negb (fst t <=? now)) (timers st) in
  fold_left (fun st t => process_group_later st (snd t)) due
            (set_timers later st).

(** [handle_single_message] as far as its download. *)
Definition handle_single_message (st : State) (message : Message) : State :=
  if downloads message
  then set_suspended (fun tasks => tasks ++ [Single message]) st
  else _process_message_content st message.

(** The download that the [k]-th waiting coroutine waits for is over:
    the coroutine goes on, a flush to its next download or to its
    end. *)
Definition resume (st : State) (k : nat) : State :=
  match suspended st !! k with
  | Some (Single message) =>
      _process_message_content (set_suspended (delete k) st) message
  | Some (Flush messages index) =>
      let st := set_suspended (delete k) st in
      match default [] (buffers st !! messages) !! index with
      | Some message =>
          let st := _process_message_content st message in
          run_flush st messages (S index)
                    (drop (S index) (default [] (buffers st !! messages)))
      | None => st
      end
  | None => st
  end.

(** What the event loop is given to run at a time [now], after the
    tasks that have woken up by then: a message that reaches the
    router, for [handle_media_group] when it has a group id and for
    [handle_single_message] otherwise, or the end of a download. *)
Inductive Event :=
| Arrival (message : Message)
| Downloaded (k : nat).

Definition on_event (st : State) (ev : Z * Event) : State :=
  let '(now, e) := ev in
  let st := run_timers st now in
  match e with
  | Arrival message =>
      if nonempty (media_group_id message)
      then fst (_handle_media_group st now message)
      else handle_single_message st message
  | Downloaded k => resume st k
  end.

(** ** [fetch_last_messages] *)

(** The newest message of a list, the one [newest] gives, and the list
    without it. *)
Fixpoint extract_newest (msgs : list TgMessage)
  : option (TgMessage * list TgMessage) :=
  match msgs with
  | [] => None
  | m :: ms =>
      match extract_newest ms with
      | Some (n, rest) =>
          if tg_id m <? tg_id n then Some (n, m :: rest) else Some (m, ms)
      | None => Some (m, [])
      end
  end.

(** [iter_messages(entity, limit=limit)]: the [limit] newest messages,
    the newest first. *)
Fixpoint iter_messages_limit (limit : nat) (msgs : list TgMessage)
  : list TgMessage :=
  match limit with
  | O => []
  | S k =>
      match extract_newest msgs with
      | Some (n, rest) => n :: iter_messages_limit k rest
      | None => []
      end
  end.

(** The body of the [async for] of [fetch_last_messages]. *)
Definition fetch_message (channel : string) (channel_id : Z)
  (acc : State * Z) (msg : TgMessage) : State * Z :=
  let '(st, count_saved) := acc in
  let '(st, (success, _)) :=
    _save_telethon_message st msg channel (Some channel_id) in
  (st, if success then count_saved + 1 else count_saved).

(** [fetch_last_messages]; the row made for a channel that the store
    does not know has the channel as its name, is inactive, and was
    added by 0. *)
Definition fetch_last_messages (st : State) (transport : Transport)
  (channel : string) (limit : nat) : State * Z :=
  if negb (tg_client st) then (st, 0)
  else
    match transport channel with
    | None => (st, 0)
    | Some entity =>
        match db_pool st with
        | None => (st, 0)
        | Some db =>
            match select_channel_id db channel with
            | Some channel_id =>
                fold_left (fetch_message channel channel_id)
                          (iter_messages_limit limit (ent_messages entity))
                          (st, 0)
            | None =>
                match insert_channel db channel channel false 0 0 (clock st) with
                | (db, Some channel_id) =>
                    fold_left (fetch_message channel channel_id)
                              (iter_messages_limit limit (ent_messages entity))
                              (set_db db st, 0)
                | (db, None) => (set_db db st, 0)
                end
            end
        end
    end.

(** ** The stop buttons *)

Record InlineKeyboardButton := {
  button_text : string;
  callback_data : string }.

(** [_list_inline_keyboard]: a row of two buttons for each entry of
    [monitored_channels], or one button when there is none. *)
Definition _list_inline_keyboard (st : State)
  : list (list InlineKeyboardButton) :=
  let buttons :=
    map (fun entry : string * ChannelMeta =>
           let '(channel, meta) := entry in
           let state : string := if meta_is_active meta then "🟢" else "🔴" in
           [ {| button_text := state +:+ " " +:+ channel;
                callback_data := "noop|" +:+ channel |};
             {| button_text := "⏹ Stop";
                callback_data := "stop|" +:+ channel |} ])
        (monitored_channels st) in
  match buttons with
  | [] => [[ {| button_text := "Нет каналов"; callback_data := "noop" |} ]]
  | _ :: _ => buttons
  end.

(** [s.split(sep, 1)] for a separator that is not empty: the parts
    before and after the first [sep], or [None] when [sep] does not
    occur and the list is [s] alone. *)
Fixpoint split_once (sep s : string) : option (string * string) :=
  match strip_prefix sep s with
  | Some r => Some (EmptyString, r)
  | None =>
      match s with
      | EmptyString => None
      | String c s' =>
          match split_once sep s' with
          | Some (a, b) => Some (String c a, b)
          | None => None
          end
      end
  end.

(** [s.split(sep, 1)[0]] *)
Definition first_part (sep s : string) : string :=
  match split_once sep s with
  | Some (a, _) => a
  | None => s
  end.



(** ** The commands that name a channel *)

(** The characters that [str.strip()] removes, those of [str.isspace],
    as UTF-8: U+0009 to U+000D, U+001C to U+0020, U+0085, U+00A0,
    U+1680, U+2000 to U+200A, U+2028, U+2029, U+202F, U+205F, U+3000. *)
Definition whitespace : list string :=
  map (fun bytes => string_of_list_ascii (map ascii_of_nat bytes))
      [ [9]; [10]; [11]; [12]; [13]; [28]; [29]; [30]; [31]; [32];
        [194; 133]; [194; 160]; [225; 154; 128];
        [226; 128; 128]; [226; 128; 129]; [226; 128; 130]; [226; 128; 131];
        [226; 128; 132]; [226; 128; 133]; [226; 128; 134]; [226; 128; 135];
        [226; 128; 136]; [226; 128; 137]; [226; 128; 138];
        [226; 128; 168]; [226; 128; 169]; [226; 128; 175];
        [226; 129; 159]; [227; 128; 128] ]%nat.

Definition string_rev (s : string) : string :=
  string_of_list_ascii (rev (list_ascii_of_string s)).

(** One of the strings of [ws] taken off the front of [s]. *)
Definition strip_one (ws : list string) (s : string) : option string :=
  fold_right (fun w rest =>
                match strip_prefix w s with
                | Some r => Some r
                | None => rest
                end) None ws.

Fixpoint strip_front (n : nat) (ws : list string) (s : string) : string :=
  match n with
  | O => s
  | S k =>
      match strip_one ws s with
      | Some r => strip_front k ws r
      | None => s
      end
  end.

Definition lstrip (s : string) : string :=
  strip_front (String.length s) whitespace s.

Definition rstrip (s : string) : string :=
  string_rev (strip_front (String.length s) (map string_rev whitespace)
                          (string_rev s)).

(** [s.strip()] *)
Definition strip (s : string) : string := rstrip (lstrip s).

(** [s.replace(old, '')] for an [old] that is not empty: the
    occurrences of [old] are removed from left to right; [skip] counts
    the characters of the last occurrence still to be passed. *)
Fixpoint remove_from (skip : nat) (old s : string) {struct s} : string :=
  match s with
  | EmptyString => EmptyString
  | String c s' =>
      match skip with
      | S k => remove_from k old s'
      | O =>
          match strip_prefix old s with
          | Some _ => remove_from (Nat.pred (String.length old)) old s'
          | None => String c (remove_from O old s')
          end
      end
  end.

Definition remove_all (old s : string) : string := remove_from O old s.

(** [s[1:]] *)
Definition drop_first (s : string) : string :=
  match s with
  | EmptyString => EmptyString
  | String _ s' => s'
  end.

(** [raw[1:]] when [raw] starts with [@http://] or [@https://]. *)
Definition drop_stray_at (raw : string) : string :=
  if startswith "@http://" raw || startswith "@https://" raw
  then drop_first raw else raw.

(** ['@' + channel] unless [channel] starts with [@]. *)
Definition with_at (channel : string) : string :=
  if startswith "@" channel then channel else "@" +:+ channel.

(** What [cmd_collect] makes of its argument once stripped: an invite
    to join, a link by internal id, or the channel to register. *)
Inductive CollectTarget :=
| TargetInvite (invite_hash : string)
| TargetPrivate
| TargetChannel (channel : string)
| TargetError.

Definition collect_target (raw : string) : CollectTarget :=
  let raw := drop_stray_at raw in
  if startswith "https://t.me/" raw || startswith "http://t.me/" raw then
    match split_once "t.me/" raw with
    | None => TargetError
    | Some (_, tail) =>
        if startswith "+" tail
        then TargetInvite (first_part "/" (drop_first tail))
        else if startswith "joinchat/" tail then
          match split_once "/" tail with
          | Some (_, rest) => TargetInvite (first_part "/" rest)
          | None => TargetError
          end
        else if startswith "c/" tail then TargetPrivate
        else TargetChannel (with_at ("@" +:+ first_part "/" tail))
    end
  else TargetChannel (with_at raw).

Inductive CollectReply :=
| CollectUsage
| CollectJoined (invite_hash : string)
| CollectJoinFailed (invite_hash : string)
| CollectPrivateLink
| CollectNoClient
| CollectAdded (channel : string)
| CollectNotAdded (channel : string)
| CollectError.

(** [cmd_collect]; [join] tells whether [ImportChatInviteRequest]
    succeeds for a hash, and [user] is [message.from_user.id], or 0
    without a sender. *)
Definition cmd_collect (st : State) (transport : Transport)
  (join : string -> bool) (args : option string) (user : Z)
  : State * CollectReply :=
  match args with
  | None => (st, CollectUsage)
  | Some a =>
      if negb (nonempty a) then (st, CollectUsage)
      else
        match collect_target (strip a) with
        | TargetInvite invite_hash =>
            if tg_client st && join invite_hash
            then (st, CollectJoined invite_hash)
            else (st, CollectJoinFailed invite_hash)
        | TargetPrivate => (st, CollectPrivateLink)
        | TargetError => (st, CollectError)
        | TargetChannel channel =>
            if negb (tg_client st) then (st, CollectNoClient)
            else
              let '(st, ok) := _add_channel st transport channel user in
              if ok then (st, CollectAdded channel)
              else (st, CollectNotAdded channel)
        end
  end.

(** The channel that [cmd_stop] stops, from its argument once
    stripped. *)
Definition stop_target (raw : string) : string :=
  let channel := drop_stray_at raw in
  let channel :=
    if startswith "https://t.me/" channel
    then remove_all "https://t.me/" channel else channel in
  with_at channel.

Inductive StopReply :=
| StopUsage
| StopDone (channel : string)
| StopNotFound (channel : string).

Definition cmd_stop (st : State) (args : option string) : State * StopReply :=
  match args with
  | None => (st, StopUsage)
  | Some a =>
      if negb (nonempty a) then (st, StopUsage)
      else
        let channel := stop_target (strip a) in
        let '(st, ok) := _stop_channel st channel in
        if ok then (st, StopDone channel) else (st, StopNotFound channel)
  end.

(** The channel that [cmd_fetch] reads, from its argument once
    stripped. *)
Definition fetch_target (raw : string) : string :=
  let channel :=
    if startswith "https://t.me/" raw
    then remove_all "https://t.me/" raw else raw in
  with_at channel.

Inductive FetchReply :=
| FetchUsage
| FetchNoClient
| FetchSaved (saved : Z)
| FetchNothing.

Definition cmd_fetch (st : State) (transport : Transport)
  (args : option string) : State * FetchReply :=
  match args with
  | None => (st, FetchUsage)
  | Some a =>
      if negb (nonempty a) then (st, FetchUsage)
      else
        let channel := fetch_target (strip a) in
        if negb (tg_client st) then (st, FetchNoClient)
        else
          let '(st, saved) := fetch_last_messages st transport channel 2 in
          (st, if 0 <? saved then FetchSaved saved else FetchNothing)
  end.

(** ** [main]: the values of the environment *)

(** [s.endswith(p)] *)
Definition endswith (p s : string) : bool :=
  startswith (string_rev p) (string_rev s).

(** [s[:-1]] *)
Definition drop_last (s : string) : string :=
  string_rev (drop_first (string_rev s)).

Definition double_quote : string := String "034"%char EmptyString.
Definition single_quote : string := "'".

(** [_clean] of [main]: the value is stripped, loses one pair of
    surrounding quotes, and is stripped again. *)
Definition _clean (value : option string) : option string :=
  match value with
  | None => None
  | Some value =>
      let v := strip value in
      let v :=
        if (startswith double_quote v && endswith double_quote v)
           || (startswith single_quote v && endswith single_quote v)
        then drop_last (drop_first v)
        else v in
      Some (strip v)
  end.

(** * Notions used by the properties *)

(** The fields that the saving of a channel message does not assign. *)
Definition kept (st st' : State) : Prop :=
  download_path st' = download_path st /\
  monitored_channels st' = monitored_channels st /\
  tg_client st' = tg_client st /\
  notification_chat_id st' = notification_chat_id st /\
  disk_writable st' = disk_writable st /\
  bot_api_files st' = bot_api_files st /\
  timers st' = timers st /\
  outbox st' = outbox st.

(** The channel table and the unified table with its sequence. *)
Definition channels_of (st : State) : option (list ChannelRow) :=
  channel_tbl <$> db_pool st.

Definition unified_of (st : State) : option (list MessageChannelRow * Z) :=
  (fun db => (mc_tbl db, mc_seq db)) <$> db_pool st.

(** The rows of [message_channel]. *)
Definition unified (st : State) : list MessageChannelRow :=
  match db_pool st with Some db => mc_tbl db | None => [] end.

(** The content tables: text rows, media rows of every kind, links. *)
Definition same_content_rows (st st' : State) : Prop :=
  match db_pool st, db_pool st' with
  | Some db, Some db' =>
      text_tbl db' = text_tbl db /\ links_tbl db' = links_tbl db /\
      forall k, media_tbl db' k = media_tbl db k
  | None, None => True
  | _, _ => False
  end.

(** The text, the links and the sequence of the links in the store. *)
Definition text_links_of (st : State)
  : option (list TextRow * list LinkRow * Z) :=
  (fun db => (text_tbl db, links_tbl db, links_seq db)) <$> db_pool st.

(** The first URL of a list whose parsing does not raise, with its
    network location. *)
Fixpoint first_parsed (urls : list string) : option (string * string) :=
  match urls with
  | [] => None
  | u :: us =>
      match urlparse_netloc u with
      | Some d => Some (u, d)
      | None => first_parsed us
      end
  end.

(** The unified records of a (channel, platform message id). *)
Definition records_for (cid tmid : Z) (rows : list MessageChannelRow)
  : list MessageChannelRow :=
  List.filter (same_key cid tmid) rows.


(** The predicate of each kind; [Document] is the generic fallback. *)
Definition kind_predicate (msg : TgMessage) (k : MediaKind) : bool :=
  match k with
  | Image => tg_photo msg
  | Video => tg_video msg
  | Audio => tg_audio msg
  | Sticker => tg_sticker msg
  | Animation => tg_gif msg || tg_animation msg
  | Document => true
  end.

(** The order as the specification words it:
    photo > video > audio > sticker > animation > document. *)
Definition spec_precedence : list MediaKind :=
  [Image; Video; Audio; Sticker; Animation; Document].

Definition rank (k : MediaKind) : nat :=
  match k with
  | Image => 0 | Video => 1 | Audio => 2 | Sticker => 3 | Animation => 4
  | Document => 5
  end.

(** The assignment guarded by [msg.id and msg.id > meta.get('last_id', 0)]
    after a successful save. *)
Definition advance (cur : Z) (p : TgMessage * bool) : Z :=
  if snd p && negb (tg_id (fst p) =? 0) && (cur <? tg_id (fst p))
  then tg_id (fst p) else cur.

(** The greatest of the cursor before the cycle and the ids of the
    messages processed with success. *)
Definition max_processed (pre : Z) (h : list (TgMessage * bool)) : Z :=
  fold_left (fun (acc : Z) (p : TgMessage * bool) =>
               if snd p then Z.max acc (tg_id (fst p)) else acc) h pre.

(** The entry of a channel is the same up to its cursor. *)
Definition same_entry (m m' : ChannelMeta) : Prop :=
  meta_is_active m' = meta_is_active m /\ meta_channel_id m' = meta_channel_id m.

(** A sequence of turns of the monitor, each for a channel and with the
    transport as it is at that time; the cycles that took place are
    returned with their channel.  A pass of the monitor is such a
    sequence. *)
Fixpoint monitor_turns (st : State) (turns : list (string * Transport))
  : State * list (string * Cycle) :=
  match turns with
  | [] => (st, [])
  | (ch, transport) :: rest =>
      let '(st1, c) := monitor_channel st transport ch in
      let '(st2, cs) := monitor_turns st1 rest in
      (st2, match c with Some c => (ch, c) :: cs | None => cs end)
  end.

(** The creation time that [_normalize_datetime] gives to a message
    when the clock shows [now]. *)
Definition created_at (now : Z) (msg : TgMessage) : Z :=
  match tg_date msg with
  | Some d => dt_wall d
  | None => now
  end.

(** The file that the text of a message is written to in state [st]. *)
Definition text_file_path (st : State) : string :=
  path_join (path_join (download_path st) "text")
            ("text" +:+ "_" +:+ pretty (clock st)).

(** The state once the text of [msg] has been written to its file. *)
Definition text_written (st : State) (msg : TgMessage) : State :=
  set_disk (insert (text_file_path st) (encode_utf8 (tg_message msg)))
           (set_clock (clock st + 1) st).

(** The fingerprint of the text of a message. *)
Definition text_hash (msg : TgMessage) : string :=
  _calculate_file_hash (encode_utf8 (tg_message msg)).

(** The name and the path of the file that a medium of kind [k] is
    written to in state [st]. *)
Definition media_file_name (st : State) (k : MediaKind) : string :=
  kind_name k +:+ "_" +:+ pretty (clock st).

Definition media_file_path (st : State) (k : MediaKind) : string :=
  path_join (path_join (download_path st) (kind_name k)) (media_file_name st k).

(** The text of [msg] is a duplicate in state [st]: there is a text,
    its file is written, and its fingerprint is on record. *)
Definition text_is_duplicate (st : State) (msg : TgMessage) : Prop :=
  nonempty (tg_message msg) = true /\
  disk_writable st (text_file_path st) = true /\
  _is_duplicate st (text_hash msg) = true.

(** The medium of [msg] is a duplicate in state [st]: its bytes [data]
    are downloaded and their fingerprint is on record. *)
Definition media_is_duplicate (st : State) (msg : TgMessage)
  (data : list byte) : Prop :=
  tg_media msg = Some (DownloadBytes data) /\
  data <> [] /\
  tg_client st = true /\
  _is_duplicate st (_calculate_file_hash data) = true.

(** The whole content of [msg] is a duplicate in state [st]: a text, a
    medium, or both.  The fingerprint that the call ends with is that
    of the medium when there is one, and the state in which the
    reconciliation starts has the text file written when there is a
    text. *)
Inductive whole_duplicate (st : State) (msg : TgMessage)
  : string -> State -> Prop :=
| duplicate_text :
    text_is_duplicate st msg ->
    tg_media msg = None ->
    whole_duplicate st msg (text_hash msg) (text_written st msg)
| duplicate_media (data : list byte) :
    nonempty (tg_message msg) = false ->
    media_is_duplicate st msg data ->
    whole_duplicate st msg (_calculate_file_hash data) st
| duplicate_both (data : list byte) :
    text_is_duplicate st msg ->
    media_is_duplicate st msg data ->
    whole_duplicate st msg (_calculate_file_hash data) (text_written st msg).

(** The sizes logged by [_process_media_group], one per flush of a
    group, in the order of the flushes. *)
Definition group_lines (lines : list LogLine) : list nat :=
  flat_map (fun l => match l with LogMediaGroup n => [n] | _ => [] end) lines.

(** The state in which the list [messages] holds [items] and the tasks
    [ts] are asleep. *)
Definition buffering (messages : nat) (items : list Message)
  (ts : list (Z * string)) (st : State) : State :=
  set_timers ts (set_buffers (fun bs => <[messages := items]> bs) st).

(** The messages [arrivals] reach the router, each at its time. *)
Definition deliver (arrivals : list (Z * Message)) (st : State) : State :=
  fold_left on_event (map (fun a => (fst a, Arrival (snd a))) arrivals) st.

(** The downloads of the coroutine that waits first are over at the
    times [ds], one after the other. *)
Definition downloaded (ds : list Z) (st : State) : State :=
  fold_left on_event (map (fun d => (d, Downloaded 0%nat)) ds) st.

(** * A worked run

    The scenario of the specification: channel [@chan] is registered
    when its latest message is 100; message 101 with a text and a link
    is posted, then message 102 with the same text.  Other runs start
    from the same bot. *)

(** A bot with an empty store, a disk that accepts every file, and two
    files served by the Bot API. *)
Definition fresh_bot : State :=
  {| download_path := "./downloads";
     processed_content := ∅; media_groups := ∅; buffers := [];
     monitored_channels := [];
     tg_client := true; notification_chat_id := Some 7;
     db_pool := Some empty_db;
     disk := ∅; disk_writable := fun _ => true;
     bot_api_files :=
       (fun file_id =>
          if String.eqb file_id "F1" then Some [x01; x02]
          else if String.eqb file_id "F2" then Some [x03]
          else None);
     clock := 0; timers := []; suspended := []; log := []; outbox := [] |}.

Definition text_message (id : Z) (t : string) : TgMessage :=
  {| tg_id := id;
     tg_date := Some {| dt_wall := 1000 + id; dt_tzinfo := Some 0 |};
     tg_message := t; tg_media := None;
     tg_photo := false; tg_video := false; tg_audio := false;
     tg_sticker := false; tg_gif := false; tg_animation := false |}.

Definition channel_c (msgs : list TgMessage) : Transport :=
  fun channel =>
    if String.eqb channel "@chan"
    then Some {| ent_title := Some "Channel C"; ent_messages := msgs |}
    else None.

Definition m100 : TgMessage := text_message 100 "an old post".
Definition m101 : TgMessage := text_message 101 "hello https://a.com/x".
Definition m102 : TgMessage := text_message 102 "hello https://a.com/x".
Definition m103 : TgMessage := text_message 103 "a third post".

Definition registered : State :=
  fst (_add_channel fresh_bot (channel_c [m100]) "@chan" 5).

Definition registered_db : Database := default empty_db (db_pool registered).

(** Message 101 is saved. *)
Definition registered_101 : State * (bool * list string) :=
  _save_telethon_message registered m101 "@chan" (Some 1).

(** The monitor takes a turn after message 101, and one after 102. *)
Definition after_101 : State :=
  fst (monitor_channel registered (channel_c [m101; m100]) "@chan").

Definition after_101_db : Database := default empty_db (db_pool after_101).

Definition after_102 : State :=
  fst (monitor_channel after_101 (channel_c [m102; m101; m100]) "@chan").

(** A message without text or media. *)
Definition m_empty : TgMessage := text_message 104 EmptyString.

(** The bot first receives a text in a direct message; a channel then
    posts the same text. *)
Definition direct_text : Message :=
  {| content := TEXT "see https://b.org/page"; media_group_id := EmptyString |}.

Definition m105 : TgMessage := text_message 105 "see https://b.org/page".

Definition after_direct_text : State :=
  on_event registered (10, Arrival direct_text).

(** File [F1] is received once through the Bot API; a channel then
    posts a photo with the same bytes. *)
Definition after_f1 : State :=
  fst (_process_single_file fresh_bot "F1" "image" None).

Definition photo_message (id : Z) : TgMessage :=
  {| tg_id := id; tg_date := None; tg_message := EmptyString;
     tg_media := Some (DownloadBytes [x01; x02]);
     tg_photo := true; tg_video := false; tg_audio := false;
     tg_sticker := false; tg_gif := false; tg_animation := false |}.

(** The channel is stopped; messages 101 and 102 are posted meanwhile;
    the channel is registered again, and the monitor takes a turn. *)
Definition stopped : State := fst (_stop_channel registered "@chan").

Definition reactivated : State :=
  fst (_add_channel stopped (channel_c [m102; m101; m100]) "@chan" 5).

Definition after_reactivation : State * option Cycle :=
  monitor_channel reactivated (channel_c [m102; m101; m100]) "@chan".

(** Two fragments of a media group, half a second apart. *)
Definition fragment (gid file : string) : Message :=
  {| content := PHOTO [ {| ps_file_id := file; ps_file_size := Some 10 |} ];
     media_group_id := gid |}.

Definition two_fragments : State :=
  deliver [(0, fragment "g1" "F1"); (500, fragment "g1" "F2")] fresh_bot.

(** The two files are downloaded within half a second of the wake-up of
    the first task. *)
Definition flushed_in_time : State := downloaded [2100; 2400] two_fragments.

(** The first file is still being downloaded when the second task
    wakes up. *)
Definition second_task_wakes : State :=
  run_timers (run_timers two_fragments 2000) 2500.
(** * Notions of the further properties *)

(** A lower-case hexadecimal digit. *)
Definition hex_lower (c : ascii) : bool :=
  let n := ord c in
  ((48 <=? n) && (n <=? 57)) || ((97 <=? n) && (n <=? 102)).

(** Every character of [s] is of the class of [url_pattern]. *)
Definition all_url_chars (s : string) : bool :=
  forallb url_char (list_ascii_of_string s).

(** The two forms of [http[s]?://]. *)
Definition is_scheme (s : string) : Prop := s = "http://" \/ s = "https://".

(** [p.file_size or 0] *)
Definition photo_size (p : PhotoSize) : Z := default 0 (ps_file_size p).

(** The store holds the channel as the memory does: there is a row for
    it, and the rows for it are active, like its entry, and have the
    cursor of the entry as their [last_message_id]. *)
Definition cursor_stored (st : State) (channel : string) : Prop :=
  exists db meta,
    db_pool st = Some db /\
    dict_get channel (monitored_channels st) = Some meta /\
    meta_is_active meta = true /\
    existsb (fun r => String.eqb (tag_channel r) channel) (channel_tbl db) = true /\
    Forall (fun r => tag_channel r = channel ->
                     is_active r = true /\ last_message_id r = meta_last_id meta)
           (channel_tbl db).

(** The medium of [msg] cannot be had in state [st]: there is no
    Telethon client, the download raises, or it gives no data. *)
Definition media_unavailable (st : State) (msg : TgMessage) : Prop :=
  exists download,
    tg_media msg = Some download /\
    (tg_client st = false \/ download = DownloadRaises
     \/ download = DownloadBytes []).

(** A video that Telethon fails to download. *)
Definition m107 : TgMessage :=
  {| tg_id := 107; tg_date := None; tg_message := EmptyString;
     tg_media := Some DownloadRaises;
     tg_photo := false; tg_video := true; tg_audio := false;
     tg_sticker := false; tg_gif := false; tg_animation := false |}.

Definition no_cycle : Cycle :=
  {| new_count := 0; content_counter := ∅; handled := [] |}.

(** What the schema and the reconciliation keep of [message_channel]:
    the sequence is positive; the keys are positive, distinct and below
    the sequence; a (channel,
    platform message id) has at most one record; the fingerprints that
    are not null are distinct; every record is on a row of [channel]. *)
Definition unified_consistent (db : Database) : Prop :=
  0 < mc_seq db
  /\ Forall (fun r => 0 < message_id r < mc_seq db) (mc_tbl db)
  /\ NoDup (map message_id (mc_tbl db))
  /\ (forall cid tmid, (length (records_for cid tmid (mc_tbl db)) <= 1)%nat)
  /\ NoDup (omap file_hash (mc_tbl db))
  /\ Forall (fun r => channel_known db (mc_channel_id r) = true) (mc_tbl db).


(** The path of the file that [_process_single_file] and
    [_process_text] write in state [st] for an original name and a
    content type. *)
Definition file_path_of (st : State) (original_name : option string)
  (content_type : string) : string :=
  path_join (path_join (download_path st) content_type)
            (snd (_generate_filename st original_name content_type)).

(** The entries of [d] are those of [d'] but for cursors that have
    moved forward, and the entries that are not active are the same. *)
Definition entries_advance (d d' : list (string * ChannelMeta)) : Prop :=
  forall channel,
    match dict_get channel d with
    | Some meta =>
        exists meta',
          dict_get channel d' = Some meta'
          /\ same_entry meta meta'
          /\ meta_last_id meta <= meta_last_id meta'
          /\ (meta_is_active meta = false -> meta' = meta)
    | None => dict_get channel d' = None
    end.

(** * Lemmas *)

(** ** Checks of the library models against known values *)

Example md5_empty :
  Md5.hexdigest [] = "d41d8cd98f00b204e9800998ecf8427e".
Proof. vm_compute. reflexivity. Qed.

Example md5_abc :
  Md5.hexdigest (encode_utf8 "abc") = "900150983cd24fb0d6963f7d28e17f72".
Proof. vm_compute. reflexivity. Qed.

Example md5_two_blocks :
  Md5.hexdigest (encode_utf8
    "aaaaaaaaaaaaaaaaaaaaaaaaaaaaaaaaaaaaaaaaaaaaaaaaaaaaaaaaaaaaaaaaaaaaaa")
  = "0f5c6c4e740bfcc08c3c26ccb2673d46".
Proof. vm_compute. reflexivity. Qed.

Example extract_links_example :
  _extract_links "hello https://a.com/x and http://b.org?q=1 end"
  = [ {| ld_url := "https://a.com/x"; ld_domain := "a.com";
         ld_title := None; ld_description := None |};
      {| ld_url := "http://b.org?q=1"; ld_domain := "b.org";
         ld_title := None; ld_description := None |} ].
Proof. vm_compute. reflexivity. Qed.

Example extract_links_none :
  _extract_links "https:// nothing here, httpx://no" = [].
Proof. vm_compute. reflexivity. Qed.

Example extract_links_bracket :
  map ld_url (_extract_links "http://[oops http://ok.io/a") = ["http://ok.io/a"].
Proof. vm_compute. reflexivity. Qed.

Example extract_links_bracketed_host :
  map ld_domain (_extract_links "http://[::1]:80/x http://[v1.a]/x")
  = ["[::1]:80"; "[v1.a]"]
  /\ _extract_links "http://[oops]/x" = []
  /\ _extract_links "http://[1.2.3.4]/" = []
  /\ _extract_links "see http://[oops" = []
  /\ first_parsed (findall_urls "http://[oops http://ok.io/a")
     = Some ("http://ok.io/a", "ok.io").
Proof. vm_compute. repeat split; reflexivity. Qed.

Example varchar_examples :
  varchar 5 "abc" = Some "abc"
  /\ varchar 5 "abcde  " = Some "abcde"
  /\ varchar 5 "abcdef" = None
  /\ varchar 5 "abcde x" = None
  /\ varchar 5 (String "000"%char "ab") = None
  /\ varchar 2 "éé " = Some "éé".
Proof. vm_compute. repeat split; reflexivity. Qed.

(** A title of fifty characters and two spaces is stored cut to fifty;
    a tag of fifty-one characters is refused, and the sequence of
    [channel] is not drawn from. *)
Example add_channel_long_values :
  let title := "01234567890123456789012345678901234567890123456789" in
  let entity := {| ent_title := Some (title +:+ "  "); ent_messages := [] |} in
  let tag := "@" +:+ title in
  (snd (_add_channel fresh_bot (fun _ => Some entity) "@chan" 5) = true
   /\ (map name_channel <$> (channel_tbl <$>
         db_pool (fst (_add_channel fresh_bot (fun _ => Some entity) "@chan" 5))))
      = Some [title])
  /\ snd (_add_channel fresh_bot (fun _ => Some entity) tag 5) = false
  /\ (channel_seq <$>
        db_pool (fst (_add_channel fresh_bot (fun _ => Some entity) tag 5)))
     = Some (channel_seq empty_db).
Proof. vm_compute. repeat split; reflexivity. Qed.

(** A text with U+0000 is refused by the store. *)
Example text_with_nul_refused :
  insert_text empty_db (String "000"%char "abc") = (empty_db, None).
Proof. reflexivity. Qed.

Example path_join_examples :
  path_join "./downloads" "text" = "./downloads/text"
  /\ path_join "data/" "text" = "data/text"
  /\ path_join "data" "/tmp" = "/tmp"
  /\ path_join EmptyString "text" = "text".
Proof. repeat split. Qed.

Example after_last_dot_examples :
  after_last_dot "photo_abc.jpg" = "jpg"
  /\ after_last_dot "a.tar.gz" = "gz"
  /\ after_last_dot "ends." = EmptyString.
Proof. repeat split. Qed.

Example url_char_examples :
  map url_char ["a"; "Z"; "7"; "%"; "/"; "?"; "="; "_"; "!"; "("; "["]%char
  = [true; true; true; true; true; true; true; true; true; true; true]
  /\ map url_char [" "; "#"; "~"; "{"; "`"]%char
     = [false; false; false; false; false].
Proof. split; reflexivity. Qed.

Example generate_filename_examples :
  snd (_generate_filename fresh_bot (Some "photo_F1.jpg") "image") = "image_0.jpg"
  /\ snd (_generate_filename fresh_bot (Some "README") "document")
     = "document_0.bin"
  /\ snd (_generate_filename fresh_bot None "text") = "text_0".
Proof. repeat split. Qed.

Example largest_photo_first_of_equals :
  ps_file_id
    (largest_photo {| ps_file_id := "a"; ps_file_size := Some 5 |}
       [ {| ps_file_id := "b"; ps_file_size := Some 9 |};
         {| ps_file_id := "c"; ps_file_size := None |};
         {| ps_file_id := "d"; ps_file_size := Some 9 |} ]) = "b".
Proof. reflexivity. Qed.

(** ** A hexadecimal digest has 32 characters *)

Lemma hex_digit_plain (n : Z) :
  0 <= n < 16 -> (Z.land (ord (Md5.hex_digit n)) 0xC0 =? 0x80) = false.
Proof.
  intros Hn. rewrite <- (Z2Nat.id n) by lia.
  assert (Hk : (Z.to_nat n < 16)%nat) by lia.
  remember (Z.to_nat n) as k eqn:Ek. clear Ek Hn.
  do 16 (destruct k as [|k]; [reflexivity|]). lia.
Qed.

Lemma sql_length_hex (bs : list Z) :
  Forall (fun b => 0 <= b < 256) bs ->
  sql_length (Md5.hex bs) = 2 * Z.of_nat (length bs).
Proof.
  induction 1 as [|b bs Hb _ IH]; [reflexivity|].
  cbn [Md5.hex sql_length length].
  rewrite !hex_digit_plain, IH.
  - lia.
  - apply Z.mod_pos_bound; lia.
  - split; [apply Z.div_pos; lia | apply Z.div_lt_upper_bound; lia].
Qed.

Lemma le_bytes_range (n : nat) (x : Z) :
  Forall (fun b => 0 <= b < 256) (Md5.le_bytes n x).
Proof.
  revert x; induction n as [|n IH]; intros x; cbn [Md5.le_bytes].
  - constructor.
  - constructor; [apply Z.mod_pos_bound; lia | apply IH].
Qed.

Lemma le_bytes_length (n : nat) (x : Z) : length (Md5.le_bytes n x) = n.
Proof.
  revert x; induction n as [|n IH]; intros x; cbn [Md5.le_bytes length];
    [reflexivity | now rewrite IH].
Qed.

Lemma hexdigest_length (data : list byte) :
  sql_length (_calculate_file_hash data) = 32.
Proof.
  unfold _calculate_file_hash, Md5.hexdigest, Md5.digest.
  destruct (fold_left _ _ _) as [[[a b] c] d].
  rewrite sql_length_hex.
  - rewrite !length_app, !le_bytes_length. reflexivity.
  - repeat (apply Forall_app; split); apply le_bytes_range.
Qed.

(** ** What a call leaves alone *)

Ltac break_inner :=
  match goal with
  | |- context [match ?x with _ => _ end] =>
      lazymatch x with
      | context [match _ with _ => _ end] => fail
      | _ => destruct x eqn:?
      end
  end.

Ltac reuse_cases :=
  repeat match goal with
         | H : ?x = _ |- context [?x] => rewrite H
         end.

Ltac crush_cases := simpl; repeat (break_inner; simpl); reuse_cases; simpl.

Lemma kept_refl st : kept st st.
Proof. repeat split. Qed.

Lemma kept_trans st1 st2 st3 : kept st1 st2 -> kept st2 st3 -> kept st1 st3.
Proof.
  unfold kept. intros H1 H2.
  repeat match goal with H : _ /\ _ |- _ => destruct H end.
  repeat split; etransitivity; eassumption.
Qed.


Ltac unfold_small :=
  unfold _generate_filename, _save_file_locally, record_fingerprint,
    _normalize_datetime, datetime_now, db_ready, insert_text, upsert_link,
    insert_media, insert_message_channel.

Lemma save_text_kept st msg cid l :
  let st' := fst (save_text st msg cid l) in
  kept st st' /\ media_groups st' = media_groups st /\
  channels_of st' = channels_of st /\ unified_of st' = unified_of st.
Proof.
  unfold save_text, kept, channels_of, unified_of. unfold_small.
  crush_cases; repeat split; reflexivity.
Qed.

Lemma save_media_kept st msg cid l :
  let st' := fst (save_media st msg cid l) in
  kept st st' /\ media_groups st' = media_groups st /\
  channels_of st' = channels_of st /\ unified_of st' = unified_of st.
Proof.
  unfold save_media, kept, channels_of, unified_of. unfold_small.
  crush_cases; repeat split; reflexivity.
Qed.

Lemma note_empty_kept st msg l :
  let st' := fst (note_empty st msg l) in
  kept st st' /\ media_groups st' = media_groups st /\
  channels_of st' = channels_of st /\ unified_of st' = unified_of st /\
  db_pool st' = db_pool st /\ processed_content st' = processed_content st /\
  disk st' = disk st.
Proof.
  unfold note_empty, kept, channels_of, unified_of.
  crush_cases; repeat split; reflexivity.
Qed.

Lemma reconcile_kept st msg cid l :
  let st' := fst (reconcile st msg cid l) in
  kept st st' /\ media_groups st' = media_groups st /\
  channels_of st' = channels_of st /\
  processed_content st' = processed_content st /\ disk st' = disk st.
Proof.
  unfold reconcile, kept, channels_of. unfold_small.
  crush_cases; repeat split; reflexivity.
Qed.

Lemma save_kept st msg name cid :
  let st' := fst (_save_telethon_message st msg name cid) in
  kept st st' /\ media_groups st' = media_groups st /\
  channels_of st' = channels_of st.
Proof.
  unfold _save_telethon_message.
  set (c := resolve_channel_id st name cid).
  pose proof (save_text_kept st msg c initial_locals) as Ht.
  destruct (save_text st msg c initial_locals) as [st1 [l1|]]; simpl in Ht;
    [|tauto].
  pose proof (save_media_kept st1 msg c l1) as Hm.
  destruct (save_media st1 msg c l1) as [st2 l2]; simpl in Hm.
  pose proof (note_empty_kept st2 msg l2) as He.
  destruct (note_empty st2 msg l2) as [st3 l3]; simpl in He.
  pose proof (reconcile_kept st3 msg c l3) as Hr.
  destruct (reconcile st3 msg c l3) as [st4 l4]; simpl in Hr. simpl.
  destruct Ht as (K1 & G1 & C1 & _), Hm as (K2 & G2 & C2 & _),
    He as (K3 & G3 & C3 & _), Hr as (K4 & G4 & C4 & _).
  split; [eauto using kept_trans | split; congruence].
Qed.


(** ** At most one unified record for a key *)


Lemma select_existing_found db cid tmid :
  Forall (fun r => 0 < message_id r) (mc_tbl db) ->
  records_for cid tmid (mc_tbl db) <> [] ->
  truthy (select_existing db tmid cid) = true.
Proof.
  unfold select_existing, records_for. intros Hpos Hne.
  destruct (List.find (same_key cid tmid) (mc_tbl db)) as [r|] eqn:E.
  - apply find_some in E as [Hin _].
    rewrite List.Forall_forall in Hpos. specialize (Hpos r Hin).
    simpl. apply negb_true_iff, Z.eqb_neq. lia.
  - exfalso. apply Hne. pose proof (find_none _ _ E) as Hall.
    clear E Hpos Hne.
    induction (mc_tbl db) as [|r rows IH]; [reflexivity|].
    simpl. rewrite (Hall r) by (left; reflexivity).
    apply IH. intros x Hx. apply Hall. now right.
Qed.

Lemma select_existing_truthy db cid tmid :
  truthy (select_existing db tmid cid) = true ->
  records_for cid tmid (mc_tbl db) <> [].
Proof.
  unfold select_existing, records_for.
  destruct (List.find (same_key cid tmid) (mc_tbl db)) as [r|] eqn:E;
    [|discriminate].
  intros _ Hnil. apply find_some in E as [Hin Hk].
  assert (Hf : In r (List.filter (same_key cid tmid) (mc_tbl db)))
    by (apply filter_In; auto).
  rewrite Hnil in Hf. destruct Hf.
Qed.




(** ** The cursor of a channel through the monitor *)

Lemma dict_get_set_eq {V} (k : string) (v : V) (d : list (string * V)) :
  dict_get k (dict_set k v d) = Some v.
Proof.
  induction d as [|[k' v'] d IH]; simpl.
  - now rewrite String.eqb_refl.
  - destruct (String.eqb k' k) eqn:E; simpl.
    + now rewrite String.eqb_refl.
    + now rewrite E.
Qed.

Lemma dict_get_set_ne {V} (k k0 : string) (v : V) (d : list (string * V)) :
  k0 <> k -> dict_get k0 (dict_set k v d) = dict_get k0 d.
Proof.
  intros Hne. induction d as [|[k' v'] d IH]; simpl.
  - destruct (String.eqb k k0) eqn:E; [|reflexivity].
    apply String.eqb_eq in E. congruence.
  - destruct (String.eqb k' k) eqn:E; simpl.
    + apply String.eqb_eq in E. subst k'.
      destruct (String.eqb k k0) eqn:E0; [|reflexivity].
      apply String.eqb_eq in E0. congruence.
    + now rewrite IH.
Qed.

Lemma advance_ge cur p : cur <= advance cur p.
Proof. unfold advance.
  destruct (snd p && negb (tg_id (fst p) =? 0) && (cur <? tg_id (fst p))) eqn:E;
    [|lia].
  apply andb_true_iff in E as [_ E]. apply Z.ltb_lt in E. lia. Qed.

Lemma fold_advance_ge h : forall cur, cur <= fold_left advance h cur.
Proof.
  induction h as [|p h IH]; intros cur; simpl; [lia|].
  pose proof (advance_ge cur p). specialize (IH (advance cur p)). lia.
Qed.

Lemma fold_advance_max h :
  forall cur, 0 <= cur -> fold_left advance h cur = max_processed cur h.
Proof.
  unfold max_processed.
  induction h as [|[m ok] h IH]; intros cur Hcur; simpl; [reflexivity|].
  assert (E : advance cur (m, ok) = if ok then Z.max cur (tg_id m) else cur).
  { unfold advance; simpl. destruct ok; simpl; [|reflexivity].
    destruct (tg_id m =? 0) eqn:E0; simpl.
    - apply Z.eqb_eq in E0. lia.
    - destruct (cur <? tg_id m) eqn:E1;
        [apply Z.ltb_lt in E1 | apply Z.ltb_ge in E1]; lia. }
  rewrite E. apply IH. destruct ok; lia.
Qed.

Lemma max_processed_perm h h' :
  Permutation h h' -> forall pre, max_processed pre h = max_processed pre h'.
Proof.
  unfold max_processed.
  induction 1 as [|p h h' _ IH|p q h|h1 h2 h3 _ IH1 _ IH2]; intros pre; simpl.
  - reflexivity.
  - apply IH.
  - f_equal. destruct (snd p), (snd q); lia.
  - now rewrite IH1.
Qed.

(** One message of the batch: what it adds to [handled] and what it does
    to the entries of [monitored_channels]. *)
Lemma monitor_message_cursor channel cidv st c msg :
  let ok := fst (snd (_save_telethon_message st msg channel (Some cidv))) in
  let r := monitor_message channel cidv (st, c) msg in
  handled (snd r) = handled c ++ [(msg, ok)] /\
  (forall meta,
      dict_get channel (monitored_channels st) = Some meta ->
      exists meta',
        dict_get channel (monitored_channels (fst r)) = Some meta' /\
        same_entry meta meta' /\
        meta_last_id meta' = advance (meta_last_id meta) (msg, ok)) /\
  (forall ch, ch <> channel ->
              dict_get ch (monitored_channels (fst r))
              = dict_get ch (monitored_channels st)).
Proof.
  unfold monitor_message.
  pose proof (save_kept st msg channel (Some cidv)) as (K & _ & _).
  destruct K as (_ & Hmon & _).
  destruct (_save_telethon_message st msg channel (Some cidv))
    as [st1 [ok types]]; simpl in Hmon |- *.
  unfold advance; simpl.
  destruct ok; simpl.
  2:{ rewrite Hmon. split; [reflexivity|]. split; [|reflexivity].
      intros meta Hget. exists meta. repeat split; assumption. }
  unfold cursor. rewrite Hmon.
  destruct (dict_get channel (monitored_channels st)) as [meta0|] eqn:Hget.
  - destruct (negb (tg_id msg =? 0) && (meta_last_id meta0 <? tg_id msg)) eqn:Eadv;
      simpl.
    + assert (Hm : monitored_channels (advance_cursor st1 channel (tg_id msg))
                   = dict_set channel (with_last_id (tg_id msg) meta0)
                              (monitored_channels st)).
      { unfold advance_cursor. rewrite Hmon, Hget. simpl.
        destruct (db_pool st1); simpl; now rewrite Hmon. }
      rewrite Hm. split; [reflexivity|]. split.
      * intros meta [= <-]. eexists. rewrite dict_get_set_eq.
        split; [reflexivity|]. split; [split; reflexivity|].
        simpl. now rewrite Eadv.
      * intros ch Hne. now apply dict_get_set_ne.
    + rewrite Hmon. split; [reflexivity|]. split; [|reflexivity].
      intros meta [= <-]. exists meta0. rewrite Hget, Eadv.
      repeat split; reflexivity.
  - assert (Hm : forall id, monitored_channels (advance_cursor st1 channel id)
                            = monitored_channels st).
    { intros id. unfold advance_cursor. rewrite Hmon, Hget.
      destruct (db_pool st1); simpl; now rewrite Hmon. }
    destruct (negb (tg_id msg =? 0) && (0 <? tg_id msg)); simpl;
      rewrite ?Hm, ?Hmon; (split; [reflexivity|]);
      (split; [intros meta; discriminate | reflexivity]).
Qed.

Lemma same_entry_trans m1 m2 m3 :
  same_entry m1 m2 -> same_entry m2 m3 -> same_entry m1 m3.
Proof. unfold same_entry. intros [] []. split; congruence. Qed.

(** The whole batch. *)
Lemma monitor_fold_cursor channel cidv msgs :
  forall st c,
    let r := fold_left (monitor_message channel cidv) msgs (st, c) in
    exists new,
      handled (snd r) = handled c ++ new /\ map fst new = msgs /\
      (forall meta,
          dict_get channel (monitored_channels st) = Some meta ->
          exists meta',
            dict_get channel (monitored_channels (fst r)) = Some meta' /\
            same_entry meta meta' /\
            meta_last_id meta' = fold_left advance new (meta_last_id meta)) /\
      (forall ch, ch <> channel ->
                  dict_get ch (monitored_channels (fst r))
                  = dict_get ch (monitored_channels st)).
Proof.
  induction msgs as [|msg msgs IH]; intros st c; cbn [fold_left].
  - exists []. simpl. rewrite app_nil_r. repeat split; try reflexivity.
    intros meta Hget. exists meta. repeat split; assumption.
  - pose proof (monitor_message_cursor channel cidv st c msg)
      as (Hh & Hcur & Hoth).
    destruct (monitor_message channel cidv (st, c) msg) as [st1 c1];
      simpl in Hh, Hcur, Hoth.
    destruct (IH st1 c1) as (new & Hh' & Hmap & Hcur' & Hoth').
    eexists (_ :: new). split; [|split; [|split]].
    + rewrite Hh', Hh, <- app_assoc. reflexivity.
    + simpl. now rewrite Hmap.
    + intros meta Hget. destruct (Hcur meta Hget) as (m1 & G1 & S1 & L1).
      destruct (Hcur' m1 G1) as (m2 & G2 & S2 & L2).
      exists m2. split; [assumption|]. split; [eauto using same_entry_trans|].
      simpl. now rewrite <- L1.
    + intros ch Hne. now rewrite Hoth', Hoth.
Qed.

(** One channel's turn. *)
Lemma monitor_channel_cursor st transport channel :
  match monitor_channel st transport channel with
  | (st', Some c) =>
      exists meta entity meta',
        dict_get channel (monitored_channels st) = Some meta /\
        meta_is_active meta = true /\
        transport channel = Some entity /\
        map fst (handled c) = iter_messages_since entity (meta_last_id meta) /\
        dict_get channel (monitored_channels st') = Some meta' /\
        same_entry meta meta' /\
        meta_last_id meta' = fold_left advance (handled c) (meta_last_id meta) /\
        (forall ch, ch <> channel ->
                    dict_get ch (monitored_channels st')
                    = dict_get ch (monitored_channels st))
  | (st', None) => st' = st
  end.
Proof.
  unfold monitor_channel.
  destruct (dict_get channel (monitored_channels st)) as [meta|] eqn:Hget;
    [|reflexivity].
  destruct (meta_is_active meta) eqn:Hact; simpl; [|reflexivity].
  destruct (transport channel) as [entity|]; [|reflexivity].
  pose proof (monitor_fold_cursor channel (meta_channel_id meta)
                (iter_messages_since entity (meta_last_id meta)) st
                {| new_count := 0; content_counter := ∅; handled := [] |})
    as (new & Hh & Hmap & Hcur & Hoth).
  destruct (fold_left _ _ _) as [st1 c1]; simpl in Hh, Hcur, Hoth.
  destruct (Hcur meta Hget) as (meta' & G & S & L).
  exists meta, entity, meta'. subst new.
  assert (Hm : forall st2,
             monitored_channels st2 = monitored_channels st1 ->
             monitored_channels
               match db_pool st2 with
               | Some db =>
                   set_db (fst (update_channel db channel
                                  (set_row_checked (clock st2)))) st2
               | None => st2
               end = monitored_channels st1).
  { intros st2 H2. destruct (db_pool st2); simpl; assumption. }
  rewrite Hm by (destruct (_ && _); reflexivity).
  repeat split; try assumption; apply S.
Qed.

(** ** Registration and the turns that follow *)

Lemma newest_greatest (msgs : list TgMessage) (m : TgMessage) :
  In m msgs -> exists n, newest msgs = Some n /\ tg_id m <= tg_id n.
Proof.
  induction msgs as [|x msgs IH]; [intros []|].
  intros [-> | Hin]; simpl.
  - destruct (newest msgs) as [n|]; [|eexists; split; [reflexivity|lia]].
    destruct (tg_id m <? tg_id n) eqn:E; eexists; (split; [reflexivity|]);
      [apply Z.ltb_lt in E|]; lia.
  - destruct (IH Hin) as (n & -> & Hle).
    destruct (tg_id x <? tg_id n) eqn:E; eexists; (split; [reflexivity|]);
      [|apply Z.ltb_ge in E]; lia.
Qed.

Lemma latest_id_greatest (entity : Entity) (m : TgMessage) :
  In m (ent_messages entity) -> tg_id m <= latest_id entity.
Proof.
  intros Hin. unfold latest_id.
  destruct (newest_greatest _ _ Hin) as (n & -> & Hle). exact Hle.
Qed.

(** A registration that succeeds leaves the entry of the channel with
    the latest id as its cursor. *)
Lemma add_channel_entry st transport channel added_by entity :
  transport channel = Some entity ->
  snd (_add_channel st transport channel added_by) = true ->
  exists cid,
    dict_get channel
      (monitored_channels (fst (_add_channel st transport channel added_by)))
    = Some {| meta_is_active := true; meta_last_id := latest_id entity;
              meta_channel_id := cid |}.
Proof.
  unfold _add_channel. intros ->.
  destruct (tg_client st); simpl; [|discriminate].
  destruct (db_pool st) as [db|]; [|discriminate].
  destruct (match select_channel_id db channel with
            | Some existing => _
            | None => _
            end) as [db' [cid|]]; simpl; [|discriminate].
  intros _. exists cid. apply dict_get_set_eq.
Qed.

(** While the entry of [channel] has a cursor of at least [floor], every
    message that a turn of the monitor hands to [_save_telethon_message]
    for this channel has an id above [floor]. *)
Lemma monitor_turns_above channel floor turns :
  forall st meta,
    dict_get channel (monitored_channels st) = Some meta ->
    floor <= meta_last_id meta ->
    forall c m ok,
      In (channel, c) (snd (monitor_turns st turns)) ->
      In (m, ok) (handled c) ->
      floor < tg_id m.
Proof.
  induction turns as [|[ch transport] turns IH]; intros st meta Hget Hfloor
    c m ok; cbn [monitor_turns]; [intros []|].
  pose proof (monitor_channel_cursor st transport ch) as H.
  destruct (monitor_channel st transport ch) as [st1 [c1|]].
  - destruct H as (meta0 & entity & meta1 & Hget0 & _ & _ & Hmap & Hget1 & _
                   & Hlast & Hoth).
    destruct (monitor_turns st1 turns) as [st2 cs] eqn:Erest. simpl.
    assert (Hnext : exists meta2,
               dict_get channel (monitored_channels st1) = Some meta2 /\
               floor <= meta_last_id meta2).
    { destruct (String.eqb ch channel) eqn:E.
      - apply String.eqb_eq in E. subst ch.
        rewrite Hget in Hget0. injection Hget0 as <-.
        exists meta1. split; [assumption|]. rewrite Hlast.
        pose proof (fold_advance_ge (handled c1) (meta_last_id meta)). lia.
      - apply String.eqb_neq in E. exists meta. split; [|assumption].
        rewrite Hoth; [assumption|]. congruence. }
    destruct Hnext as (meta2 & Hget2 & Hfloor2).
    intros [Hhere | Hlater] Hin.
    + injection Hhere as -> ->.
      rewrite Hget in Hget0. injection Hget0 as <-.
      assert (Hm : In m (map fst (handled c))).
      { change m with (fst (m, ok)). now apply in_map. }
      rewrite Hmap in Hm. unfold iter_messages_since in Hm.
      apply filter_In in Hm as [_ Hm]. apply Z.ltb_lt in Hm. lia.
    + specialize (IH st1 meta2 Hget2 Hfloor2 c m ok).
      rewrite Erest in IH. now apply IH.
  - subst st1. destruct (monitor_turns st turns) as [st2 cs] eqn:Erest. simpl.
    specialize (IH st meta Hget Hfloor c m ok). rewrite Erest in IH.
    exact IH.
Qed.

(** ** The reconciliation, case by case *)

Lemma records_for_none_select db cid tmid :
  records_for cid tmid (mc_tbl db) = [] ->
  truthy (select_existing db tmid cid) = false.
Proof.
  intros Hnone. destruct (truthy (select_existing db tmid cid)) eqn:E;
    [|reflexivity].
  now apply select_existing_truthy in E.
Qed.

(** No record for the key, a known channel, a hash that no record
    holds: the row is appended. *)
Lemma reconcile_inserts st msg cid l db :
  db_pool st = Some db ->
  cid <> 0 -> tg_id msg <> 0 ->
  records_for cid (tg_id msg) (mc_tbl db) = [] ->
  channel_known db cid = true ->
  hash_taken db (v_file_hash l) = false ->
  match v_file_hash l with Some h => sql_length h <= 64 | None => True end ->
  let r := reconcile st msg (Some cid) l in
  unified (fst r)
  = mc_tbl db
    ++ [unified_row l cid (tg_id msg) (created_at (clock st) msg) (mc_seq db)]
  /\ snd r = mark_saved l
  /\ same_content_rows st (fst r)
  /\ processed_content (fst r) = processed_content st
  /\ disk (fst r) = disk st.
Proof.
  intros Hdb Hcid Hid Hnone Hknown Hhash Hlen.
  unfold reconcile, db_ready, created_at, unified, same_content_rows.
  rewrite Hdb.
  apply Z.eqb_neq in Hcid, Hid. rewrite Hcid, Hid.
  rewrite (records_for_none_select _ _ _ Hnone).
  unfold insert_message_channel. cbn [unified_row mc_channel_id file_hash].
  rewrite Hknown, Hhash.
  assert (Hl : match v_file_hash l with
               | Some h => sql_length h <=? 64
               | None => true
               end = true).
  { destruct (v_file_hash l); [apply Z.leb_le; assumption | reflexivity]. }
  rewrite Hl.
  unfold _normalize_datetime, datetime_now.
  destruct (tg_date msg) as [d|]; [destruct (dt_tzinfo d)|]; simpl;
    rewrite ?Hdb; repeat split; reflexivity.
Qed.


(** ** Tables and ids that the later branches leave alone *)

(** The media branch, the note of an empty message and the
    reconciliation leave the text and link tables alone, as well as the
    ids of the text and of the link. *)
Lemma save_media_text_links st msg cid l :
  let r := save_media st msg cid l in
  text_links_of (fst r) = text_links_of st
  /\ v_text_id (snd r) = v_text_id l /\ v_link_id (snd r) = v_link_id l.
Proof.
  unfold save_media, text_links_of. unfold_small.
  crush_cases; repeat split; reflexivity.
Qed.

Lemma note_empty_text_links st msg l :
  let r := note_empty st msg l in
  text_links_of (fst r) = text_links_of st
  /\ v_text_id (snd r) = v_text_id l /\ v_link_id (snd r) = v_link_id l.
Proof.
  unfold note_empty, text_links_of. crush_cases; repeat split; reflexivity.
Qed.

Lemma reconcile_text_links st msg cid l :
  let r := reconcile st msg cid l in
  text_links_of (fst r) = text_links_of st
  /\ v_text_id (snd r) = v_text_id l /\ v_link_id (snd r) = v_link_id l.
Proof.
  unfold reconcile, text_links_of. unfold_small.
  crush_cases; repeat split; reflexivity.
Qed.

Lemma reconcile_same_content st msg cid l :
  same_content_rows st (fst (reconcile st msg cid l)).
Proof.
  unfold reconcile, same_content_rows. unfold_small.
  crush_cases; simplify_eq; simpl in *; simplify_eq;
    repeat split; reflexivity.
Qed.

(** The call, once the text branch has returned. *)
Lemma save_after_text st msg name cid_arg st1 l1 :
  save_text st msg (resolve_channel_id st name cid_arg) initial_locals
  = (st1, Some l1) ->
  let r := _save_telethon_message st msg name cid_arg in
  text_links_of (fst r) = text_links_of st1
  /\ (In "link" (snd (snd r)) -> truthy (v_link_id l1) = true).
Proof.
  intros Htext. unfold _save_telethon_message. rewrite Htext.
  set (c := resolve_channel_id st name cid_arg).
  pose proof (save_media_text_links st1 msg c l1) as (M1 & _ & M3).
  destruct (save_media st1 msg c l1) as [st2 l2]; simpl in M1, M3.
  pose proof (note_empty_text_links st2 msg l2) as (E1 & _ & E3).
  destruct (note_empty st2 msg l2) as [st3 l3]; simpl in E1, E3.
  pose proof (reconcile_text_links st3 msg c l3) as (R1 & _ & R3).
  destruct (reconcile st3 msg c l3) as [st4 l4]; simpl in R1, R3.
  simpl. split; [congruence|].
  unfold types_saved. rewrite R3, E3, M3. intros Hin.
  repeat (apply in_app_or in Hin as [Hin|Hin];
          [destruct (truthy _); simpl in Hin;
           [destruct Hin as [Hin|[]]; discriminate | destruct Hin] |]).
  destruct (truthy (v_link_id l1)); [reflexivity | destruct Hin].
Qed.

(** ** A message with neither text nor media *)

Lemma save_empty st msg name cid_arg :
  tg_message msg = EmptyString -> tg_media msg = None -> tg_id msg <> 0 ->
  _save_telethon_message st msg name cid_arg
  = let r := reconcile (add_log (LogEmptyMessage (tg_id msg)) st) msg
                       (resolve_channel_id st name cid_arg)
                       (mark_processed initial_locals) in
    (fst r, (true, [])).
Proof.
  intros Ht Hm Hid.
  unfold _save_telethon_message, save_text, save_media, note_empty.
  rewrite Ht, Hm. simpl.
  apply Z.eqb_neq in Hid. rewrite Hid. simpl.
  unfold reconcile, db_ready.
  set (st0 := add_log (LogEmptyMessage (tg_id msg)) st).
  destruct (db_pool st0) as [db|]; [|reflexivity].
  destruct (resolve_channel_id st name cid_arg) as [c|]; [|reflexivity].
  destruct (c =? 0); [reflexivity|]. rewrite Hid.
  destruct (truthy _); [reflexivity|].
  destruct (_normalize_datetime st0 (tg_date msg)) as [st1 dt].
  destruct (insert_message_channel _ _) as [db' []]; reflexivity.
Qed.

(** ** The branches on content whose fingerprint is on record *)

Lemma save_text_absent st msg cid l :
  nonempty (tg_message msg) = false -> save_text st msg cid l = (st, Some l).
Proof. intros H. unfold save_text. now rewrite H. Qed.

Lemma save_media_absent st msg cid l :
  tg_media msg = None -> save_media st msg cid l = (st, l).
Proof. intros H. unfold save_media. now rewrite H. Qed.

(** The text branch on a duplicate: the file is written and nothing
    else is done. *)
Lemma save_text_duplicate st msg cid l :
  text_is_duplicate st msg ->
  save_text st msg cid l
  = (text_written st msg,
     Some (set_file_hash (text_hash msg) (mark_processed l))).
Proof.
  intros (Ht & Hw & Hdup). unfold save_text. rewrite Ht. simpl.
  unfold _generate_filename, _save_file_locally, datetime_now. simpl.
  fold (text_file_path st). rewrite Hw.
  fold (text_written st msg). fold (text_hash msg).
  change (_is_duplicate (text_written st msg) (text_hash msg))
    with (_is_duplicate st (text_hash msg)).
  now rewrite Hdup.
Qed.

(** The media branch on a duplicate: the state is left as it is. *)
Lemma save_media_duplicate st msg cid l data :
  media_is_duplicate st msg data ->
  save_media st msg cid l
  = (st, set_file_hash (_calculate_file_hash data) (mark_processed l)).
Proof.
  intros (Hm & Hdata & Hclient & Hdup). unfold save_media.
  rewrite Hm, Hclient. simpl.
  destruct data as [|b data]; [contradiction|]. now rewrite Hdup.
Qed.

Lemma reconcile_locals st msg cid l :
  snd (reconcile st msg cid l) = l \/ snd (reconcile st msg cid l) = mark_saved l.
Proof.
  unfold reconcile.
  destruct (db_ready st cid) as [[db c]|]; [|now left].
  destruct (tg_id msg =? 0); [now left|].
  destruct (truthy _); [now left|].
  destruct (_normalize_datetime st (tg_date msg)) as [st1 dt].
  destruct (insert_message_channel _ _) as [db' []]; [now right | now left].
Qed.

Lemma whole_duplicate_state st msg h st1 :
  whole_duplicate st msg h st1 ->
  db_pool st1 = db_pool st /\ log st1 = log st /\
  processed_content st1 = processed_content st /\
  (nonempty (tg_message msg) = false -> st1 = st).
Proof.
  intros [[Ht _] _ | data Ht _ | data [Ht _] _]; repeat split;
    try reflexivity; intros H; congruence.
Qed.

(** A message whose whole content is a duplicate: the call comes down
    to the reconciliation, with the fingerprint as the hash of the
    record and no content id. *)
Lemma save_whole_duplicate st msg name cid_arg h st1 :
  whole_duplicate st msg h st1 ->
  _save_telethon_message st msg name cid_arg
  = let r := reconcile st1 msg (resolve_channel_id st name cid_arg)
                       (set_file_hash h (mark_processed initial_locals)) in
    (fst r, (true, [])).
Proof.
  intros Hdup. unfold _save_telethon_message.
  set (c := resolve_channel_id st name cid_arg).
  assert (Hbranches :
            exists l,
              save_text st msg c initial_locals = (st1, Some l) /\
              save_media st1 msg c l
              = (st1, set_file_hash h (mark_processed initial_locals))).
  { destruct Hdup as [Ht Hm | data Ht Hm | data Ht Hm].
    - eexists. split; [apply save_text_duplicate; exact Ht|].
      now apply save_media_absent.
    - eexists. split; [apply save_text_absent; exact Ht|].
      now apply save_media_duplicate.
    - eexists. split; [apply save_text_duplicate; exact Ht|].
      rewrite (save_media_duplicate _ _ _ _ data); [reflexivity|].
      destruct Hm as (Hm & Hdata & Hclient & Hd). repeat split; assumption. }
  destruct Hbranches as (l & -> & ->).
  unfold note_empty. cbn [message_processed set_file_hash mark_processed
                          set_flags negb andb].
  pose proof (reconcile_locals st1 msg c
                (set_file_hash h (mark_processed initial_locals))) as Hl.
  destruct (reconcile st1 msg c _) as [st4 l4]. simpl in Hl |- *.
  destruct Hl as [-> | ->]; reflexivity.
Qed.

(** ** Stopping a channel and registering it again *)

Lemma update_channel_rows db tag f :
  channel_tbl (fst (update_channel db tag f))
  = map (fun r => if String.eqb (tag_channel r) tag then f r else r)
        (channel_tbl db).
Proof. reflexivity. Qed.

Lemma find_tag_none rows tag :
  List.find (fun r : ChannelRow => String.eqb (tag_channel r) tag) rows = None ->
  Forall (fun r => tag_channel r <> tag) rows.
Proof.
  intros H. apply List.Forall_forall. intros r Hin Heq.
  pose proof (find_none _ _ H r Hin) as Hf. simpl in Hf.
  apply String.eqb_neq in Hf. contradiction.
Qed.

(** The rows of the channel table after a registration that
    succeeded. *)
Lemma add_channel_rows st transport channel added_by entity :
  transport channel = Some entity ->
  snd (_add_channel st transport channel added_by) = true ->
  exists db',
    db_pool (fst (_add_channel st transport channel added_by)) = Some db' /\
    Forall (fun r => tag_channel r = channel ->
                     is_active r = true /\
                     last_message_id r = latest_id entity)
           (channel_tbl db').
Proof.
  unfold _add_channel. intros ->.
  destruct (tg_client st); simpl; [|discriminate].
  destruct (db_pool st) as [db|]; [|discriminate].
  unfold select_channel_id.
  destruct (List.find _ (channel_tbl db)) as [row|] eqn:Efind; simpl.
  - intros _. eexists. split; [reflexivity|].
    apply List.Forall_forall. intros r Hin Htag. simpl in Hin.
    apply in_map_iff in Hin as (r0 & Hr & _).
    destruct (String.eqb (tag_channel r0) channel) eqn:E.
    + subst r. simpl. split; reflexivity.
    + subst r. apply String.eqb_neq in E. contradiction.
  - unfold insert_channel.
    destruct (varchar 50 channel) as [tag|]; [|discriminate].
    destruct (varchar 50 _) as [title|]; [|discriminate].
    destruct (length_checked tag && length_checked title); simpl;
      [|discriminate].
    intros _. eexists. split; [reflexivity|]. simpl.
    apply Forall_app. split.
    + eapply Forall_impl; [apply (find_tag_none _ _ Efind)|].
      simpl. intros r Hne Htag. contradiction.
    + repeat constructor.
Qed.

(** A process started on a store in which the rows of [channel] are
    inactive does not monitor the channel: the cursor that its rows
    keep is not loaded. *)
Lemma inactive_channel_not_loaded st db channel :
  db_pool st = Some db ->
  Forall (fun r => tag_channel r = channel -> is_active r = false)
         (channel_tbl db) ->
  dict_get channel (monitored_channels (load_channels (new_process st))) = None.
Proof.
  intros Hdb Hrows. unfold load_channels.
  change (db_pool (new_process st)) with (db_pool st). rewrite Hdb.
  assert (Hstart : dict_get channel (monitored_channels (new_process st)) = None)
    by reflexivity.
  revert Hstart. generalize (new_process st) as s0.
  induction Hrows as [|r rows Hr _ IH]; intros s0 Hs0; simpl; [exact Hs0|].
  destruct (is_active r) eqn:Hact; [|now apply IH].
  simpl. apply IH. simpl. rewrite dict_get_set_ne; [exact Hs0|].
  intros Heq. pose proof (Hr (eq_sym Heq)) as Hoff. simpl in Hoff. congruence.
Qed.

(** ** The buffer of a media group *)

Lemma set_timers_same st : set_timers (timers st) st = st.
Proof. destruct st; reflexivity. Qed.

Lemma filter_none {A} (f : A -> bool) (l : list A) :
  Forall (fun x => f x = false) l -> List.filter f l = [].
Proof.
  induction 1 as [|x l Hx _ IH]; simpl; [reflexivity|]. now rewrite Hx.
Qed.

Lemma filter_all {A} (f : A -> bool) (l : list A) :
  Forall (fun x => f x = true) l -> List.filter f l = l.
Proof.
  induction 1 as [|x l Hx _ IH]; simpl; [reflexivity|]. now rewrite Hx, IH.
Qed.

(** No task has finished its sleep: the event loop runs none. *)
Lemma run_timers_early st now :
  Forall (fun t => now < fst t) (timers st) -> run_timers st now = st.
Proof.
  intros H. unfold run_timers.
  rewrite filter_none, filter_all; [apply set_timers_same | |];
    (eapply Forall_impl; [exact H|]); simpl; intros t Ht.
  - apply negb_true_iff, Z.leb_gt. exact Ht.
  - apply Z.leb_gt. exact Ht.
Qed.

(** A task that wakes up no earlier than the sleeping ones goes last. *)
Lemma schedule_last task ts :
  Forall (fun t => fst t <= fst task) ts -> schedule task ts = ts ++ [task].
Proof.
  induction 1 as [|t ts Ht _ IH]; simpl; [reflexivity|].
  apply Z.leb_le in Ht. now rewrite Ht, IH.
Qed.

Lemma buffering_twice messages items items' ts ts' st :
  buffering messages items' ts' (buffering messages items ts st)
  = buffering messages items' ts' st.
Proof.
  unfold buffering, set_timers, set_buffers. simpl.
  now rewrite list_insert_insert_eq.
Qed.

Lemma buffering_same messages items st :
  buffers st !! messages = Some items ->
  buffering messages items (timers st) st = st.
Proof.
  intros H. unfold buffering, set_timers, set_buffers.
  destruct st; simpl in *. now rewrite list_insert_id.
Qed.

(** [_handle_media_group] on a fragment of a group that has a list, and
    on the first fragment of a group. *)
Lemma handle_bound st now m gid messages items :
  nonempty gid = true ->
  media_group_id m = gid ->
  media_groups st !! gid = Some messages ->
  buffers st !! messages = Some items ->
  fst (_handle_media_group st now m)
  = buffering messages (items ++ [m])
      (schedule (now + quiescence_delay, gid) (timers st)) st.
Proof.
  intros Hgid Hg Hbound Hitems.
  unfold _handle_media_group. rewrite Hg, Hgid. simpl.
  rewrite Hbound. simpl. rewrite Hbound. simpl.
  unfold buffering, set_timers, set_buffers. simpl. f_equal.
  apply list_eq. intros i. rewrite list_lookup_alter.
  destruct (decide (messages = i)) as [<-|Hne].
  - rewrite Hitems. simpl. rewrite list_lookup_insert_eq; [reflexivity|].
    eapply lookup_lt_Some; eassumption.
  - rewrite list_lookup_insert_ne by assumption. reflexivity.
Qed.

Lemma handle_unbound st now m gid :
  nonempty gid = true ->
  media_group_id m = gid ->
  media_groups st !! gid = None ->
  fst (_handle_media_group st now m)
  = set_timers (schedule (now + quiescence_delay, gid) (timers st))
      (set_media_groups (insert gid (length (buffers st)))
         (set_buffers (fun bs => bs ++ [[m]]) st)).
Proof.
  intros Hgid Hg Hnone.
  unfold _handle_media_group. rewrite Hg, Hgid. simpl.
  rewrite Hnone. simpl. rewrite lookup_insert_eq. simpl.
  unfold set_timers, set_media_groups, set_buffers. simpl. f_equal.
  apply list_eq. intros i. rewrite list_lookup_alter.
  destruct (decide (length (buffers st) = i)) as [<-|Hne].
  - rewrite !lookup_app_r by lia. now rewrite Nat.sub_diag.
  - destruct (decide (i < length (buffers st))%nat).
    + now rewrite !lookup_app_l by lia.
    + rewrite !lookup_app_r by lia.
      destruct (i - length (buffers st))%nat eqn:E; [lia|reflexivity].
Qed.

(** The fragments of a group that keep arriving while every sleeping
    task is still asleep: each is appended to the list of the group and
    starts a task of its own. *)
Lemma deliver_more gid w messages :
  nonempty gid = true ->
  forall arrivals st items,
    media_groups st !! gid = Some messages ->
    buffers st !! messages = Some items ->
    StronglySorted Z.le (map fst arrivals) ->
    Forall (fun a => fst a < w /\ w <= fst a + quiescence_delay /\
                     media_group_id (snd a) = gid) arrivals ->
    Forall (fun t => w <= fst t /\
                     Forall (fun a => fst t <= fst a + quiescence_delay) arrivals)
           (timers st) ->
    fold_left on_event (map (fun a => (fst a, Arrival (snd a))) arrivals) st
    = buffering messages (items ++ map snd arrivals)
        (timers st ++ map (fun a => (fst a + quiescence_delay, gid)) arrivals)
        st.
Proof.
  intros Hgid. induction arrivals as [|[t m] arrivals IH];
    intros st items Hbound Hitems Hsorted Harr Htimers.
  - simpl. rewrite !app_nil_r. symmetry. now apply buffering_same.
  - cbn [fold_left map fst snd].
    apply Forall_cons_1 in Harr as [(Hlt & Hge & Hg) Harr]. simpl in Hlt, Hge, Hg.
    cbn [map fst] in Hsorted. apply StronglySorted_inv in Hsorted as [Hsorted Hle].
    assert (Hstep : on_event st (t, Arrival m)
                    = buffering messages (items ++ [m])
                        (timers st ++ [(t + quiescence_delay, gid)]) st).
    { unfold on_event. rewrite run_timers_early.
      - rewrite Hg, Hgid.
        rewrite (handle_bound st t m gid messages items) by assumption.
        rewrite schedule_last; [reflexivity|].
        eapply Forall_impl; [exact Htimers|]. simpl.
        intros t0 [_ H0]. apply Forall_cons_1 in H0 as [H0 _]. exact H0.
      - eapply Forall_impl; [exact Htimers|]. simpl. intros t0 [H0 _]. lia. }
    rewrite Hstep.
    assert (Hlen : (messages < length (buffers st))%nat)
      by (eapply lookup_lt_Some; eassumption).
    rewrite (IH _ (items ++ [m])).
    + rewrite buffering_twice. simpl. rewrite <- !app_assoc. reflexivity.
    + exact Hbound.
    + simpl. now apply list_lookup_insert_eq.
    + exact Hsorted.
    + exact Harr.
    + simpl. apply Forall_app. split.
      * eapply Forall_impl; [exact Htimers|]. simpl.
        intros t0 [H0 H1]. split; [exact H0|].
        apply Forall_cons_1 in H1 as [_ H1]. exact H1.
      * constructor; [|constructor]. simpl. split; [exact Hge|].
        rewrite List.Forall_forall in Hle |- *. intros a Ha.
        specialize (Hle (fst a) (in_map fst _ _ Ha)). lia.
Qed.

(** The handlers of single messages add no line of a group flush to the
    log and leave the groups, their lists and the other coroutines
    alone. *)
Lemma process_content_frame st message :
  let st' := _process_message_content st message in
  group_lines (log st') = group_lines (log st)
  /\ media_groups st' = media_groups st
  /\ buffers st' = buffers st
  /\ timers st' = timers st
  /\ suspended st' = suspended st.
Proof.
  unfold _process_message_content, _process_text, _process_photo,
    _process_document, _process_video, _process_audio, _process_sticker,
    _process_animation, _process_single_file, _download_file, group_lines.
  unfold_small.
  crush_cases; rewrite ?flat_map_app; simpl; rewrite ?app_nil_r;
    repeat split; reflexivity.
Qed.

Lemma process_contents_frame messages :
  forall st,
    let st' := fold_left _process_message_content messages st in
    group_lines (log st') = group_lines (log st)
    /\ media_groups st' = media_groups st
    /\ buffers st' = buffers st
    /\ timers st' = timers st
    /\ suspended st' = suspended st.
Proof.
  induction messages as [|m messages IH]; intros st; simpl;
    [repeat split; reflexivity|].
  destruct (IH (_process_message_content st m)) as (H1 & H2 & H3 & H4 & H5).
  destruct (process_content_frame st m) as (G1 & G2 & G3 & G4 & G5).
  repeat split; congruence.
Qed.

(** A coroutine that was the only one to wait goes on. *)
Lemma suspend_resume task st :
  suspended st = [] ->
  set_suspended (delete 0%nat)
                (set_suspended (fun tasks => tasks ++ [task]) st) = st.
Proof.
  intros H. unfold set_suspended. destruct st; simpl in *. subst.
  reflexivity.
Qed.

(** The download of the fragment of index [length done] is over while
    the sleeping tasks stay asleep: the flush goes on from the next
    fragment. *)
Lemma flush_step messages done m rest st d :
  suspended st = [] ->
  buffers st !! messages = Some (done ++ m :: rest) ->
  Forall (fun t => d < fst t) (timers st) ->
  on_event (set_suspended
              (fun tasks => tasks ++ [Flush messages (length done)]) st)
           (d, Downloaded 0%nat)
  = run_flush (_process_message_content st m) messages (S (length done)) rest.
Proof.
  intros Hnone Hbuf Hd.
  destruct (process_content_frame st m) as (_ & _ & Hb & _ & _).
  unfold on_event. rewrite run_timers_early by exact Hd.
  unfold resume. cbn [suspended set_suspended]. rewrite Hnone.
  cbn [app lookup list_lookup].
  change (set_suspended (delete 0%nat) (set_suspended _ st))
    with (set_suspended (delete 0%nat)
            (set_suspended
               (fun tasks => tasks ++ [Flush messages (length done)]) st)).
  rewrite (suspend_resume _ st Hnone), Hbuf. cbn [default from_option id].
  rewrite list_lookup_middle by reflexivity. cbn zeta.
  rewrite Hb, Hbuf. cbn [default from_option id].
  replace (drop (S (length done)) (done ++ m :: rest)) with rest; [reflexivity|].
  change (m :: rest) with ([m] ++ rest). rewrite app_assoc.
  rewrite drop_app_length'; [reflexivity|].
  rewrite length_app. simpl. lia.
Qed.

(** A flush that no task interrupts: the downloads of the fragments
    from the index [length done] on are over, one after the other,
    while the sleeping tasks stay asleep. *)
Lemma flush_uninterrupted messages :
  forall rest done m st ds,
    suspended st = [] ->
    buffers st !! messages = Some (done ++ m :: rest) ->
    Forall (fun x => downloads x = true) rest ->
    Forall (fun d => Forall (fun t => d < fst t) (timers st)) ds ->
    length ds = length (m :: rest) ->
    fold_left on_event (map (fun d => (d, Downloaded 0%nat)) ds)
      (set_suspended (fun tasks => tasks ++ [Flush messages (length done)]) st)
    = end_flush (fold_left _process_message_content (m :: rest) st) messages.
Proof.
  induction rest as [|m' rest IH]; intros done m st ds Hnone Hbuf Hdl Hds Hlen;
    (destruct ds as [|d ds]; [discriminate|]);
    apply Forall_cons_1 in Hds as [Hd Hds];
    destruct (process_content_frame st m) as (_ & _ & Hb & Ht & Hs);
    cbn [map fold_left];
    rewrite (flush_step messages done m _ st d Hnone Hbuf Hd).
  - destruct ds; [|discriminate]. reflexivity.
  - apply Forall_cons_1 in Hdl as [Hm' Hdl].
    cbn [run_flush]. rewrite Hm'.
    replace (S (length done)) with (length (done ++ [m]))
      by (rewrite length_app; simpl; lia).
    rewrite (IH (done ++ [m]) m' (_process_message_content st m) ds).
    + reflexivity.
    + congruence.
    + rewrite Hb, <- app_assoc. exact Hbuf.
    + exact Hdl.
    + rewrite Ht. exact Hds.
    + simpl in Hlen |- *. lia.
Qed.

(** A task wakes up and finds the list of its group: the flush starts
    and waits for the file of the first fragment. *)
Lemma flush_start st gid messages m rest :
  media_groups st !! gid = Some messages ->
  buffers st !! messages = Some (m :: rest) ->
  downloads m = true ->
  process_group_later st gid
  = set_suspended (fun tasks => tasks ++ [Flush messages 0])
      (add_log (LogMediaGroup (length (m :: rest))) st).
Proof.
  intros Hbound Hbuf Hm. unfold process_group_later, _process_media_group.
  rewrite Hbound, Hbuf. cbn [default from_option id run_flush].
  rewrite Hm. reflexivity.
Qed.

(** The end of the flush of a list that starts with a fragment of group
    [gid]. *)
Lemma end_flush_unbinds st gid messages first others :
  nonempty gid = true ->
  media_group_id first = gid ->
  buffers st !! messages = Some (first :: others) ->
  end_flush st messages = set_media_groups (delete gid) st.
Proof.
  intros Hgid Hfirst Hbuf. unfold end_flush. rewrite Hbuf.
  cbn [default from_option id]. rewrite Hfirst, Hgid. reflexivity.
Qed.

(** Once the group is unbound, the tasks of the group that wake up find
    nothing to do. *)
Lemma late_tasks_idle gid (due : list (Z * string)) :
  Forall (fun t => snd t = gid) due ->
  forall st,
    media_groups st !! gid = None ->
    fold_left (fun st t => process_group_later st (snd t)) due st = st.
Proof.
  induction 1 as [|t due Ht _ IH]; intros st Hnone; simpl; [reflexivity|].
  unfold process_group_later at 2. rewrite Ht, Hnone. now apply IH.
Qed.

(** ** The links of a text *)

Lemma extract_links_first text u us d :
  nonempty text = true ->
  findall_urls text = u :: us ->
  urlparse_netloc u = Some d ->
  exists others,
    _extract_links text
    = {| ld_url := u; ld_domain := d; ld_title := None;
         ld_description := None |} :: others.
Proof.
  intros Ht Hf Hp. unfold _extract_links. rewrite Ht, Hf. simpl.
  rewrite Hp. simpl. eauto.
Qed.

(** ** Strings *)

Lemma append_nil_l (b : string) : EmptyString +:+ b = b.
Proof. reflexivity. Qed.

Lemma append_cons (c : ascii) (a b : string) :
  String c a +:+ b = String c (a +:+ b).
Proof. reflexivity. Qed.

Lemma append_nil_r (s : string) : s +:+ EmptyString = s.
Proof.
  induction s as [|c s IH]; [reflexivity|]. now rewrite append_cons, IH.
Qed.

Lemma append_assoc (a b c : string) : a +:+ (b +:+ c) = (a +:+ b) +:+ c.
Proof.
  induction a as [|x a IH]; [reflexivity|]. now rewrite !append_cons, IH.
Qed.

Lemma length_append (a b : string) :
  String.length (a +:+ b) = (String.length a + String.length b)%nat.
Proof.
  induction a as [|x a IH]; [reflexivity|].
  rewrite append_cons. cbn [String.length]. now rewrite IH.
Qed.

Lemma list_ascii_append (a b : string) :
  list_ascii_of_string (a +:+ b)
  = (list_ascii_of_string a ++ list_ascii_of_string b)%list.
Proof.
  induction a as [|x a IH]; [reflexivity|].
  rewrite append_cons. cbn [list_ascii_of_string]. now rewrite IH.
Qed.

Lemma strip_prefix_app (p s r : string) :
  strip_prefix p s = Some r -> s = p +:+ r.
Proof.
  revert s; induction p as [|a p IH]; intros s; cbn [strip_prefix].
  - now intros [= ->].
  - destruct s as [|b s]; [discriminate|].
    destruct (Ascii.eqb_spec a b) as [->|]; [|discriminate].
    intros H. now rewrite (IH _ H).
Qed.

Lemma strip_prefix_append (p r : string) : strip_prefix p (p +:+ r) = Some r.
Proof.
  induction p as [|a p IH]; [reflexivity|].
  rewrite append_cons. cbn [strip_prefix]. now rewrite Ascii.eqb_refl.
Qed.

(** ** The URLs of a text *)

Lemma url_scheme_app (s sch r : string) :
  url_scheme s = Some (sch, r) -> is_scheme sch /\ s = sch +:+ r.
Proof.
  unfold url_scheme, is_scheme.
  destruct (strip_prefix "http" s) as [r1|] eqn:E1; [|discriminate].
  apply strip_prefix_app in E1. subst s.
  destruct (strip_prefix "s://" r1) as [r2|] eqn:E2.
  - intros [= <- <-]. apply strip_prefix_app in E2. subst r1.
    split; [now right | reflexivity].
  - destruct (strip_prefix "://" r1) as [r3|] eqn:E3; [|discriminate].
    intros [= <- <-]. apply strip_prefix_app in E3. subst r1.
    split; [now left | reflexivity].
Qed.

Lemma url_body_app (r : string) :
  exists post,
    r = url_body r +:+ post /\ all_url_chars (url_body r) = true /\
    match post with
    | EmptyString => True
    | String c _ => url_char c = false
    end.
Proof.
  induction r as [|c r (post & Hr & Hall & Hpost)].
  - exists EmptyString. repeat split.
  - cbn [url_body]. destruct (url_char c) eqn:Ec.
    + exists post. rewrite append_cons, <- Hr. split; [reflexivity|].
      split; [|exact Hpost]. unfold all_url_chars in *.
      cbn [list_ascii_of_string forallb]. now rewrite Ec, Hall.
    + exists (String c r). repeat split. exact Ec.
Qed.

Lemma match_url_app (s u : string) :
  match_url s = Some u ->
  exists sch body post,
    is_scheme sch /\ u = sch +:+ body /\ s = u +:+ post /\
    nonempty body = true /\ all_url_chars body = true.
Proof.
  unfold match_url.
  destruct (url_scheme s) as [[sch r]|] eqn:Es; [|discriminate].
  apply url_scheme_app in Es as [Hsch ->].
  destruct (nonempty (url_body r)) eqn:Hne; [|discriminate].
  intros [= <-]. destruct (url_body_app r) as (post & Hr & Hall & _).
  exists sch, (url_body r), post. repeat split; try assumption.
  now rewrite <- append_assoc, <- Hr.
Qed.

Lemma findall_from_in (s : string) :
  forall k u,
    In u (findall_from k s) ->
    exists pre post sch body,
      s = pre +:+ u +:+ post /\ is_scheme sch /\ u = sch +:+ body /\
      nonempty body = true /\ all_url_chars body = true.
Proof.
  induction s as [|c s IH]; intros k u; cbn [findall_from]; [intros []|].
  assert (Hrest : forall k',
             In u (findall_from k' s) ->
             exists pre post sch body,
               String c s = pre +:+ u +:+ post /\ is_scheme sch /\
               u = sch +:+ body /\ nonempty body = true /\
               all_url_chars body = true).
  { intros k' Hin. destruct (IH k' u Hin) as (pre & post & sch & body & -> & H).
    exists (String c pre), post, sch, body. split; [reflexivity | exact H]. }
  destruct k as [|k]; [|apply Hrest].
  destruct (match_url (String c s)) as [u0|] eqn:Em; [|apply Hrest].
  intros [<- | Hin]; [|eapply Hrest; exact Hin].
  destruct (match_url_app _ _ Em) as (sch & body & post & Hsch & Hu & Hs & H).
  exists EmptyString, post, sch, body. split; [exact Hs|]. split; [exact Hsch|].
  split; [exact Hu | exact H].
Qed.

Lemma netloc_of_app (body : string) :
  exists tail,
    body = netloc_of body +:+ tail /\
    contains "/"%char (netloc_of body) = false /\
    contains "?"%char (netloc_of body) = false /\
    contains "#"%char (netloc_of body) = false /\
    match tail with
    | EmptyString => True
    | String c _ => c = "/"%char \/ c = "?"%char \/ c = "#"%char
    end.
Proof.
  induction body as [|c body (tail & Hb & H1 & H2 & H3 & Ht)].
  - exists EmptyString. repeat split.
  - cbn [netloc_of].
    destruct (Ascii.eqb_spec c "/"%char) as [->|N1];
      [exists (String "/"%char body); repeat split; now left|].
    destruct (Ascii.eqb_spec c "?"%char) as [->|N2];
      [exists (String "?"%char body); repeat split; right; now left|].
    destruct (Ascii.eqb_spec c "#"%char) as [->|N3];
      [exists (String "#"%char body); repeat split; right; now right|].
    cbn [orb]. exists tail. rewrite append_cons, <- Hb.
    split; [reflexivity|]. cbn [contains].
    rewrite H1, H2, H3.
    apply Ascii.eqb_neq in N1, N2, N3. rewrite N1, N2, N3.
    repeat split. exact Ht.
Qed.

Lemma after_scheme_http (sch body : string) :
  is_scheme sch -> after_scheme true (sch +:+ body) = Some ("//" +:+ body).
Proof. intros [-> | ->]; reflexivity. Qed.

Lemma urlparse_netloc_scheme (sch body : string) :
  is_scheme sch ->
  urlparse_netloc (sch +:+ body)
  = if xorb (contains "["%char (netloc_of body))
            (contains "]"%char (netloc_of body))
    then None
    else if contains "["%char (netloc_of body)
            && contains "]"%char (netloc_of body)
         then (if _check_bracketed_netloc (netloc_of body)
               then Some (netloc_of body) else None)
         else Some (netloc_of body).
Proof.
  intros Hsch. unfold urlparse_netloc.
  rewrite (after_scheme_http sch body Hsch).
  now rewrite (strip_prefix_append "//" body).
Qed.

(** The location that the parsing of a URL of the pattern gives, when
    it gives one. *)
Lemma urlparse_netloc_some (sch body d : string) :
  is_scheme sch ->
  urlparse_netloc (sch +:+ body) = Some d -> d = netloc_of body.
Proof.
  intros Hsch. rewrite (urlparse_netloc_scheme sch body Hsch).
  destruct (xorb _ _); [discriminate|].
  destruct (_ && _); [destruct (_check_bracketed_netloc _)|];
    congruence.
Qed.

Lemma contains_append (c : ascii) (a b : string) :
  contains c (a +:+ b) = contains c a || contains c b.
Proof.
  induction a as [|x a IH]; [reflexivity|].
  rewrite append_cons. cbn [contains]. now rewrite IH, orb_assoc.
Qed.

Lemma all_url_chars_contains (c : ascii) (s : string) :
  url_char c = false -> all_url_chars s = true -> contains c s = false.
Proof.
  intros Hc. unfold all_url_chars.
  induction s as [|x s IH]; [reflexivity|].
  cbn [list_ascii_of_string forallb contains]. intros H.
  apply andb_true_iff in H as [Hx H]. rewrite (IH H), orb_false_r.
  apply Ascii.eqb_neq. intros ->. congruence.
Qed.

Lemma sql_length_nonneg (s : string) : 0 <= sql_length s.
Proof.
  induction s as [|c s IH]; simpl; [lia|].
  destruct (Z.land (ord c) 192 =? 128); lia.
Qed.

Lemma sql_length_app (a b : string) :
  sql_length (a +:+ b) = sql_length a + sql_length b.
Proof.
  induction a as [|c a IH]; simpl; [reflexivity|]. rewrite IH. lia.
Qed.


Lemma all_url_chars_app (a b : string) :
  all_url_chars (a +:+ b) = all_url_chars a && all_url_chars b.
Proof.
  unfold all_url_chars. now rewrite list_ascii_append, forallb_app.
Qed.

(** ** What the store takes *)

Lemma varchar_plain (n : Z) (s : string) :
  has_nul s = false -> sql_length s <= n -> varchar n s = Some s.
Proof.
  intros Hnul Hlen. unfold varchar. rewrite Hnul.
  apply Z.leb_le in Hlen. now rewrite Hlen.
Qed.

Lemma split_chars_spec (s : string) :
  forall n,
    s = fst (split_chars n s) +:+ snd (split_chars n s)
    /\ sql_length (fst (split_chars n s)) <= Z.of_nat n.
Proof.
  induction s as [|c s IH]; intros n; cbn [split_chars].
  - split; [reflexivity|]. simpl. lia.
  - destruct (Z.land (ord c) 192 =? 128) eqn:Ec.
    + destruct (IH n) as [E L].
      destruct (split_chars n s) as [a b]. cbn [fst snd] in *.
      rewrite append_cons, <- E. split; [reflexivity|].
      cbn [sql_length]. rewrite Ec. lia.
    + destruct n as [|k]; cbn [fst snd].
      * split; [reflexivity|]. simpl. lia.
      * destruct (IH k) as [E L].
        destruct (split_chars k s) as [a b]. cbn [fst snd] in *.
        rewrite append_cons, <- E. split; [reflexivity|].
        cbn [sql_length]. rewrite Ec. lia.
Qed.

(** A value without a space is taken whole or refused: nothing of it
    is cut off. *)
Lemma varchar_unspaced (n : Z) (s : string) :
  0 <= n ->
  has_nul s = false ->
  contains " "%char s = false ->
  varchar n s = if sql_length s <=? n then Some s else None.
Proof.
  intros Hn Hnul Hsp. unfold varchar. rewrite Hnul.
  destruct (sql_length s <=? n) eqn:Hlen; [reflexivity|].
  apply Z.leb_gt in Hlen.
  destruct (split_chars_spec s (Z.to_nat n)) as [E L].
  destruct (split_chars (Z.to_nat n) s) as [taken excess].
  cbn [fst snd] in E, L.
  destruct excess as [|c excess].
  - rewrite append_nil_r in E. subst taken. lia.
  - rewrite E, contains_append in Hsp.
    apply orb_false_iff in Hsp as [_ Hsp]. cbn [contains] in Hsp.
    apply orb_false_iff in Hsp as [Hc _].
    cbn [list_ascii_of_string forallb].
    rewrite Ascii.eqb_sym, Hc. reflexivity.
Qed.

(** The first link that the extraction returns is the first URL of the
    text whose parsing does not raise. *)
Lemma extract_links_head (text : string) :
  nonempty text = true ->
  match first_parsed (findall_urls text) with
  | Some (u, d) =>
      exists others,
        _extract_links text
        = {| ld_url := u; ld_domain := d; ld_title := None;
             ld_description := None |} :: others
  | None => _extract_links text = []
  end.
Proof.
  intros Ht. unfold _extract_links. rewrite Ht. cbn [negb].
  induction (findall_urls text) as [|u us IH]; [reflexivity|].
  cbn [first_parsed flat_map].
  destruct (urlparse_netloc u) as [d|]; [cbn [app]; eauto|].
  exact IH.
Qed.

Lemma first_parsed_in (urls : list string) (u d : string) :
  first_parsed urls = Some (u, d) ->
  In u urls /\ urlparse_netloc u = Some d.
Proof.
  induction urls as [|x urls IH]; [discriminate|]. cbn [first_parsed].
  destruct (urlparse_netloc x) as [dx|] eqn:E.
  - intros [= <- <-]. split; [now left|exact E].
  - intros H. destruct (IH H) as [Hin Hp]. split; [now right|exact Hp].
Qed.

(** A URL of the pattern and its location hold neither U+0000 nor a
    space, and the URL has more than three characters. *)
Lemma first_parsed_stored (text u d : string) :
  first_parsed (findall_urls text) = Some (u, d) ->
  (has_nul u = false /\ contains " "%char u = false)
  /\ (has_nul d = false /\ contains " "%char d = false)
  /\ length_checked u = true.
Proof.
  intros H. apply first_parsed_in in H as [Hin Hparse].
  destruct (findall_from_in text O u Hin)
    as (pre & post & sch & body & _ & Hsch & -> & _ & Hbody).
  apply (urlparse_netloc_some sch body d Hsch) in Hparse. subst d.
  destruct (netloc_of_app body) as (tail & Hb & _).
  assert (Hloc : all_url_chars (netloc_of body) = true).
  { rewrite Hb in Hbody. rewrite all_url_chars_app in Hbody.
    now apply andb_true_iff in Hbody as [Hl _]. }
  unfold has_nul, length_checked.
  rewrite !contains_append, sql_length_app.
  rewrite (all_url_chars_contains "000" body eq_refl Hbody).
  rewrite (all_url_chars_contains "000" (netloc_of body) eq_refl Hloc).
  rewrite (all_url_chars_contains " " body eq_refl Hbody).
  rewrite (all_url_chars_contains " " (netloc_of body) eq_refl Hloc).
  pose proof (sql_length_nonneg body).
  assert (H7 : sql_length "http://" = 7) by reflexivity.
  assert (H8 : sql_length "https://" = 8) by reflexivity.
  destruct Hsch as [-> | ->]; (split; [split; reflexivity|]);
    (split; [split; reflexivity|]); apply Z.ltb_lt; lia.
Qed.

(** * Properties *)

(** ** C1: a message whose whole content is a duplicate *)




(** ** C2: the link of a text *)

(** C2, as the code has it.  For a text message whose text file is
    written, with the store connected and the channel resolved.  When
    the fingerprint of the text is already on record, no statement is
    run on the link store (its rows and its sequence are as before),
    no text row is stored and the call reports no link.  When the
    fingerprint is new and the text holds no U+0000, the text row is
    stored and the link that is upserted is the first that the
    extraction returns: the first URL [u] of the text whose parsing
    does not raise, with its location [d]; the URLs before [u], whose
    parsing raises, are passed over.  If [u] has at most 500 characters
    and [d] at most 100, the rows of the link store are as before when
    one holds [u], and are followed by a row for [(u, d)] otherwise;
    if not, the store refuses the link and the call fails, returning
    [(False, [])], with the text row stored and the link store as
    before.  When no URL of the text parses, the text row is stored,
    the link store is as before and the call reports no link.  A text
    with U+0000 is refused by the store: the call fails, returning
    [(False, [])], with no row stored. *)
Theorem link_upsert_only_for_new_text
  (st : State) (msg : TgMessage) (name : string) (cid_arg : option Z)
  (db : Database) (cid : Z) :
  nonempty (tg_message msg) = true ->
  disk_writable st (text_file_path st) = true ->
  db_pool st = Some db ->
  resolve_channel_id st name cid_arg = Some cid ->
  cid <> 0 ->
  let r := _save_telethon_message st msg name cid_arg in
  let text_row :=
    {| text_id := text_seq db; message_text := tg_message msg |} in
  (_is_duplicate st (text_hash msg) = true ->
   text_links_of (fst r) = Some (text_tbl db, links_tbl db, links_seq db)
   /\ ~ In "link" (snd (snd r)))
  /\ (_is_duplicate st (text_hash msg) = false ->
      has_nul (tg_message msg) = false ->
      match first_parsed (findall_urls (tg_message msg)) with
      | Some (u, d) =>
          if (sql_length u <=? 500) && (sql_length d <=? 100)
          then
            text_links_of (fst r)
            = Some (text_tbl db ++ [text_row],
                    match List.find (fun row => String.eqb (url row) u)
                                    (links_tbl db) with
                    | Some _ => links_tbl db
                    | None =>
                        links_tbl db
                          ++ [ {| link_id := links_seq db; url := u;
                                  domain := d; title := None;
                                  description := None |} ]
                    end,
                    links_seq db + 1)
          else
            snd r = (false, [])
            /\ text_links_of (fst r)
               = Some (text_tbl db ++ [text_row], links_tbl db, links_seq db)
      | None =>
          text_links_of (fst r)
          = Some (text_tbl db ++ [text_row], links_tbl db, links_seq db)
          /\ ~ In "link" (snd (snd r))
      end)
  /\ (_is_duplicate st (text_hash msg) = false ->
      has_nul (tg_message msg) = true ->
      snd r = (false, [])
      /\ text_links_of (fst r)
         = Some (text_tbl db, links_tbl db, links_seq db)).
Proof.
  intros Ht Hw Hdb Hres Hcid r text_row. subst r text_row.
  assert (Hc0 : (cid =? 0) = false) by (apply Z.eqb_neq; exact Hcid).
  assert (Hstart : forall (Hnew : _is_duplicate st (text_hash msg) = false),
             save_text st msg (resolve_channel_id st name cid_arg)
                       initial_locals
             = match insert_text db (tg_message msg) with
               | (db1, Some text_id) =>
                   let l :=
                     set_text_id text_id
                       (set_file_hash (text_hash msg)
                          (mark_processed initial_locals)) in
                   match
                     match _extract_links (tg_message msg) with
                     | link_data :: _ =>
                         match upsert_link db1 link_data with
                         | (db2, Some link_id) =>
                             (set_db db2 (text_written st msg),
                              Some (set_link_id link_id l))
                         | (db2, None) =>
                             (set_db db2 (text_written st msg), None)
                         end
                     | [] => (set_db db1 (text_written st msg), Some l)
                     end
                   with
                   | (st1, Some l1) =>
                       (record_fingerprint st1 (text_hash msg)
                          (text_file_path st),
                        Some (mark_saved l1))
                   | (st1, None) => (st1, None)
                   end
               | (db1, None) => (set_db db1 (text_written st msg), None)
               end).
  { intros Hnew. unfold save_text. rewrite Ht. simpl.
    unfold _generate_filename, _save_file_locally, datetime_now. simpl.
    fold (text_file_path st). rewrite Hw.
    fold (text_written st msg). fold (text_hash msg).
    change (_is_duplicate (text_written st msg) (text_hash msg))
      with (_is_duplicate st (text_hash msg)).
    rewrite Hnew. unfold db_ready.
    change (db_pool (text_written st msg)) with (db_pool st).
    rewrite Hdb, Hres, Hc0.
    destruct (insert_text db (tg_message msg)) as [db1 [text_id|]];
      reflexivity. }
  split; [|split].
  - intros Hdup.
    pose proof (save_text_duplicate st msg (resolve_channel_id st name cid_arg)
                  initial_locals (conj Ht (conj Hw Hdup))) as Htext.
    destruct (save_after_text _ _ _ _ _ _ Htext) as (Hkeep & Hlink).
    rewrite Hkeep. split.
    + unfold text_links_of. simpl. now rewrite Hdb.
    + intros Hin. apply Hlink in Hin. discriminate.
  - intros Hnew Hnul. specialize (Hstart Hnew).
    unfold insert_text in Hstart. rewrite Hnul in Hstart.
    pose proof (extract_links_head (tg_message msg) Ht) as Hhead.
    destruct (first_parsed (findall_urls (tg_message msg))) as [[u d]|] eqn:Hfp.
    + destruct Hhead as (others & Hlinks).
      destruct (first_parsed_stored _ _ _ Hfp)
        as ((Nu & Su) & (Nd & Sd) & Cu).
      rewrite Hlinks in Hstart. unfold upsert_link in Hstart.
      cbn [ld_url ld_domain ld_title ld_description] in Hstart.
      rewrite (varchar_unspaced 500 u ltac:(lia) Nu Su),
        (varchar_unspaced 100 d ltac:(lia) Nd Sd) in Hstart.
      destruct (sql_length u <=? 500);
        [destruct (sql_length d <=? 100)|]; cbn [andb].
      * rewrite Cu in Hstart.
        destruct (List.find _ (links_tbl _)) as [row|] eqn:Hfind in Hstart;
          cbn [links_tbl with_text] in Hfind; rewrite Hfind;
          cbv zeta in Hstart;
          destruct (save_after_text _ _ _ _ _ _ Hstart) as (Hkeep & _);
          rewrite Hkeep; reflexivity.
      * cbv zeta in Hstart. unfold _save_telethon_message.
        rewrite Hstart. cbn [fst snd]. split; reflexivity.
      * cbv zeta in Hstart. unfold _save_telethon_message.
        rewrite Hstart. cbn [fst snd]. split; reflexivity.
    + rewrite Hhead in Hstart. cbv zeta in Hstart.
      destruct (save_after_text _ _ _ _ _ _ Hstart) as (Hkeep & Hlink).
      rewrite Hkeep. split; [reflexivity|].
      intros Hin. apply Hlink in Hin. discriminate.
  - intros Hnew Hnul. specialize (Hstart Hnew).
    unfold insert_text in Hstart. rewrite Hnul in Hstart.
    unfold _save_telethon_message. rewrite Hstart. cbn [fst snd].
    split; reflexivity.
Qed.

Lemma link_upsert_only_for_new_text_witness :
  text_links_of (fst registered_101)
  = Some ([ {| text_id := 1; message_text := "hello https://a.com/x" |} ],
          [ {| link_id := 1; url := "https://a.com/x"; domain := "a.com";
               title := None; description := None |} ],
          2).
Proof.
  assert (Hw : disk_writable registered (text_file_path registered) = true)
    by reflexivity.
  assert (Hdb : db_pool registered = Some registered_db)
    by (vm_compute; reflexivity).
  assert (Hcid : 1 <> 0) by lia.
  assert (Hnew : _is_duplicate registered (text_hash m101) = false)
    by (vm_compute; reflexivity).
  assert (Hfirst : first_parsed (findall_urls (tg_message m101))
                   = Some ("https://a.com/x", "a.com"))
    by (vm_compute; reflexivity).
  destruct (link_upsert_only_for_new_text registered m101 "@chan" (Some 1)
              registered_db 1 eq_refl Hw Hdb eq_refl Hcid)
    as (_ & Hupsert & _).
  specialize (Hupsert Hnew eq_refl). rewrite Hfirst in Hupsert.
  exact Hupsert.
Defined.

(** The bot has received the text ["see https://b.org/page"] in a direct
    message, which put its fingerprint on record; a channel then posts
    the same text.  The text holds a URL, yet the link store stays
    empty, and the unified record of the message has no link. *)
Lemma duplicate_text_link_not_stored :
  findall_urls (tg_message m105) = ["https://b.org/page"]
  /\ urlparse_netloc "https://b.org/page" = Some "b.org"
  /\ _is_duplicate after_direct_text (text_hash m105) = true
  /\ snd (_save_telethon_message after_direct_text m105 "@chan" (Some 1))
     = (true, [])
  /\ (links_tbl <$>
        db_pool (fst (_save_telethon_message after_direct_text m105
                        "@chan" (Some 1)))) = Some []
  /\ map (fun r => (telegram_message_id r, mc_text_id r, mc_link_id r))
         (unified (fst (_save_telethon_message after_direct_text m105
                          "@chan" (Some 1))))
     = [(Some 105, None, None)].
Proof. vm_compute. repeat split; reflexivity. Qed.

(** ** C3: one unified record per (channel, platform message id) *)



(** ** C4: the cursor after a cycle *)

(** C4.  After a channel's turn in the monitor, whatever the order in
    which the messages of the batch were delivered, the cursor is the
    greatest of the cursor before the turn and the ids of the messages
    processed with success; it has not decreased, and it is the same for
    every other order of the same outcomes.  (The cursor starts from 0
    or from a message id and is never negative.) *)
Theorem cursor_is_max_processed
  (st : State) (transport : Transport) (channel : string) :
  0 <= cursor st channel ->
  match monitor_channel st transport channel with
  | (st', Some c) =>
      cursor st' channel = max_processed (cursor st channel) (handled c)
      /\ cursor st channel <= cursor st' channel
      /\ (exists entity,
             transport channel = Some entity /\
             map fst (handled c)
             = iter_messages_since entity (cursor st channel))
      /\ (forall h, Permutation h (handled c) ->
                    max_processed (cursor st channel) h = cursor st' channel)
  | (st', None) => st' = st
  end.
Proof.
  intros Hpre. pose proof (monitor_channel_cursor st transport channel) as H.
  destruct (monitor_channel st transport channel) as [st' [c|]]; [|exact H].
  destruct H as (meta & entity & meta' & Hget & _ & Htr & Hmap & Hget' & _
                 & Hlast & _).
  unfold cursor in *. rewrite Hget in *. rewrite Hget', Hlast.
  rewrite fold_advance_max by assumption.
  split; [reflexivity|]. split.
  - rewrite <- fold_advance_max by assumption. apply fold_advance_ge.
  - split; [eauto|]. intros h Hperm. now apply max_processed_perm.
Qed.

Lemma cursor_is_max_processed_witness :
  0 <= cursor after_101 "@chan" /\
  match monitor_channel after_101 (channel_c [m102; m103; m101; m100]) "@chan" with
  | (st', Some c) =>
      cursor st' "@chan" = max_processed (cursor after_101 "@chan") (handled c)
      /\ cursor after_101 "@chan" <= cursor st' "@chan"
      /\ (exists entity,
             channel_c [m102; m103; m101; m100] "@chan" = Some entity /\
             map fst (handled c)
             = iter_messages_since entity (cursor after_101 "@chan"))
      /\ (forall h, Permutation h (handled c) ->
                    max_processed (cursor after_101 "@chan") h = cursor st' "@chan")
  | (st', None) => st' = after_101
  end.
Proof.
  assert (H : 0 <= cursor after_101 "@chan") by (vm_compute; discriminate).
  split; [exact H|].
  exact (cursor_is_max_processed after_101
           (channel_c [m102; m103; m101; m100]) "@chan" H).
Defined.

Example cursor_out_of_order :
  cursor (fst (monitor_channel after_101
                 (channel_c [m102; m103; m101; m100]) "@chan")) "@chan" = 103.
Proof. vm_compute. reflexivity. Qed.

(** ** C5: content whose fingerprint is on record *)

(** C5, as the code has it.  Content whose fingerprint is on record
    gets no content row and the record of fingerprints stays as it was;
    for a medium of a channel message the whole state stays as it was,
    and a file of the Bot API is not written to the disk either.  A
    channel message whose whole content is such a duplicate is reported
    as processed: the monitor counts it as a new post like any other
    and adds nothing to the counter of content types.
    [_process_single_file] returns [False] for a duplicate, after a
    line in the log, as it does when the download fails.  No count of
    duplicates is kept. *)
Theorem duplicate_content_not_stored :
  (forall st msg cid l,
      text_is_duplicate st msg ->
      let r := save_text st msg cid l in
      db_pool (fst r) = db_pool st
      /\ processed_content (fst r) = processed_content st
      /\ (v_text_id <$> snd r) = Some (v_text_id l)
      /\ (v_link_id <$> snd r) = Some (v_link_id l))
  /\ (forall st msg cid l data,
         media_is_duplicate st msg data ->
         save_media st msg cid l
         = (st, set_file_hash (_calculate_file_hash data) (mark_processed l)))
  /\ (forall st msg name cid_arg h st1,
         whole_duplicate st msg h st1 ->
         let r := _save_telethon_message st msg name cid_arg in
         snd r = (true, [])
         /\ same_content_rows st (fst r)
         /\ processed_content (fst r) = processed_content st
         /\ (nonempty (tg_message msg) = false -> disk (fst r) = disk st))
  /\ (forall st msg channel cidv c,
         snd (_save_telethon_message st msg channel (Some cidv)) = (true, []) ->
         let r := monitor_message channel cidv (st, c) msg in
         new_count (snd r) = new_count c + 1
         /\ content_counter (snd r) = content_counter c
         /\ handled (snd r) = handled c ++ [(msg, true)])
  /\ (forall st file_id content_type original_name data,
         _download_file st file_id = Some data ->
         data <> [] ->
         _is_duplicate st (_calculate_file_hash data) = true ->
         _process_single_file st file_id content_type original_name
         = (add_log LogDuplicateFile st, false))
  /\ (forall st file_id content_type original_name,
         _download_file st file_id = None ->
         _process_single_file st file_id content_type original_name
         = (st, false)).
Proof.
  split; [|split; [|split; [|split; [|split]]]].
  - intros st msg cid l Hdup r. subst r.
    rewrite (save_text_duplicate _ _ _ _ Hdup). repeat split.
  - intros st msg cid l data Hdup. now apply save_media_duplicate.
  - intros st msg name cid_arg h st1 Hdup r. subst r.
    rewrite (save_whole_duplicate _ _ _ _ _ _ Hdup). cbn zeta. cbn [fst snd].
    set (c := resolve_channel_id st name cid_arg).
    set (l := set_file_hash _ _).
    destruct (whole_duplicate_state _ _ _ _ Hdup) as (Hdb1 & _ & Hpc1 & Hsame).
    pose proof (reconcile_kept st1 msg c l) as (_ & _ & _ & Hpc & Hdisk).
    pose proof (reconcile_same_content st1 msg c l) as Hrows.
    split; [reflexivity|]. split; [|split].
    + unfold same_content_rows in *. now rewrite Hdb1 in Hrows.
    + congruence.
    + intros Ht. rewrite Hdisk. now rewrite (Hsame Ht).
  - intros st msg channel cidv c Hres. unfold monitor_message.
    destruct (_save_telethon_message st msg channel (Some cidv))
      as [st1 [ok types]]. simpl in Hres. injection Hres as -> ->.
    destruct (_ && _); simpl; repeat split; reflexivity.
  - intros st file_id content_type original_name data Hdl Hdata Hdup.
    unfold _process_single_file. rewrite Hdl.
    destruct data as [|b data]; [contradiction|]. now rewrite Hdup.
  - intros st file_id content_type original_name Hdl.
    unfold _process_single_file. now rewrite Hdl.
Qed.

Lemma duplicate_content_not_stored_witness :
  snd (_save_telethon_message after_f1 (photo_message 106) "@chan" None)
  = (true, [])
  /\ disk (fst (_save_telethon_message after_f1 (photo_message 106) "@chan" None))
     = disk after_f1
  /\ _process_single_file after_f1 "F1" "image" None
     = (add_log LogDuplicateFile after_f1, false).
Proof.
  destruct duplicate_content_not_stored as (_ & _ & Hwhole & _ & Hfile & _).
  assert (Hdata : [x01; x02] <> @nil byte) by discriminate.
  assert (Hdup : _is_duplicate after_f1 (_calculate_file_hash [x01; x02]) = true)
    by (vm_compute; reflexivity).
  assert (Hmedia : whole_duplicate after_f1 (photo_message 106)
                     (_calculate_file_hash [x01; x02]) after_f1).
  { apply duplicate_media; [reflexivity|].
    exact (conj eq_refl (conj Hdata (conj eq_refl Hdup))). }
  destruct (Hwhole after_f1 (photo_message 106) "@chan" None _ _ Hmedia)
    as (Hres & _ & _ & Hdisk).
  split; [exact Hres|]. split; [apply Hdisk; reflexivity|].
  exact (Hfile after_f1 "F1" "image" None [x01; x02] eq_refl Hdata Hdup).
Defined.

(** Message 102 repeats the text of message 101.  The monitor counts it
    as a new post, the only count it keeps besides the counter of
    content types; its text is written to a second file all the same.
    File [F1], received a second time through the Bot API, makes
    [_process_single_file] return [False], which is also what a file
    that cannot be downloaded gives. *)
Lemma duplicate_counted_as_processed :
  _is_duplicate after_101 (text_hash m102) = true
  /\ ((fun c => (new_count c, handled c, map_to_list (content_counter c)))
        <$> snd (monitor_channel after_101 (channel_c [m102; m101; m100]) "@chan"))
     = Some (1, [(m102, true)], [])
  /\ disk after_102 !! "./downloads/text/text_2"
     = Some (encode_utf8 "hello https://a.com/x")
  /\ disk after_101 !! "./downloads/text/text_2" = None
  /\ snd (_process_single_file after_f1 "F1" "image" None) = false
  /\ snd (_process_single_file after_f1 "F9" "image" None) = false.
Proof. vm_compute. repeat split; reflexivity. Qed.

(** ** C6: classification precedence *)

(** C6.  The kind chosen for a media item is the first kind of the
    order photo > video > audio > sticker > animation > document whose
    predicate holds for the item: its predicate holds, and no kind of
    higher precedence has a predicate that holds; document is chosen
    exactly when no other predicate holds. *)
Theorem classify_fixed_precedence (msg : TgMessage) :
  classify msg = default Document (List.find (kind_predicate msg) spec_precedence)
  /\ kind_predicate msg (classify msg) = true
  /\ (forall k, kind_predicate msg k = true -> (rank (classify msg) <= rank k)%nat)
  /\ (classify msg = Document <->
      forall k, k <> Document -> kind_predicate msg k = false).
Proof.
  unfold classify, spec_precedence.
  destruct msg as [i d t m p v a s g an]; simpl.
  destruct p, v, a, s, g, an; simpl;
    (split; [reflexivity|]); (split; [reflexivity|]);
    (split; [intros k; destruct k; simpl; intros; (discriminate || lia)|]);
    (split; [try discriminate; intros _ k; destruct k; simpl; congruence
            |intros H; try reflexivity]).
  all: try (specialize (H Image ltac:(discriminate)); discriminate).
  all: try (specialize (H Video ltac:(discriminate)); discriminate).
  all: try (specialize (H Audio ltac:(discriminate)); discriminate).
  all: try (specialize (H Sticker ltac:(discriminate)); discriminate).
  all: try (specialize (H Animation ltac:(discriminate)); discriminate).
Qed.

Lemma contains_join (c : ascii) (a b : string) :
  contains c (path_join a b) = false -> contains c b = false.
Proof.
  unfold path_join. destruct (startswith "/" b); [tauto|].
  destruct (negb (nonempty a) || _); rewrite !contains_append;
    intros H; repeat (apply orb_false_iff in H as [? H]); assumption.
Qed.

Lemma sql_length_join (a b : string) : sql_length b <= sql_length (path_join a b).
Proof.
  unfold path_join. pose proof (sql_length_nonneg a).
  destruct (startswith "/" b); [lia|].
  destruct (negb (nonempty a) || _); rewrite !sql_length_app; simpl; lia.
Qed.

(** The kind that the classification gives selects the directory of the
    file and the table of the row: a medium that is new, downloaded,
    written and accepted by the store adds one row to the table of its
    kind and to no other, and the id of that kind is the one set. *)
Lemma media_row_in_classified_table st msg cid l db c b data :
  tg_media msg = Some (DownloadBytes (b :: data)) ->
  tg_client st = true ->
  _is_duplicate st (_calculate_file_hash (b :: data)) = false ->
  db_ready st cid = Some (db, c) ->
  disk_writable st (media_file_path st (classify msg)) = true ->
  has_nul (media_file_path st (classify msg)) = false ->
  3 < sql_length (media_file_path st (classify msg)) <= 250 ->
  let kind := classify msg in
  let r := save_media st msg cid l in
  (exists db',
      db_pool (fst r) = Some db' /\
      media_tbl db' kind
      = media_tbl db kind
        ++ [ {| media_id := media_seq db kind;
                media_link := media_file_path st kind;
                original_name :=
                  match kind with
                  | Document => Some (media_file_name st kind)
                  | _ => None
                  end |} ] /\
      forall k, k <> kind -> media_tbl db' k = media_tbl db k)
  /\ disk (fst r) !! media_file_path st kind = Some (b :: data)
  /\ snd r
     = mark_saved (set_media_id kind (media_seq db kind)
                     (set_file_hash (_calculate_file_hash (b :: data))
                                    (mark_processed l))).
Proof.
  intros Hm Hclient Hnew Hready Hw Hnul Hfit kind r. subst r.
  unfold save_media. rewrite Hm, Hclient. simpl. rewrite Hnew.
  unfold _generate_filename, _save_file_locally, datetime_now. simpl.
  fold (media_file_name st (classify msg)).
  fold (media_file_path st (classify msg)). rewrite Hw.
  assert (Hready' :
            db_ready (set_disk <[media_file_path st (classify msg) := b :: data]>
                               (set_clock (clock st + 1) st)) cid
            = Some (db, c)) by exact Hready.
  rewrite Hready'. unfold insert_media.
  rewrite (varchar_plain 250 _ Hnul (proj2 Hfit)).
  assert (Hname : match classify msg with
                  | Document =>
                      Some <$> varchar 250 (media_file_name st (classify msg))
                  | _ => Some None
                  end
                  = Some match classify msg with
                         | Document =>
                             Some (media_file_name st (classify msg))
                         | _ => None
                         end).
  { destruct (classify msg) eqn:Ek; try reflexivity.
    rewrite varchar_plain; [reflexivity| |].
    - apply (contains_join "000"
               (path_join (download_path st) (kind_name Document))).
      exact Hnul.
    - pose proof (sql_length_join
                    (path_join (download_path st) (kind_name Document))
                    (media_file_name st Document)) as Hj.
      unfold media_file_path in Hfit. lia. }
  assert (Hname' : match match classify msg with
                         | Document =>
                             Some (media_file_name st (classify msg))
                         | _ => None
                         end with
                   | Some n => Some <$> varchar 250 n
                   | None => Some None
                   end
                   = Some match classify msg with
                          | Document =>
                              Some (media_file_name st (classify msg))
                          | _ => None
                          end).
  { destruct (classify msg); exact Hname || reflexivity. }
  rewrite Hname'. unfold length_checked.
  destruct Hfit as [Hlow _]. apply Z.ltb_lt in Hlow. rewrite Hlow.
  simpl. fold kind. split; [|split].
  - eexists. split; [reflexivity|]. simpl. unfold upd_fun. split.
    + rewrite decide_True by reflexivity. reflexivity.
    + intros k Hk. now rewrite decide_False by exact Hk.
  - apply lookup_insert_eq.
  - reflexivity.
Qed.

(** ** C7: a message with neither text nor media *)

(** C7.  A message with neither text nor media but with a platform
    message id is reported as processed with no content type saved, so
    that the monitor counts it as a new post and adds nothing to the
    counter of content types; it stores no content row, no file and no
    fingerprint; and, when the store is connected, the channel is known
    to it and the key has no record yet, exactly one unified record is
    appended for the key, in which every kind reference, the link
    reference and the fingerprint are null. *)
Theorem empty_message_placeholder
  (st : State) (msg : TgMessage) (name : string) (cid_arg : option Z) :
  tg_message msg = EmptyString -> tg_media msg = None -> tg_id msg <> 0 ->
  let r := _save_telethon_message st msg name cid_arg in
  snd r = (true, [])
  /\ processed_content (fst r) = processed_content st
  /\ disk (fst r) = disk st
  /\ (forall db cid,
         db_pool st = Some db ->
         resolve_channel_id st name cid_arg = Some cid ->
         cid <> 0 ->
         channel_known db cid = true ->
         records_for cid (tg_id msg) (mc_tbl db) = [] ->
         unified (fst r)
         = mc_tbl db
           ++ [ {| message_id := mc_seq db; mc_channel_id := cid;
                   creation_time := created_at (clock st) msg;
                   mc_text_id := None; mc_photo_id := None;
                   mc_video_id := None; mc_audio_id := None;
                   mc_document_id := None; mc_sticker_id := None;
                   mc_animation_id := None; mc_link_id := None;
                   telegram_message_id := Some (tg_id msg);
                   file_hash := None |} ]
         /\ same_content_rows st (fst r))
  /\ (forall channel cidv c,
         let r' := monitor_message channel cidv (st, c) msg in
         new_count (snd r') = new_count c + 1
         /\ content_counter (snd r') = content_counter c
         /\ handled (snd r') = handled c ++ [(msg, true)]).
Proof.
  intros Ht Hm Hid r. subst r. rewrite (save_empty _ _ _ _ Ht Hm Hid).
  cbn zeta. cbn [fst snd].
  set (st0 := add_log (LogEmptyMessage (tg_id msg)) st).
  pose proof (reconcile_kept st0 msg (resolve_channel_id st name cid_arg)
                (mark_processed initial_locals)) as (_ & _ & _ & Hpc & Hdisk).
  split; [reflexivity|]. split; [exact Hpc|]. split; [exact Hdisk|]. split.
  - intros db cid Hdb Hres Hcid Hknown Hnone. rewrite Hres.
    destruct (reconcile_inserts st0 msg cid (mark_processed initial_locals) db
                Hdb Hcid Hid Hnone Hknown eq_refl I)
      as (Hu & _ & Hrows & _).
    split; [exact Hu | exact Hrows].
  - intros channel cidv c. unfold monitor_message.
    rewrite (save_empty _ _ _ _ Ht Hm Hid). cbn zeta. cbn [fst snd].
    destruct (_ && _); simpl; repeat split; reflexivity.
Qed.

Lemma empty_message_placeholder_witness :
  snd (_save_telethon_message registered m_empty "@chan" (Some 1)) = (true, [])
  /\ unified (fst (_save_telethon_message registered m_empty "@chan" (Some 1)))
     = [ {| message_id := 1; mc_channel_id := 1; creation_time := 1104;
            mc_text_id := None; mc_photo_id := None; mc_video_id := None;
            mc_audio_id := None; mc_document_id := None;
            mc_sticker_id := None; mc_animation_id := None;
            mc_link_id := None; telegram_message_id := Some 104;
            file_hash := None |} ].
Proof.
  assert (Hid : tg_id m_empty <> 0) by (vm_compute; discriminate).
  destruct (empty_message_placeholder registered m_empty "@chan" (Some 1)
              eq_refl eq_refl Hid) as (Hres & _ & _ & Hrec & _).
  split; [exact Hres|].
  assert (Hcid : 1 <> 0) by lia.
  destruct (Hrec registered_db 1 eq_refl eq_refl Hcid eq_refl eq_refl)
    as (Hu & _).
  exact Hu.
Defined.

(** ** C8: no retroactive ingestion *)

(** C8.  A registration that succeeds sets the cursor of the channel to
    the id of its latest message at that time (0 for a channel without
    messages).  In every later turn of the monitor, the messages handed
    to the saving of messages for this channel have an id above that
    one; no message that the channel held at the registration, all of
    which have an id at most the latest, is among them. *)
Theorem no_retroactive_ingestion
  (st : State) (transport : Transport) (channel : string) (added_by : Z)
  (entity : Entity) :
  transport channel = Some entity ->
  snd (_add_channel st transport channel added_by) = true ->
  let st1 := fst (_add_channel st transport channel added_by) in
  cursor st1 channel = latest_id entity
  /\ (forall old, In old (ent_messages entity) -> tg_id old <= latest_id entity)
  /\ (forall turns c m ok,
         In (channel, c) (snd (monitor_turns st1 turns)) ->
         In (m, ok) (handled c) ->
         latest_id entity < tg_id m
         /\ forall old, In old (ent_messages entity) -> tg_id old < tg_id m).
Proof.
  intros Htr Hok st1.
  destruct (add_channel_entry st transport channel added_by entity Htr Hok)
    as (cid & Hget).
  fold st1 in Hget.
  split; [unfold cursor; now rewrite Hget|].
  split; [intros old; apply latest_id_greatest|].
  intros turns c m ok Hc Hm.
  assert (Habove : latest_id entity < tg_id m).
  { eapply (monitor_turns_above channel (latest_id entity) turns st1);
      [exact Hget | simpl; lia | exact Hc | exact Hm]. }
  split; [assumption|].
  intros old Hold. pose proof (latest_id_greatest entity old Hold). lia.
Qed.

Lemma no_retroactive_ingestion_witness :
  let st1 := fst (_add_channel fresh_bot (channel_c [m100]) "@chan" 5) in
  cursor st1 "@chan" = latest_id {| ent_title := Some "Channel C";
                                    ent_messages := [m100] |}
  /\ (forall old, In old [m100] -> tg_id old <= 100)
  /\ (forall turns c m ok,
         In ("@chan", c) (snd (monitor_turns st1 turns)) ->
         In (m, ok) (handled c) ->
         100 < tg_id m /\ forall old, In old [m100] -> tg_id old < tg_id m).
Proof.
  exact (no_retroactive_ingestion fresh_bot (channel_c [m100]) "@chan" 5
           {| ent_title := Some "Channel C"; ent_messages := [m100] |}
           eq_refl eq_refl).
Defined.

Example only_101_is_ingested :
  map (fun p => tg_id (fst p))
      (match snd (monitor_channel registered (channel_c [m101; m100]) "@chan") with
       | Some c => handled c
       | None => []
       end) = [101].
Proof. vm_compute. reflexivity. Qed.

(** A pass of the monitor is the sequence of the turns of the channels
    of the snapshot, all with the same transport. *)
Lemma monitor_pass_turns st transport :
  tg_client st = true ->
  monitored_channels st <> [] ->
  monitor_pass st transport
  = fst (monitor_turns st (map (fun ch => (ch, transport))
                               (map fst (monitored_channels st)))).
Proof.
  intros Hclient Hne. unfold monitor_pass.
  rewrite Hclient, bool_decide_eq_true_2 by assumption. simpl.
  generalize (map fst (monitored_channels st)) as chs. clear.
  intros chs. revert st.
  induction chs as [|ch chs IH]; intros st; simpl; [reflexivity|].
  rewrite IH.
  destruct (monitor_channel st transport ch) as [st1 c]. simpl.
  destruct (monitor_turns st1 _) as [st2 cs]. reflexivity.
Qed.

(** ** C9: the fragments of a media group *)

(** C9, as the code has it.  The fragments of a media group that all
    arrive before the delay counted from the first one has passed are
    appended to one list, and every fragment starts a sleeping task of
    its own, waking up one delay after that fragment: there are as many
    tasks as fragments.  Nothing is flushed before the delay from the
    first fragment has passed.  Once it has, the task of the first
    fragment starts the flush of the whole list, in the order of
    arrival.  When the files of all the fragments are downloaded before
    the task of the second fragment wakes up, that flush ends by
    unbinding the group, and the tasks of the other fragments do
    nothing when they wake up: the group is flushed once. *)
Theorem media_group_coalescing
  (st : State) (gid : string) (t1 : Z) (m1 : Message)
  (rest : list (Z * Message)) :
  nonempty gid = true ->
  timers st = [] ->
  suspended st = [] ->
  media_groups st !! gid = None ->
  StronglySorted Z.le (t1 :: map fst rest) ->
  Forall (fun a => fst a < t1 + quiescence_delay) rest ->
  Forall (fun a => media_group_id (snd a) = gid /\ downloads (snd a) = true)
         ((t1, m1) :: rest) ->
  let arrivals := (t1, m1) :: rest in
  let items := map snd arrivals in
  let messages := length (buffers st) in
  let buffered := deliver arrivals st in
  timers buffered = map (fun a => (fst a + quiescence_delay, gid)) arrivals
  /\ media_groups buffered !! gid = Some messages
  /\ buffers buffered !! messages = Some items
  /\ suspended buffered = []
  /\ group_lines (log buffered) = group_lines (log st)
  /\ (forall now, now < t1 + quiescence_delay ->
                  run_timers buffered now = buffered)
  /\ (forall ds,
        length ds = length arrivals ->
        Forall (fun d => t1 + quiescence_delay <= d /\
                         Forall (fun a => d < fst a + quiescence_delay) rest)
               ds ->
        let flushed := downloaded ds buffered in
        flushed
        = set_media_groups (delete gid)
            (fold_left _process_message_content items
               (add_log (LogMediaGroup (length items))
                  (set_timers (map (fun a => (fst a + quiescence_delay, gid))
                                   rest)
                              buffered)))
        /\ media_groups flushed !! gid = None
        /\ suspended flushed = []
        /\ group_lines (log flushed)
           = group_lines (log st) ++ [length arrivals]
        /\ forall now,
             run_timers flushed now
             = set_timers (List.filter (fun t => negb (fst t <=? now))
                                       (timers flushed)) flushed
             /\ group_lines (log (run_timers flushed now))
                = group_lines (log st) ++ [length arrivals]).
Proof.
  intros Hgid Htimers Hsusp Hnone Hsorted Hwin Hgroup arrivals items messages
         buffered.
  apply Forall_cons_1 in Hgroup as [[Hg1 Hd1] Hgrest]. simpl in Hg1, Hd1.
  apply StronglySorted_inv in Hsorted as [Hsorted Hle].
  (* the first fragment *)
  set (st1 := set_timers [(t1 + quiescence_delay, gid)]
                (set_media_groups (insert gid messages)
                   (set_buffers (fun bs => bs ++ [[m1]]) st))).
  assert (Hfirst : on_event st (t1, Arrival m1) = st1).
  { unfold on_event. rewrite run_timers_early by (rewrite Htimers; constructor).
    rewrite Hg1, Hgid.
    rewrite (handle_unbound st t1 m1 gid Hgid Hg1 Hnone), Htimers.
    reflexivity. }
  (* the other fragments *)
  assert (Hclosed : buffered
                    = buffering messages items
                        (map (fun a => (fst a + quiescence_delay, gid)) arrivals)
                        st1).
  { subst buffered arrivals. unfold deliver. cbn [fold_left map fst snd].
    rewrite Hfirst.
    rewrite (deliver_more gid (t1 + quiescence_delay) messages Hgid rest st1 [m1]).
    - reflexivity.
    - simpl. apply lookup_insert_eq.
    - simpl. rewrite lookup_app_r by reflexivity.
      now rewrite Nat.sub_diag.
    - exact Hsorted.
    - rewrite List.Forall_forall in Hwin, Hgrest, Hle |- *. intros a Ha.
      specialize (Hle (fst a) (in_map fst _ _ Ha)).
      split; [apply Hwin; exact Ha|]. split; [lia | apply Hgrest; exact Ha].
    - simpl. constructor; [|constructor]. simpl. split; [lia|].
      rewrite List.Forall_forall in Hle |- *. intros a Ha.
      specialize (Hle (fst a) (in_map fst _ _ Ha)). lia. }
  assert (Hts : timers buffered
                = map (fun a => (fst a + quiescence_delay, gid)) arrivals)
    by (rewrite Hclosed; reflexivity).
  assert (Hbound : media_groups buffered !! gid = Some messages)
    by (rewrite Hclosed; simpl; apply lookup_insert_eq).
  assert (Hbuf : buffers buffered !! messages = Some items).
  { rewrite Hclosed. simpl. apply list_lookup_insert_eq.
    rewrite length_app. simpl. lia. }
  assert (Hidle : suspended buffered = [])
    by (rewrite Hclosed; exact Hsusp).
  assert (Hlate : Forall (fun t => t1 + quiescence_delay <= fst t /\ snd t = gid)
                         (timers buffered)).
  { rewrite Hts. subst arrivals. simpl. constructor; [simpl; split; [lia|reflexivity]|].
    apply Forall_map. rewrite List.Forall_forall in Hle |- *. intros a Ha.
    specialize (Hle (fst a) (in_map fst _ _ Ha)). simpl. split; [lia|reflexivity]. }
  split; [exact Hts|]. split; [exact Hbound|]. split; [exact Hbuf|].
  split; [exact Hidle|]. split; [rewrite Hclosed; reflexivity|]. split.
  - intros now Hnow. apply run_timers_early.
    eapply Forall_impl; [exact Hlate|]. simpl. intros t [Ht _]. lia.
  - intros ds Hlen Hds flushed.
    destruct ds as [|d ds]; [discriminate|].
    pose proof Hds as Hds0.
    apply Forall_cons_1 in Hds as [[Hd Hdrest] Hds].
    set (later := map (fun a => (fst a + quiescence_delay, gid)) rest).
    set (st0 := add_log (LogMediaGroup (length items))
                        (set_timers later buffered)).
    (* the task of the first fragment wakes up alone *)
    assert (Hwake : run_timers buffered d
                    = set_suspended (fun tasks => tasks ++ [Flush messages 0])
                                    st0).
    { unfold run_timers. rewrite Hts. subst arrivals. cbn [map List.filter fst].
      assert (E : (t1 + quiescence_delay <=? d) = true) by (apply Z.leb_le; lia).
      rewrite E. cbn [negb].
      fold later.
      rewrite (filter_none (fun t => fst t <=? d) later),
              (filter_all (fun t => negb (fst t <=? d)) later).
      - cbn [fold_left snd].
        apply (flush_start (set_timers later buffered) gid messages m1
                           (map snd rest)); assumption.
      - subst later. apply Forall_map.
        eapply Forall_impl; [exact Hdrest|]. simpl. intros a Ha.
        apply negb_true_iff, Z.leb_gt. exact Ha.
      - subst later. apply Forall_map.
        eapply Forall_impl; [exact Hdrest|]. simpl. intros a Ha.
        apply Z.leb_gt. exact Ha. }
    assert (Hquiet : forall d',
               Forall (fun a => d' < fst a + quiescence_delay) rest ->
               Forall (fun t => d' < fst t) (timers st0)).
    { intros d' H'. change (timers st0) with later. subst later.
      apply Forall_map. exact H'. }
    assert (Hfl : flushed
                  = end_flush (fold_left _process_message_content items st0)
                              messages).
    { subst flushed. unfold downloaded. cbn [map fold_left].
      assert (Hsame : on_event buffered (d, Downloaded 0%nat)
                      = on_event (run_timers buffered d) (d, Downloaded 0%nat)).
      { unfold on_event at 2.
        rewrite (run_timers_early (run_timers buffered d) d); [reflexivity|].
        rewrite Hwake. apply Hquiet. exact Hdrest. }
      rewrite Hsame, Hwake.
      change (fold_left on_event (map (fun d0 => (d0, Downloaded 0%nat)) ds)
                (on_event
                   (set_suspended (fun tasks => tasks ++ [Flush messages 0]) st0)
                   (d, Downloaded 0%nat)))
        with (fold_left on_event (map (fun d0 => (d0, Downloaded 0%nat)) (d :: ds))
                (set_suspended
                   (fun tasks => tasks ++ [Flush messages (length (@nil Message))])
                   st0)).
      apply (flush_uninterrupted messages (map snd rest) [] m1 st0 (d :: ds)).
      - exact Hidle.
      - exact Hbuf.
      - apply Forall_map. eapply Forall_impl; [exact Hgrest|].
        simpl. intros a [_ Ha]. exact Ha.
      - eapply Forall_impl; [exact Hds0|]. simpl. intros d' [_ H'].
        apply Hquiet. exact H'.
      - simpl in Hlen |- *. rewrite length_map. exact Hlen. }
    destruct (process_contents_frame items st0) as (F1 & F2 & F3 & F4 & F5).
    rewrite (end_flush_unbinds _ gid messages m1 (map snd rest) Hgid Hg1) in Hfl
      by (rewrite F3; exact Hbuf).
    split; [exact Hfl|].
    split; [rewrite Hfl; cbn [media_groups set_media_groups];
            apply lookup_delete_eq|].
    split; [rewrite Hfl; cbn [suspended set_media_groups]; rewrite F5;
            exact Hidle|].
    assert (Hlines : group_lines (log flushed)
                     = group_lines (log st) ++ [length arrivals]).
    { rewrite Hfl. cbn [log set_media_groups]. rewrite F1.
      unfold st0, group_lines. simpl. rewrite flat_map_app. simpl.
      fold (group_lines (log buffered)). rewrite Hclosed. simpl.
      unfold items. rewrite length_map. reflexivity. }
    split; [exact Hlines|].
    intros now.
    assert (Hnothing : run_timers flushed now
                       = set_timers (List.filter (fun t => negb (fst t <=? now))
                                                 (timers flushed)) flushed).
    { unfold run_timers. apply (late_tasks_idle gid).
      - apply List.Forall_forall. intros t Ht. apply filter_In in Ht as [Ht _].
        rewrite Hfl in Ht. cbn [timers set_media_groups] in Ht.
        rewrite F4 in Ht. change (timers st0) with later in Ht.
        apply in_map_iff in Ht as (a & <- & _). reflexivity.
      - rewrite Hfl. cbn [media_groups set_media_groups set_timers].
        apply lookup_delete_eq. }
    split; [exact Hnothing|]. rewrite Hnothing. exact Hlines.
Qed.

Lemma media_group_coalescing_witness :
  timers two_fragments = [(2000, "g1"); (2500, "g1")]
  /\ buffers two_fragments !! 0%nat
     = Some [fragment "g1" "F1"; fragment "g1" "F2"]
  /\ run_timers two_fragments 1999 = two_fragments
  /\ media_groups flushed_in_time !! "g1" = None
  /\ group_lines (log flushed_in_time) = [2%nat]
  /\ group_lines (log (run_timers flushed_in_time 2500)) = [2%nat].
Proof.
  assert (Hsorted : StronglySorted Z.le
                      (0 :: map fst [(500, fragment "g1" "F2")])).
  { repeat constructor. simpl. lia. }
  assert (Hwin : Forall (fun a : Z * Message => fst a < 0 + quiescence_delay)
                        [(500, fragment "g1" "F2")]).
  { repeat constructor. }
  assert (Hgroup : Forall (fun a : Z * Message =>
                             media_group_id (snd a) = "g1" /\
                             downloads (snd a) = true)
                          [(0, fragment "g1" "F1"); (500, fragment "g1" "F2")]).
  { repeat constructor. }
  destruct (media_group_coalescing fresh_bot "g1" 0 (fragment "g1" "F1")
              [(500, fragment "g1" "F2")] eq_refl eq_refl eq_refl eq_refl
              Hsorted Hwin Hgroup)
    as (Hts & _ & Hbuf & _ & _ & Hearly & Hflush).
  split; [exact Hts|]. split; [exact Hbuf|].
  split; [apply Hearly; reflexivity|].
  assert (Hds : Forall (fun d : Z =>
                          0 + quiescence_delay <= d /\
                          Forall (fun a : Z * Message =>
                                    d < fst a + quiescence_delay)
                                 [(500, fragment "g1" "F2")])
                       [2100; 2400]).
  { repeat constructor; simpl; unfold quiescence_delay; lia. }
  destruct (Hflush [2100; 2400] eq_refl Hds) as (_ & Hgone & _ & Hlines & Hlater).
  split; [exact Hgone|]. split; [exact Hlines|].
  exact (proj2 (Hlater 2500)).
Defined.

(** Two fragments of one group, half a second apart.  Each started a
    task: two are asleep.  The first wakes up and starts the flush of
    both fragments, which waits for the first file.  The second wakes
    up while it waits, finds the group still bound, and flushes both
    fragments again. *)
Lemma every_fragment_starts_a_task :
  timers two_fragments = [(2000, "g1"); (2500, "g1")]
  /\ length (timers two_fragments) = 2%nat
  /\ group_lines (log (run_timers two_fragments 2000)) = [2%nat]
  /\ suspended (run_timers two_fragments 2000) = [Flush 0 0]
  /\ group_lines (log second_task_wakes) = [2%nat; 2%nat]
  /\ suspended second_task_wakes = [Flush 0 0; Flush 0 0].
Proof. vm_compute. repeat split; reflexivity. Qed.

(** ** C10: stopping a channel and registering it again *)

(** C10, as the code has it.  Stopping a channel that is in memory marks
    its entry inactive and leaves the cursor of the entry as it was; in
    the store the rows of the channel become inactive and no
    [last_message_id] changes; the monitor then skips the channel, and
    a process started anew on the store does not load it.  A later
    registration of the channel, the one operation that makes it active
    again, does not start from the cursor that was kept: it sets the
    cursor, in memory and in the rows of the channel, to the id of the
    latest message of the channel at that time, whatever the cursor
    was. *)
Theorem stop_keeps_cursor_restart_resets
  (st : State) (channel : string) (meta : ChannelMeta) :
  dict_get channel (monitored_channels st) = Some meta ->
  snd (_stop_channel st channel) = true ->
  let st1 := fst (_stop_channel st channel) in
  dict_get channel (monitored_channels st1) = Some (with_is_active false meta)
  /\ cursor st1 channel = cursor st channel
  /\ (forall db, db_pool st = Some db ->
        exists db1,
          db_pool st1 = Some db1 /\
          map last_message_id (channel_tbl db1)
          = map last_message_id (channel_tbl db) /\
          Forall (fun r => tag_channel r = channel -> is_active r = false)
                 (channel_tbl db1))
  /\ (forall transport, monitor_channel st1 transport channel = (st1, None))
  /\ (is_Some (db_pool st) ->
      dict_get channel (monitored_channels (load_channels (new_process st1)))
      = None)
  /\ (forall transport added_by entity,
        transport channel = Some entity ->
        snd (_add_channel st1 transport channel added_by) = true ->
        let st2 := fst (_add_channel st1 transport channel added_by) in
        cursor st2 channel = latest_id entity
        /\ exists db2,
             db_pool st2 = Some db2 /\
             Forall (fun r => tag_channel r = channel ->
                              is_active r = true /\
                              last_message_id r = latest_id entity)
                    (channel_tbl db2)).
Proof.
  intros Hget Hok st1.
  assert (Hentry : dict_get channel (monitored_channels st1)
                   = Some (with_is_active false meta)).
  { subst st1. unfold _stop_channel in *.
    destruct (db_pool st) as [db|]; simpl in *.
    - destruct (bool_decide _); simpl in *; [discriminate|].
      rewrite Hget. simpl. apply dict_get_set_eq.
    - rewrite Hget. simpl. apply dict_get_set_eq. }
  split; [exact Hentry|]. split.
  { unfold cursor. now rewrite Hentry, Hget. }
  assert (Hstore :
            forall db, db_pool st = Some db ->
              exists db1,
                db_pool st1 = Some db1 /\
                map last_message_id (channel_tbl db1)
                = map last_message_id (channel_tbl db) /\
                Forall (fun r => tag_channel r = channel -> is_active r = false)
                       (channel_tbl db1)).
  { intros db Hdb. subst st1. unfold _stop_channel in *. rewrite Hdb in *.
    simpl in *. destruct (bool_decide _); simpl in *; [discriminate|].
    rewrite Hget. simpl. eexists. split; [reflexivity|]. simpl. split.
    - rewrite map_map. apply map_ext. intros r.
      destruct (String.eqb (tag_channel r) channel); reflexivity.
    - apply List.Forall_forall. intros r Hin Htag.
      apply in_map_iff in Hin as (r0 & Hr & _).
      destruct (String.eqb (tag_channel r0) channel) eqn:E.
      + subst r. reflexivity.
      + subst r. apply String.eqb_neq in E. contradiction. }
  split; [exact Hstore|].
  split.
  { intros transport. unfold monitor_channel. now rewrite Hentry. }
  split.
  { intros [db Hdb]. destruct (Hstore db Hdb) as (db1 & Hdb1 & _ & Hrows).
    exact (inactive_channel_not_loaded st1 db1 channel Hdb1 Hrows). }
  intros transport added_by entity Htr Hadd st2.
  destruct (add_channel_entry st1 transport channel added_by entity Htr Hadd)
    as (cid & Hget2).
  split; [unfold cursor; subst st2; now rewrite Hget2|].
  exact (add_channel_rows st1 transport channel added_by entity Htr Hadd).
Qed.

Lemma stop_keeps_cursor_restart_resets_witness :
  cursor stopped "@chan" = cursor registered "@chan"
  /\ monitor_channel stopped (channel_c [m102; m101; m100]) "@chan"
     = (stopped, None)
  /\ cursor reactivated "@chan"
     = latest_id {| ent_title := Some "Channel C";
                    ent_messages := [m102; m101; m100] |}.
Proof.
  destruct (stop_keeps_cursor_restart_resets registered "@chan"
              {| meta_is_active := true; meta_last_id := 100;
                 meta_channel_id := 1 |} eq_refl eq_refl)
    as (_ & Hcur & _ & Hskip & _ & Hadd).
  split; [exact Hcur|]. split; [apply Hskip|].
  destruct (Hadd (channel_c [m102; m101; m100]) 5
              {| ent_title := Some "Channel C";
                 ent_messages := [m102; m101; m100] |} eq_refl eq_refl)
    as (Hcur2 & _).
  exact Hcur2.
Defined.

(** The channel is stopped with its cursor at 100; messages 101 and 102
    are posted; the channel is registered again.  The cursor that was
    kept is replaced by 102, the next turn of the monitor is handed no
    message, and no unified record exists: 101 and 102 are skipped. *)
Lemma reactivation_skips_messages :
  cursor stopped "@chan" = 100
  /\ cursor reactivated "@chan" = 102
  /\ (handled <$> snd after_reactivation) = Some []
  /\ unified (fst after_reactivation) = []
  /\ iter_messages_since
       {| ent_title := Some "Channel C"; ent_messages := [m102; m101; m100] |}
       (cursor stopped "@chan")
     = [m102; m101].
Proof. vm_compute. repeat split; reflexivity. Qed.

(** * Further properties *)

(** ** The fingerprint *)

Lemma hex_digit_lower (n : Z) :
  0 <= n < 16 -> hex_lower (Md5.hex_digit n) = true.
Proof.
  intros Hn. rewrite <- (Z2Nat.id n) by lia.
  assert (Hk : (Z.to_nat n < 16)%nat) by lia.
  remember (Z.to_nat n) as k eqn:Ek. clear Ek Hn.
  do 16 (destruct k as [|k]; [reflexivity|]). lia.
Qed.

Lemma hex_shape (bs : list Z) :
  Forall (fun b => 0 <= b < 256) bs ->
  String.length (Md5.hex bs) = (2 * length bs)%nat
  /\ Forall (fun c => hex_lower c = true) (list_ascii_of_string (Md5.hex bs)).
Proof.
  induction 1 as [|b bs Hb _ [IHl IHc]]; [split; [reflexivity|constructor]|].
  cbn [Md5.hex String.length length list_ascii_of_string].
  split; [rewrite IHl; lia|].
  constructor; [|constructor; [|exact IHc]]; apply hex_digit_lower.
  - split; [apply Z.div_pos; lia | apply Z.div_lt_upper_bound; lia].
  - apply Z.mod_pos_bound; lia.
Qed.

(** X1.  The fingerprint of any data is a string of 32 lower-case
    hexadecimal digits; it fits the [file_hash VARCHAR(64)] column. *)
Theorem fingerprint_has_32_hex_digits (file_data : list byte) :
  String.length (_calculate_file_hash file_data) = 32%nat
  /\ Forall (fun c => hex_lower c = true)
            (list_ascii_of_string (_calculate_file_hash file_data))
  /\ sql_length (_calculate_file_hash file_data) <= 64.
Proof.
  split; [|split].
  - unfold _calculate_file_hash, Md5.hexdigest, Md5.digest.
    destruct (fold_left _ _ _) as [[[a b] c] d].
    destruct (hex_shape (Md5.le_bytes 4 a ++ Md5.le_bytes 4 b
                         ++ Md5.le_bytes 4 c ++ Md5.le_bytes 4 d)) as [Hl _].
    + repeat (apply Forall_app; split); apply le_bytes_range.
    + rewrite Hl, !length_app, !le_bytes_length. reflexivity.
  - unfold _calculate_file_hash, Md5.hexdigest, Md5.digest.
    destruct (fold_left _ _ _) as [[[a b] c] d].
    apply hex_shape.
    repeat (apply Forall_app; split); apply le_bytes_range.
  - rewrite hexdigest_length. lia.
Qed.

(** ** The links of a text *)

(** X2.  Every link that [_extract_links] returns has a URL that occurs
    in the text and is made of [http://] or [https://], the domain of
    the link, and a tail that is empty or starts with [/] or [?].  What
    follows the scheme is not empty and holds only characters of the
    class of the pattern, hence no white space, quote, [#], [~] or
    brace.  The domain holds neither [/] nor [?], and the title and the
    description are absent. *)
Theorem extracted_link_shape (text : string) (ld : LinkData) :
  In ld (_extract_links text) ->
  exists pre post sch tail,
    text = pre +:+ ld_url ld +:+ post
    /\ is_scheme sch
    /\ ld_url ld = sch +:+ ld_domain ld +:+ tail
    /\ nonempty (ld_domain ld +:+ tail) = true
    /\ all_url_chars (ld_domain ld +:+ tail) = true
    /\ contains "/"%char (ld_domain ld) = false
    /\ contains "?"%char (ld_domain ld) = false
    /\ (tail = EmptyString \/ startswith "/" tail = true
        \/ startswith "?" tail = true)
    /\ ld_title ld = None /\ ld_description ld = None.
Proof.
  unfold _extract_links. destruct (nonempty text); [|intros []].
  cbn [negb]. intros Hin. apply in_flat_map in Hin as (u & Hu & Hld).
  destruct (findall_from_in text O u Hu)
    as (pre & post & sch & body & Htext & Hsch & -> & Hne & Hall).
  destruct (urlparse_netloc (sch +:+ body)) as [d|] eqn:Hp; [|destruct Hld].
  apply (urlparse_netloc_some sch body d Hsch) in Hp. subst d.
  destruct Hld as [<- | []]. cbn [ld_url ld_domain ld_title ld_description].
  destruct (netloc_of_app body) as (tail & Hb & H1 & H2 & _ & Ht).
  exists pre, post, sch, tail. rewrite <- Hb.
  repeat split; try assumption.
  destruct tail as [|c tail]; [now left|]. right.
  assert (Hc : url_char c = true).
  { rewrite Hb in Hall. unfold all_url_chars in Hall.
    rewrite list_ascii_append, forallb_app in Hall.
    apply andb_true_iff in Hall as [_ Hall].
    cbn [list_ascii_of_string forallb] in Hall.
    now apply andb_true_iff in Hall as [Hall _]. }
  destruct Ht as [-> | [-> | ->]]; [now left | now right | discriminate].
Qed.

Lemma extracted_link_shape_witness :
  exists pre post sch tail,
    "see https://a.com/x#top now" = pre +:+ "https://a.com/x" +:+ post
    /\ is_scheme sch
    /\ "https://a.com/x" = sch +:+ "a.com" +:+ tail
    /\ nonempty ("a.com" +:+ tail) = true
    /\ all_url_chars ("a.com" +:+ tail) = true
    /\ contains "/"%char "a.com" = false
    /\ contains "?"%char "a.com" = false
    /\ (tail = EmptyString \/ startswith "/" tail = true
        \/ startswith "?" tail = true)
    /\ @None string = None /\ @None string = None.
Proof.
  apply (extracted_link_shape "see https://a.com/x#top now"
           {| ld_url := "https://a.com/x"; ld_domain := "a.com";
              ld_title := None; ld_description := None |}).
  left. reflexivity.
Defined.

Lemma url_scheme_append (sch r : string) :
  is_scheme sch -> url_scheme (sch +:+ r) = Some (sch, r).
Proof. intros [-> | ->]; reflexivity. Qed.

Lemma url_body_exact (body post : string) :
  all_url_chars body = true ->
  match post with
  | EmptyString => True
  | String c _ => url_char c = false
  end ->
  url_body (body +:+ post) = body.
Proof.
  intros Hall Hpost. induction body as [|c body IH].
  - rewrite append_nil_l. destruct post as [|c post]; [reflexivity|].
    cbn [url_body]. now rewrite Hpost.
  - unfold all_url_chars in Hall. cbn [list_ascii_of_string forallb] in Hall.
    apply andb_true_iff in Hall as [Hc Hall].
    rewrite append_cons. cbn [url_body]. now rewrite Hc, IH.
Qed.

Lemma findall_from_skip (a post : string) :
  findall_from (String.length a) (a +:+ post) = findall_from O post.
Proof.
  induction a as [|c a IH]; [reflexivity|].
  rewrite append_cons. cbn [String.length findall_from]. exact IH.
Qed.

Lemma netloc_of_exact (dom tail : string) :
  contains "/"%char dom = false ->
  contains "?"%char dom = false ->
  contains "#"%char dom = false ->
  tail = EmptyString \/ startswith "/" tail = true
  \/ startswith "?" tail = true ->
  netloc_of (dom +:+ tail) = dom.
Proof.
  intros H1 H2 H3 Ht. induction dom as [|c dom IH].
  - rewrite append_nil_l.
    destruct Ht as [-> | Ht]; [reflexivity|].
    destruct tail as [|c tail]; [destruct Ht; discriminate|].
    unfold startswith in Ht. cbn [strip_prefix] in Ht. cbn [netloc_of].
    destruct Ht as [Ht | Ht].
    + destruct (Ascii.eqb_spec "/"%char c) as [<-|]; [reflexivity|discriminate].
    + destruct (Ascii.eqb_spec "?"%char c) as [<-|]; [reflexivity|discriminate].
  - cbn [contains] in H1, H2, H3.
    apply orb_false_iff in H1 as [E1 H1], H2 as [E2 H2], H3 as [E3 H3].
    rewrite append_cons. cbn [netloc_of]. rewrite E1, E2, E3. cbn [orb].
    now rewrite IH.
Qed.

(** X3.  A text that starts with a URL, a scheme, a domain without [/],
    [?] or square bracket, and a tail that is empty or starts with [/]
    or [?], all of characters of the class, up to the end of the text or
    to a character outside the class: the first link is this URL with
    this domain, and the other links are those of the rest of the
    text. *)
Theorem leading_url_is_extracted (sch dom tail post : string) :
  is_scheme sch ->
  nonempty (dom +:+ tail) = true ->
  all_url_chars (dom +:+ tail) = true ->
  contains "/"%char dom = false ->
  contains "?"%char dom = false ->
  contains "["%char dom = false ->
  contains "]"%char dom = false ->
  tail = EmptyString \/ startswith "/" tail = true
  \/ startswith "?" tail = true ->
  match post with
  | EmptyString => True
  | String c _ => url_char c = false
  end ->
  _extract_links ((sch +:+ dom +:+ tail) +:+ post)
  = {| ld_url := sch +:+ dom +:+ tail; ld_domain := dom;
       ld_title := None; ld_description := None |}
    :: _extract_links post.
Proof.
  intros Hsch Hne Hall H1 H2 H3 H4 Ht Hpost.
  set (body := dom +:+ tail) in *.
  assert (Hdom : all_url_chars dom = true).
  { unfold all_url_chars, body in *. rewrite list_ascii_append, forallb_app in Hall.
    now apply andb_true_iff in Hall as [Hall _]. }
  assert (Hfind : findall_urls ((sch +:+ body) +:+ post)
                  = (sch +:+ body) :: findall_urls post).
  { unfold findall_urls.
    assert (Hm : match_url ((sch +:+ body) +:+ post) = Some (sch +:+ body)).
    { unfold match_url. rewrite <- append_assoc, (url_scheme_append _ _ Hsch).
      rewrite (url_body_exact body post Hall Hpost). cbn zeta. now rewrite Hne. }
    assert (Hu : exists c u', sch +:+ body = String c u').
    { destruct Hsch as [-> | ->]; eexists _, _; reflexivity. }
    destruct Hu as (c & u' & Hu). rewrite Hu in Hm |- *.
    rewrite append_cons in Hm |- *. cbn [findall_from]. rewrite Hm.
    cbn [String.length Nat.pred]. now rewrite findall_from_skip. }
  assert (Htext : nonempty ((sch +:+ body) +:+ post) = true)
    by (destruct Hsch as [-> | ->]; reflexivity).
  unfold _extract_links at 1. rewrite Htext, Hfind. cbn [negb flat_map].
  rewrite (urlparse_netloc_scheme sch body Hsch).
  assert (Hnet : netloc_of body = dom).
  { apply netloc_of_exact; try assumption.
    apply all_url_chars_contains; [reflexivity | exact Hdom]. }
  rewrite Hnet, H3, H4. cbn [xorb app]. f_equal.
  unfold _extract_links. destruct post as [|c post]; reflexivity.
Qed.

Lemma leading_url_is_extracted_witness :
  _extract_links (("https://" +:+ "t.me" +:+ "/chan/5?x=1") +:+ " and more")
  = {| ld_url := "https://" +:+ "t.me" +:+ "/chan/5?x=1"; ld_domain := "t.me";
       ld_title := None; ld_description := None |}
    :: _extract_links " and more".
Proof.
  apply (leading_url_is_extracted "https://" "t.me" "/chan/5?x=1" " and more");
    try reflexivity.
  - now right.
  - right. now left.
Defined.

(** ** The photo that is kept *)

Lemma largest_photo_spec (photos : list PhotoSize) :
  forall first,
    exists before after,
      first :: photos = (before ++ largest_photo first photos :: after)%list
      /\ Forall (fun q => photo_size q < photo_size (largest_photo first photos))
                before
      /\ Forall (fun q => photo_size q <= photo_size (largest_photo first photos))
                after.
Proof.
  induction photos as [|p ps IH]; intros first; cbn [largest_photo].
  - exists [], []. repeat split; constructor.
  - fold (photo_size first). fold (photo_size p).
    destruct (photo_size first <? photo_size p) eqn:E.
    + apply Z.ltb_lt in E.
      destruct (IH p) as (before & after & Heq & Hb & Ha).
      exists (first :: before), after. rewrite Heq. split; [reflexivity|].
      split; [|exact Ha]. constructor; [|exact Hb].
      assert (Hp : photo_size p <= photo_size (largest_photo p ps)).
      { destruct before as [|b before]; simpl in Heq.
        - injection Heq as Heq _. rewrite <- Heq. lia.
        - injection Heq as Heq _. subst b.
          apply Forall_cons_1 in Hb as [Hb _]. lia. }
      lia.
    + apply Z.ltb_ge in E.
      destruct (IH first) as (before & after & Heq & Hb & Ha).
      set (r := largest_photo first ps) in *.
      destruct before as [|b before]; simpl in Heq; injection Heq as Hh Hrest.
      * exists [], (p :: after). simpl. rewrite <- Hh in Ha |- *. rewrite Hrest.
        split; [reflexivity|]. split; [constructor|].
        constructor; [lia | exact Ha].
      * subst b. exists (first :: p :: before), after. simpl. rewrite Hrest.
        split; [reflexivity|]. split; [|exact Ha].
        apply Forall_cons_1 in Hb as [Hf Hb].
        constructor; [exact Hf|]. constructor; [lia | exact Hb].
Qed.

(** X4.  Of the sizes of a photo, the one whose file is downloaded is
    the first of those with the greatest [file_size], a missing size
    counting as 0: it is one of the sizes, those before it are strictly
    smaller and none is greater. *)
Theorem largest_photo_is_first_greatest (p : PhotoSize) (ps : list PhotoSize)
  (st : State) :
  let largest := largest_photo p ps in
  _process_photo st (p :: ps)
  = _process_single_file st (ps_file_id largest) "image"
      (Some ("photo_" +:+ ps_file_id largest +:+ ".jpg"))
  /\ exists before after,
       p :: ps = (before ++ largest :: after)%list
       /\ Forall (fun q => photo_size q < photo_size largest) before
       /\ Forall (fun q => photo_size q <= photo_size largest) after.
Proof.
  intros largest. split; [reflexivity|]. apply largest_photo_spec.
Qed.

(** ** The name of a stored file *)

Lemma after_last_dot_spec (s : string) :
  contains "."%char s = true ->
  exists pre,
    s = pre +:+ "." +:+ after_last_dot s
    /\ contains "."%char (after_last_dot s) = false.
Proof.
  induction s as [|a s IH]; [discriminate|].
  cbn [contains after_last_dot]. destruct (contains "."%char s) eqn:Hs.
  - intros _. destruct (IH eq_refl) as (pre & Heq & Hno).
    exists (String a pre). rewrite append_cons, <- Heq. split; [reflexivity|exact Hno].
  - rewrite orb_false_r. intros Ha. rewrite Ha.
    apply Ascii.eqb_eq in Ha. subst a.
    exists EmptyString. split; [reflexivity | exact Hs].
Qed.

(** X5.  Of the original name of a file, [_generate_filename] keeps the
    extension alone: the generated name is the content type, the time
    stamp and, after a dot, what follows the last dot of the original
    name, or [bin] when that name has no dot.  The extension holds no
    dot, and reading the clock is all that the call does to the
    state. *)
Theorem generated_filename_extension
  (st : State) (name content_type : string) :
  nonempty name = true ->
  let r := _generate_filename st (Some name) content_type in
  fst r = set_clock (clock st + 1) st
  /\ exists ext,
       snd r = content_type +:+ "_" +:+ pretty (clock st) +:+ "." +:+ ext
       /\ contains "."%char ext = false
       /\ (contains "."%char name = true ->
           exists pre, name = pre +:+ "." +:+ ext)
       /\ (contains "."%char name = false -> ext = "bin").
Proof.
  intros Hname r. subst r. unfold _generate_filename, datetime_now.
  rewrite Hname. cbn [fst snd]. split; [reflexivity|].
  destruct (contains "."%char name) eqn:Hdot.
  - destruct (after_last_dot_spec name Hdot) as (pre & Heq & Hno).
    exists (after_last_dot name). split; [reflexivity|]. split; [exact Hno|].
    split; [intros _; now exists pre | discriminate].
  - exists "bin". repeat split. discriminate.
Qed.

Lemma generated_filename_extension_witness :
  fst (_generate_filename fresh_bot (Some "../holiday.v2.tar.gz") "document")
  = set_clock (clock fresh_bot + 1) fresh_bot
  /\ exists ext,
       snd (_generate_filename fresh_bot (Some "../holiday.v2.tar.gz") "document")
       = "document" +:+ "_" +:+ pretty (clock fresh_bot) +:+ "." +:+ ext
       /\ contains "."%char ext = false
       /\ (contains "."%char "../holiday.v2.tar.gz" = true ->
           exists pre, "../holiday.v2.tar.gz" = pre +:+ "." +:+ ext)
       /\ (contains "."%char "../holiday.v2.tar.gz" = false -> ext = "bin").
Proof.
  apply (generated_filename_extension fresh_bot "../holiday.v2.tar.gz"
           "document").
  reflexivity.
Defined.

(** ** The link store *)

Lemma find_url_app (rows : list LinkRow) (row : LinkRow) (u : string) :
  List.find (fun r => String.eqb (url r) u) (rows ++ [row])
  = match List.find (fun r => String.eqb (url r) u) rows with
    | Some r => Some r
    | None => if String.eqb (url row) u then Some row else None
    end.
Proof.
  induction rows as [|r rows IH]; simpl; [reflexivity|].
  destruct (String.eqb (url r) u); [reflexivity | exact IH].
Qed.

Lemma find_url_none (rows : list LinkRow) (u : string) :
  List.find (fun r => String.eqb (url r) u) rows = None ->
  ~ In u (map url rows).
Proof.
  intros Hf Hin. apply in_map_iff in Hin as (r & Hu & Hin).
  pose proof (find_none _ _ Hf r Hin) as H. simpl in H.
  rewrite Hu, String.eqb_refl in H. discriminate.
Qed.

(** X6.  The upsert of a link that the store accepts returns the id of
    a row that holds the URL as its column takes it, which is the URL
    itself when it has at most 500 characters.  The rows that were
    there are left as they were, at most one row is added, and the URLs
    of the rows stay distinct if they were.  A later upsert of the same
    URL, with any domain that its column takes, returns the same id and
    adds no row. *)
Theorem upsert_link_one_row_per_url (db : Database) (ld : LinkData) (id : Z) :
  snd (upsert_link db ld) = Some id ->
  let db1 := fst (upsert_link db ld) in
  (exists row,
      In row (links_tbl db1) /\ link_id row = id
      /\ varchar 500 (ld_url ld) = Some (url row)
      /\ (sql_length (ld_url ld) <= 500 -> url row = ld_url ld))
  /\ (links_tbl db1 = links_tbl db
      \/ exists row, links_tbl db1 = links_tbl db ++ [row])
  /\ (NoDup (map url (links_tbl db)) -> NoDup (map url (links_tbl db1)))
  /\ (forall ld',
         ld_url ld' = ld_url ld ->
         is_Some (varchar 100 (ld_domain ld')) ->
         snd (upsert_link db1 ld') = Some id
         /\ links_tbl (fst (upsert_link db1 ld')) = links_tbl db1).
Proof.
  unfold upsert_link.
  destruct (varchar 500 (ld_url ld)) as [u|] eqn:Hurl; [|discriminate].
  destruct (varchar 100 (ld_domain ld)) as [d|]; [|discriminate].
  destruct (length_checked u) eqn:Hcheck; [|discriminate].
  assert (Hsame : sql_length (ld_url ld) <= 500 -> u = ld_url ld).
  { intros Hlen. unfold varchar in Hurl.
    destruct (has_nul (ld_url ld)); [discriminate|].
    apply Z.leb_le in Hlen. rewrite Hlen in Hurl. congruence. }
  destruct (List.find _ (links_tbl db)) as [r|] eqn:Hfind;
    cbn [fst snd links_tbl with_links]; intros [= <-].
  - pose proof (find_some _ _ Hfind) as [Hin Hu]. apply String.eqb_eq in Hu.
    split; [exists r; rewrite Hu; repeat split; assumption|].
    split; [now left|]. split; [tauto|].
    intros ld' Heq [d' Hdom]. rewrite Heq, Hurl, Hdom, Hcheck.
    rewrite Hfind. split; reflexivity.
  - set (row := {| link_id := links_seq db; url := u;
                   domain := d; title := ld_title ld;
                   description := ld_description ld |}).
    split; [exists row; split; [apply in_or_app; right; now left|];
            repeat split; exact Hsame|].
    split; [right; now exists row|]. split.
    + intros Hnd. rewrite map_app. apply NoDup_app. split; [exact Hnd|].
      split.
      * intros x Hx Hrow. apply list_elem_of_In in Hx, Hrow.
        destruct Hrow as [<- | []]. now apply (find_url_none _ _ Hfind).
      * apply NoDup_singleton.
    + intros ld' Heq [d' Hdom]. rewrite Heq, Hurl, Hdom, Hcheck.
      rewrite find_url_app, Hfind. cbn [url row]. rewrite String.eqb_refl.
      split; reflexivity.
Qed.

Lemma upsert_link_one_row_per_url_witness :
  let ld := {| ld_url := "https://a.com/x"; ld_domain := "a.com";
               ld_title := None; ld_description := None |} in
  let db1 := fst (upsert_link registered_db ld) in
  (exists row,
      In row (links_tbl db1) /\ link_id row = 1
      /\ varchar 500 (ld_url ld) = Some (url row)
      /\ (sql_length (ld_url ld) <= 500 -> url row = ld_url ld))
  /\ (links_tbl db1 = links_tbl registered_db
      \/ exists row, links_tbl db1 = links_tbl registered_db ++ [row])
  /\ (NoDup (map url (links_tbl registered_db)) ->
      NoDup (map url (links_tbl db1)))
  /\ (forall ld',
         ld_url ld' = ld_url ld ->
         is_Some (varchar 100 (ld_domain ld')) ->
         snd (upsert_link db1 ld') = Some 1
         /\ links_tbl (fst (upsert_link db1 ld')) = links_tbl db1).
Proof.
  apply (upsert_link_one_row_per_url registered_db
           {| ld_url := "https://a.com/x"; ld_domain := "a.com";
              ld_title := None; ld_description := None |} 1).
  vm_compute. reflexivity.
Defined.

(** ** Registration *)


(** X7.  A registration succeeds exactly when the Telethon client is
    there, the channel resolves, the store is connected and either
    holds a row for the channel or accepts a new one.  The store
    accepts the new row when it takes the tag and the title (neither
    holds U+0000, and what either has beyond 50 characters is blanks,
    which are cut off) and what it takes has more than 3 characters.
    A registration that fails leaves [monitored_channels] and the rows
    of the channel table as they were. *)
Theorem registration_succeeds_iff
  (st : State) (transport : Transport) (channel : string) (added_by : Z) :
  let r := _add_channel st transport channel added_by in
  (snd r = true <->
   tg_client st = true /\
   exists entity db,
     transport channel = Some entity /\ db_pool st = Some db /\
     (select_channel_id db channel <> None \/
      exists tag title,
        varchar 50 channel = Some tag
        /\ varchar 50 (default channel (ent_title entity)) = Some title
        /\ length_checked tag && length_checked title = true))
  /\ (snd r = false ->
      monitored_channels (fst r) = monitored_channels st
      /\ channels_of (fst r) = channels_of st).
Proof.
  unfold _add_channel, channels_of.
  destruct (tg_client st); cbn [negb];
    [|split; [split; [discriminate | intros [? _]; discriminate]
             |intros _; split; reflexivity]].
  destruct (transport channel) as [entity|];
    [|split; [split; [discriminate | intros (_ & ? & ? & ? & _); discriminate]
             |intros _; split; reflexivity]].
  destruct (db_pool st) as [db|] eqn:Hdb;
    [|split; [split; [discriminate
                     |intros (_ & ? & ? & _ & ? & _); discriminate]
             |intros _; cbn [fst]; rewrite Hdb; split; reflexivity]].
  destruct (select_channel_id db channel) as [cid|] eqn:Hsel.
  - cbn [fst snd]. split; [|discriminate].
    split; [|reflexivity]. intros _. split; [reflexivity|].
    exists entity, db. split; [reflexivity|]. split; [reflexivity|].
    left. rewrite Hsel. discriminate.
  - unfold insert_channel.
    destruct (varchar 50 channel) as [tag|] eqn:Htag.
    2:{ cbn [fst snd]. split; [|intros _; split; reflexivity].
        split; [discriminate|].
        intros (_ & entity' & db' & [= <-] & [= <-] & [H | H]);
          [now contradiction H|].
        destruct H as (? & ? & ? & _). congruence. }
    destruct (varchar 50 (default channel (ent_title entity)))
      as [title|] eqn:Htitle.
    2:{ cbn [fst snd]. split; [|intros _; split; reflexivity].
        split; [discriminate|].
        intros (_ & entity' & db' & [= <-] & [= <-] & [H | H]);
          [now contradiction H|].
        destruct H as (? & ? & _ & ? & _). congruence. }
    destruct (length_checked tag && length_checked title) eqn:Hfit;
      cbn [fst snd].
    + split; [|discriminate]. split; [|reflexivity]. intros _.
      split; [reflexivity|]. exists entity, db.
      split; [reflexivity|]. split; [reflexivity|]. right.
      now exists tag, title.
    + split; [|intros _; split; reflexivity].
      split; [discriminate|].
      intros (_ & entity' & db' & [= <-] & [= <-] & [H | H]);
        [now contradiction H|].
      destruct H as (tag' & title' & Ha & Hb & H).
      assert (tag' = tag) by congruence. assert (title' = title) by congruence.
      subst. rewrite Hfit in H. discriminate.
Qed.

(** X8.  The registration of a channel that the store holds adds no
    row and changes no id, tag or name of a row; it succeeds, and the
    entry of the channel is active, with the id of that row and the id
    of the latest message as its cursor. *)
Theorem registration_again_keeps_row
  (st : State) (transport : Transport) (channel : string) (added_by : Z)
  (entity : Entity) (db : Database) (cid : Z) :
  tg_client st = true ->
  transport channel = Some entity ->
  db_pool st = Some db ->
  select_channel_id db channel = Some cid ->
  let r := _add_channel st transport channel added_by in
  snd r = true
  /\ dict_get channel (monitored_channels (fst r))
     = Some {| meta_is_active := true; meta_last_id := latest_id entity;
               meta_channel_id := cid |}
  /\ exists db',
       db_pool (fst r) = Some db'
       /\ map (fun row => (channel_id row, tag_channel row, name_channel row))
              (channel_tbl db')
          = map (fun row => (channel_id row, tag_channel row, name_channel row))
                (channel_tbl db)
       /\ channel_seq db' = channel_seq db.
Proof.
  intros Hclient Htr Hdb Hsel r. subst r. unfold _add_channel.
  rewrite Hclient, Htr, Hdb, Hsel. cbn [negb fst snd].
  split; [reflexivity|]. split; [apply dict_get_set_eq|].
  eexists. split; [reflexivity|]. cbn [update_channel fst channel_tbl
                                       channel_seq with_channel].
  split; [|reflexivity]. rewrite map_map. apply map_ext. intros row.
  destruct (String.eqb (tag_channel row) channel); reflexivity.
Qed.

Lemma registration_again_keeps_row_witness :
  snd (_add_channel stopped (channel_c [m102; m101; m100]) "@chan" 9) = true
  /\ dict_get "@chan"
       (monitored_channels
          (fst (_add_channel stopped (channel_c [m102; m101; m100]) "@chan" 9)))
     = Some {| meta_is_active := true;
               meta_last_id :=
                 latest_id {| ent_title := Some "Channel C";
                              ent_messages := [m102; m101; m100] |};
               meta_channel_id := 1 |}
  /\ exists db',
       db_pool (fst (_add_channel stopped (channel_c [m102; m101; m100])
                       "@chan" 9)) = Some db'
       /\ map (fun row => (channel_id row, tag_channel row, name_channel row))
              (channel_tbl db')
          = map (fun row => (channel_id row, tag_channel row, name_channel row))
                (channel_tbl (default empty_db (db_pool stopped)))
       /\ channel_seq db' = channel_seq (default empty_db (db_pool stopped)).
Proof.
  apply (registration_again_keeps_row stopped (channel_c [m102; m101; m100])
           "@chan" 9
           {| ent_title := Some "Channel C";
              ent_messages := [m102; m101; m100] |}
           (default empty_db (db_pool stopped)) 1);
    reflexivity.
Defined.

(** ** Stopping *)



(** ** The cursor in the store *)

Lemma existsb_tag_map (g : ChannelRow -> ChannelRow) (channel : string)
  (rows : list ChannelRow) :
  (forall r, tag_channel (g r) = tag_channel r) ->
  existsb (fun r => String.eqb (tag_channel r) channel) (map g rows)
  = existsb (fun r => String.eqb (tag_channel r) channel) rows.
Proof.
  intros Hg. induction rows as [|r rows IH]; simpl; [reflexivity|].
  now rewrite Hg, IH.
Qed.

Lemma find_existsb {A} (f : A -> bool) (l : list A) (x : A) :
  List.find f l = Some x -> existsb f l = true.
Proof.
  intros H. apply find_some in H as [Hin Hf].
  apply existsb_exists. eauto.
Qed.

(** The rows of a channel after an [UPDATE] of the rows of [tag] that
    keeps the tags. *)
Lemma update_channel_stored (db : Database) (tag channel : string)
  (f : ChannelRow -> ChannelRow) (P : ChannelRow -> Prop) :
  (forall r, tag_channel (f r) = tag_channel r) ->
  Forall (fun r => tag_channel r = channel ->
                   if String.eqb (tag_channel r) tag then P (f r) else P r)
         (channel_tbl db) ->
  let db' := fst (update_channel db tag f) in
  existsb (fun r => String.eqb (tag_channel r) channel) (channel_tbl db')
  = existsb (fun r => String.eqb (tag_channel r) channel) (channel_tbl db)
  /\ Forall (fun r => tag_channel r = channel -> P r) (channel_tbl db').
Proof.
  intros Hf Hrows db'. subst db'. rewrite update_channel_rows. split.
  - apply existsb_tag_map. intros r.
    destruct (String.eqb (tag_channel r) tag); [apply Hf | reflexivity].
  - apply Forall_map. eapply Forall_impl; [exact Hrows|]. simpl.
    intros r Hr. destruct (String.eqb (tag_channel r) tag) eqn:E.
    + rewrite Hf. exact Hr.
    + exact Hr.
Qed.

(** A registration that succeeds, for a name that fits the column of
    the tag, leaves the channel stored as it is in memory. *)
Lemma add_channel_stored st transport channel added_by :
  sql_length channel <= 50 ->
  snd (_add_channel st transport channel added_by) = true ->
  cursor_stored (fst (_add_channel st transport channel added_by)) channel.
Proof.
  intros Hlen. unfold _add_channel, cursor_stored.
  destruct (tg_client st); cbn [negb]; [|discriminate].
  destruct (transport channel) as [entity|]; [|discriminate].
  destruct (db_pool st) as [db|]; [|discriminate].
  unfold select_channel_id.
  destruct (List.find _ (channel_tbl db)) as [row|] eqn:Efind; cbn [fmap option_fmap option_map].
  - cbn [fst snd]. intros _. eexists _, _. split; [reflexivity|].
    cbn [monitored_channels set_monitored_channels set_db].
    split; [apply dict_get_set_eq|]. split; [reflexivity|].
    cbn [meta_last_id].
    pose proof (update_channel_stored db channel channel
                  (fun r => set_row_cursor (latest_id entity) (clock st)
                              (set_row_active true (Some added_by) (clock st) r))
                  (fun r => is_active r = true
                            /\ last_message_id r = latest_id entity)) as H.
    destruct H as [He Hall].
    + reflexivity.
    + apply List.Forall_forall. intros r _ Htag.
      apply String.eqb_eq in Htag. rewrite Htag. split; reflexivity.
    + split; [|exact Hall]. rewrite He. eapply find_existsb; exact Efind.
  - unfold insert_channel.
    destruct (varchar 50 channel) as [tag|] eqn:Htag;
      [|cbn [fst snd]; discriminate].
    assert (tag = channel) as ->.
    { unfold varchar in Htag. destruct (has_nul channel); [discriminate|].
      apply Z.leb_le in Hlen. rewrite Hlen in Htag. congruence. }
    clear Htag.
    destruct (varchar 50 (default channel (ent_title entity))) as [title|];
      [|cbn [fst snd]; discriminate].
    destruct (length_checked channel && length_checked title);
      cbn [fst snd]; [|discriminate].
    intros _. eexists _, _. split; [reflexivity|].
    cbn [monitored_channels set_monitored_channels set_db].
    split; [apply dict_get_set_eq|]. split; [reflexivity|].
    cbn [meta_last_id channel_tbl with_channel]. split.
    + rewrite existsb_app. cbn [existsb tag_channel].
      rewrite String.eqb_refl. apply orb_true_r.
    + apply Forall_app. split.
      * eapply Forall_impl; [apply (find_tag_none _ _ Efind)|].
        simpl. intros r Hne Htag. contradiction.
      * repeat constructor.
Qed.

Lemma cursor_stored_kept (st st' : State) (channel : string) :
  monitored_channels st' = monitored_channels st ->
  channels_of st' = channels_of st ->
  cursor_stored st channel -> cursor_stored st' channel.
Proof.
  unfold cursor_stored, channels_of.
  intros Hm Hc (db & meta & Hdb & Hget & Hact & Hex & Hrows).
  rewrite Hdb in Hc. destruct (db_pool st') as [db'|]; [|discriminate].
  injection Hc as Hc. exists db', meta. rewrite Hm, Hc. now repeat split.
Qed.

Lemma advance_cursor_stored (st : State) (channel ch : string) (id : Z) :
  cursor_stored st ch -> cursor_stored (advance_cursor st channel id) ch.
Proof.
  unfold cursor_stored, advance_cursor.
  intros (db & meta & Hdb & Hget & Hact & Hex & Hrows).
  destruct (String.eqb_spec channel ch) as [->|Hne].
  - rewrite Hget. cbn [db_pool set_monitored_channels]. rewrite Hdb.
    destruct (update_channel_stored db ch ch
                (set_row_cursor id
                   (clock (set_monitored_channels
                             (dict_set ch (with_last_id id meta)) st)))
                (fun r => is_active r = true /\ last_message_id r = id))
      as [He Hall]; [reflexivity| |].
    + eapply Forall_impl; [exact Hrows|]. simpl. intros r Hr Htag.
      destruct (Hr Htag) as [Ha _].
      apply String.eqb_eq in Htag. rewrite Htag. split; [exact Ha|reflexivity].
    + eexists _, _. split; [reflexivity|].
      cbn [monitored_channels set_db set_monitored_channels].
      split; [apply dict_get_set_eq|]. split; [exact Hact|].
      split; [now rewrite He | exact Hall].
  - set (st1 := match dict_get channel (monitored_channels st) with
                | Some meta0 =>
                    set_monitored_channels
                      (dict_set channel (with_last_id id meta0)) st
                | None => st
                end).
    assert (Hdb1 : db_pool st1 = Some db)
      by (subst st1; destruct (dict_get channel _); exact Hdb).
    assert (Hget1 : dict_get ch (monitored_channels st1) = Some meta).
    { subst st1. destruct (dict_get channel (monitored_channels st));
        [|exact Hget].
      cbn [monitored_channels set_monitored_channels].
      rewrite dict_get_set_ne; [exact Hget | congruence]. }
    rewrite Hdb1.
    destruct (update_channel_stored db channel ch
                (set_row_cursor id (clock st1))
                (fun r => is_active r = true
                          /\ last_message_id r = meta_last_id meta))
      as [He Hall]; [reflexivity| |].
    + eapply Forall_impl; [exact Hrows|]. simpl. intros r Hr Htag.
      destruct (String.eqb_spec (tag_channel r) channel) as [E|E];
        [congruence | now apply Hr].
    + exists (fst (update_channel db channel (set_row_cursor id (clock st1)))),
        meta.
      split; [reflexivity|]. split; [exact Hget1|]. split; [exact Hact|].
      split; [now rewrite He | exact Hall].
Qed.

Lemma monitor_message_stored (channel ch : string) (cidv : Z) (st : State)
  (c : Cycle) (msg : TgMessage) :
  cursor_stored st ch ->
  cursor_stored (fst (monitor_message channel cidv (st, c) msg)) ch.
Proof.
  intros Hst. unfold monitor_message.
  pose proof (save_kept st msg channel (Some cidv)) as (K & _ & Hc).
  destruct K as (_ & Hmon & _).
  destruct (_save_telethon_message st msg channel (Some cidv))
    as [st1 [ok types]]; cbn [fst snd] in Hmon, Hc |- *.
  pose proof (cursor_stored_kept st st1 ch Hmon Hc Hst) as H1.
  destruct ok; [|exact H1].
  destruct (_ && _); cbn [fst]; [|exact H1].
  now apply advance_cursor_stored.
Qed.

Lemma monitor_channel_stored (st : State) (transport : Transport)
  (channel ch : string) :
  cursor_stored st ch ->
  cursor_stored (fst (monitor_channel st transport channel)) ch.
Proof.
  intros Hst. unfold monitor_channel.
  destruct (dict_get channel (monitored_channels st)) as [meta|]; [|exact Hst].
  destruct (negb (meta_is_active meta)); [exact Hst|].
  destruct (transport channel) as [entity|]; [|exact Hst].
  assert (Hfold : forall msgs acc,
             cursor_stored (fst acc) ch ->
             cursor_stored
               (fst (fold_left (monitor_message channel (meta_channel_id meta))
                               msgs acc)) ch).
  { induction msgs as [|m msgs IH]; intros [s c] H; cbn [fold_left]; [exact H|].
    apply IH. now apply monitor_message_stored. }
  specialize (Hfold (iter_messages_since entity (meta_last_id meta))
                    (st, {| new_count := 0; content_counter := ∅;
                            handled := [] |}) Hst).
  destruct (fold_left _ _ _) as [st1 c1]; cbn [fst] in Hfold |- *.
  set (st2 := if negb (new_count c1 =? 0) && truthy (notification_chat_id st1)
              then send_message _ st1 else st1).
  assert (H2 : cursor_stored st2 ch).
  { subst st2. destruct (_ && _); [|exact Hfold].
    apply (cursor_stored_kept st1); [reflexivity | reflexivity | exact Hfold]. }
  destruct H2 as (db & meta2 & Hdb & Hget & Hact & Hex & Hrows).
  rewrite Hdb.
  destruct (update_channel_stored db channel ch (set_row_checked (clock st2))
              (fun r => is_active r = true
                        /\ last_message_id r = meta_last_id meta2))
    as [He Hall]; [reflexivity| |].
  - eapply Forall_impl; [exact Hrows|]. simpl. intros r Hr Htag.
    destruct (String.eqb (tag_channel r) channel); now apply Hr.
  - eexists _, meta2. split; [reflexivity|]. split; [exact Hget|].
    split; [exact Hact|]. split; [now rewrite He | exact Hall].
Qed.

Lemma monitor_turns_stored (ch : string) (turns : list (string * Transport)) :
  forall st,
    cursor_stored st ch -> cursor_stored (fst (monitor_turns st turns)) ch.
Proof.
  induction turns as [|[channel transport] turns IH]; intros st Hst;
    cbn [monitor_turns]; [exact Hst|].
  pose proof (monitor_channel_stored st transport channel ch Hst) as H1.
  destruct (monitor_channel st transport channel) as [st1 c]. cbn [fst] in H1.
  specialize (IH st1 H1). destruct (monitor_turns st1 turns) as [st2 cs].
  exact IH.
Qed.

(** The entry that [start] loads for a channel whose rows are active
    and have the same [last_message_id]. *)
Lemma load_channels_stored (ch : string) (last : Z) (rows : list ChannelRow) :
  Forall (fun r => tag_channel r = ch ->
                   is_active r = true /\ last_message_id r = last) rows ->
  forall st0,
    let st' :=
      fold_left
        (fun st r =>
           set_monitored_channels
             (dict_set (tag_channel r)
                {| meta_is_active := is_active r;
                   meta_last_id := last_message_id r;
                   meta_channel_id := channel_id r |}) st)
        rows st0 in
    if existsb (fun r => String.eqb (tag_channel r) ch) rows
    then exists meta,
           dict_get ch (monitored_channels st') = Some meta /\
           meta_is_active meta = true /\ meta_last_id meta = last
    else dict_get ch (monitored_channels st')
         = dict_get ch (monitored_channels st0).
Proof.
  induction rows as [|r rows IH] using rev_ind; intros Hrows st0;
    [reflexivity|].
  apply Forall_app in Hrows as [Hrows Hr]. apply Forall_cons_1 in Hr as [Hr _].
  specialize (IH Hrows st0). cbn zeta in IH |- *.
  rewrite fold_left_app, existsb_app. cbn [fold_left existsb].
  rewrite orb_false_r.
  cbn [monitored_channels set_monitored_channels].
  destruct (String.eqb_spec (tag_channel r) ch) as [E|E].
  - rewrite orb_true_r, E. destruct (Hr E) as [Ha Hl].
    eexists. rewrite dict_get_set_eq. split; [reflexivity|].
    split; [exact Ha | exact Hl].
  - rewrite orb_false_r.
    destruct (existsb _ rows).
    + destruct IH as (meta & Hget & H). exists meta.
      rewrite dict_get_set_ne by congruence. split; [exact Hget | exact H].
    + rewrite dict_get_set_ne by congruence. exact IH.
Qed.

(** X10.  The cursor survives a restart.  After a registration that
    succeeded, of a channel whose name fits the 50 characters of its
    column, and any turns of the monitor, for any channels and with
    the transport as it is at each of them, a process started anew on
    the same store loads the channel as active, with the cursor that
    the channel had in memory. *)
Theorem restart_resumes_from_cursor
  (st : State) (transport : Transport) (channel : string) (added_by : Z)
  (turns : list (string * Transport)) :
  sql_length channel <= 50 ->
  snd (_add_channel st transport channel added_by) = true ->
  let st1 := fst (_add_channel st transport channel added_by) in
  let st2 := fst (monitor_turns st1 turns) in
  exists meta,
    dict_get channel (monitored_channels (load_channels (new_process st2)))
    = Some meta
    /\ meta_is_active meta = true
    /\ meta_last_id meta = cursor st2 channel.
Proof.
  intros Hlen Hok st1 st2.
  pose proof (monitor_turns_stored channel turns st1
                (add_channel_stored _ _ _ _ Hlen Hok)) as Hst.
  fold st2 in Hst. destruct Hst as (db & meta & Hdb & Hget & Hact & Hex & Hrows).
  unfold load_channels, cursor.
  change (db_pool (new_process st2)) with (db_pool st2). rewrite Hdb, Hget.
  assert (Hactive : Forall (fun r => tag_channel r = channel ->
                                     is_active r = true /\
                                     last_message_id r = meta_last_id meta)
                           (List.filter is_active (channel_tbl db))).
  { apply List.Forall_forall. intros r Hin.
    apply filter_In in Hin as [Hin _].
    rewrite List.Forall_forall in Hrows. now apply Hrows. }
  pose proof (load_channels_stored channel (meta_last_id meta) _ Hactive
                (new_process st2)) as Hload.
  cbn zeta in Hload.
  assert (Hthere : existsb (fun r => String.eqb (tag_channel r) channel)
                           (List.filter is_active (channel_tbl db)) = true).
  { apply existsb_exists in Hex as (r & Hin & Htag).
    apply existsb_exists. exists r. split; [|exact Htag].
    apply filter_In. split; [exact Hin|].
    rewrite List.Forall_forall in Hrows. apply String.eqb_eq in Htag.
    now destruct (Hrows r Hin Htag). }
  rewrite Hthere in Hload. exact Hload.
Qed.

Lemma restart_resumes_from_cursor_witness :
  exists meta,
    dict_get "@chan"
      (monitored_channels
         (load_channels
            (new_process
               (fst (monitor_turns
                       (fst (_add_channel fresh_bot (channel_c [m100]) "@chan" 5))
                       [("@chan", channel_c [m102; m101; m100])])))))
    = Some meta
    /\ meta_is_active meta = true
    /\ meta_last_id meta
       = cursor
           (fst (monitor_turns
                   (fst (_add_channel fresh_bot (channel_c [m100]) "@chan" 5))
                   [("@chan", channel_c [m102; m101; m100])]))
           "@chan".
Proof.
  apply (restart_resumes_from_cursor fresh_bot (channel_c [m100]) "@chan" 5
           [("@chan", channel_c [m102; m101; m100])]).
  - vm_compute. discriminate.
  - reflexivity.
Defined.

(** ** The notification of a turn *)

Lemma advance_cursor_outbox (st : State) (channel : string) (id : Z) :
  outbox (advance_cursor st channel id) = outbox st
  /\ notification_chat_id (advance_cursor st channel id)
     = notification_chat_id st.
Proof.
  unfold advance_cursor.
  destruct (dict_get channel (monitored_channels st)); cbn [db_pool set_monitored_channels];
    destruct (db_pool st); split; reflexivity.
Qed.

Lemma monitor_message_count (channel : string) (cidv : Z) (st : State)
  (c : Cycle) (msg : TgMessage) :
  let r := monitor_message channel cidv (st, c) msg in
  outbox (fst r) = outbox st
  /\ notification_chat_id (fst r) = notification_chat_id st
  /\ new_count (snd r) - Z.of_nat (length (List.filter snd (handled (snd r))))
     = new_count c - Z.of_nat (length (List.filter snd (handled c))).
Proof.
  unfold monitor_message.
  pose proof (save_kept st msg channel (Some cidv)) as (K & _ & _).
  destruct K as (_ & _ & _ & Hchat & _ & _ & _ & Hout).
  destruct (_save_telethon_message st msg channel (Some cidv))
    as [st1 [ok types]]; cbn [fst snd] in Hchat, Hout |- *.
  destruct ok.
  - assert (Hc : new_count c + 1
                 - Z.of_nat (length (List.filter snd (handled c ++ [(msg, true)])))
                 = new_count c - Z.of_nat (length (List.filter snd (handled c)))).
    { rewrite List.filter_app, length_app. simpl. lia. }
    destruct (_ && _); cbn [fst snd new_count handled].
    + destruct (advance_cursor_outbox st1 channel (tg_id msg)) as [Ho Hn].
      rewrite Ho, Hn. repeat split; assumption.
    + repeat split; assumption.
  - cbn [fst snd new_count handled].
    rewrite List.filter_app, length_app. simpl. rewrite Nat.add_0_r.
    repeat split; assumption.
Qed.

(** X11.  A turn of the monitor for a channel sends at most one
    notification.  It sends one exactly when at least one message of
    the batch was processed with success and the chat to notify is set
    and not 0; the notification gives the number of these messages and
    the counter of the content types saved. *)
Theorem one_notification_per_turn
  (st : State) (transport : Transport) (channel : string) :
  match monitor_channel st transport channel with
  | (st', Some c) =>
      new_count c = Z.of_nat (length (List.filter snd (handled c)))
      /\ outbox st'
         = outbox st
           ++ (if negb (new_count c =? 0) && truthy (notification_chat_id st)
               then [ {| note_chat := default 0 (notification_chat_id st);
                         note_new_count := new_count c;
                         note_counter := content_counter c |} ]
               else [])
  | (st', None) => outbox st' = outbox st
  end.
Proof.
  unfold monitor_channel.
  destruct (dict_get channel (monitored_channels st)) as [meta|];
    [|reflexivity].
  destruct (negb (meta_is_active meta)); [reflexivity|].
  destruct (transport channel) as [entity|]; [|reflexivity].
  assert (Hfold : forall msgs acc,
             let r := fold_left (monitor_message channel (meta_channel_id meta))
                                msgs acc in
             outbox (fst r) = outbox (fst acc)
             /\ notification_chat_id (fst r) = notification_chat_id (fst acc)
             /\ new_count (snd r)
                - Z.of_nat (length (List.filter snd (handled (snd r))))
                = new_count (snd acc)
                  - Z.of_nat (length (List.filter snd (handled (snd acc))))).
  { induction msgs as [|m msgs IH]; intros [s c]; cbn [fold_left];
      [repeat split|].
    pose proof (monitor_message_count channel (meta_channel_id meta) s c m)
      as (H1 & H2 & H3).
    destruct (IH (monitor_message channel (meta_channel_id meta) (s, c) m))
      as (G1 & G2 & G3).
    cbn [fst snd] in *. repeat split; congruence. }
  specialize (Hfold (iter_messages_since entity (meta_last_id meta))
                    (st, {| new_count := 0; content_counter := ∅;
                            handled := [] |})).
  destruct (fold_left _ _ _) as [st1 c1]. cbn [fst snd] in Hfold.
  destruct Hfold as (Hout & Hchat & Hcount). cbn in Hcount.
  split; [lia|]. rewrite Hchat.
  destruct (negb (new_count c1 =? 0) && truthy (notification_chat_id st)).
  - destruct (db_pool (send_message _ st1));
      cbn [outbox set_db send_message]; now rewrite Hout.
  - destruct (db_pool st1); cbn [outbox set_db]; rewrite Hout;
      now rewrite app_nil_r.
Qed.

(** ** A medium that cannot be downloaded *)

Lemma save_media_unavailable st msg cid l :
  media_unavailable st msg ->
  save_media st msg cid l = (st, mark_processed l).
Proof.
  intros (d & Hm & H). unfold save_media. rewrite Hm.
  destruct (tg_client st); cbn [negb]; [|reflexivity].
  destruct H as [H | [-> | ->]]; [discriminate | reflexivity | reflexivity].
Qed.

Lemma save_unavailable st msg name cid_arg :
  nonempty (tg_message msg) = false ->
  media_unavailable st msg ->
  _save_telethon_message st msg name cid_arg
  = let r := reconcile st msg (resolve_channel_id st name cid_arg)
                       (mark_processed initial_locals) in
    (fst r, (true, [])).
Proof.
  intros Ht Hm. unfold _save_telethon_message.
  rewrite (save_text_absent _ _ _ _ Ht), (save_media_unavailable _ _ _ _ Hm).
  unfold note_empty. cbn [message_processed mark_processed set_flags negb andb].
  pose proof (reconcile_locals st msg (resolve_channel_id st name cid_arg)
                (mark_processed initial_locals)) as Hl.
  destruct (reconcile st msg _ _) as [st4 l4]. cbn [fst snd] in Hl |- *.
  destruct Hl as [-> | ->]; reflexivity.
Qed.

(** X12.  A message without text whose medium cannot be downloaded (no
    client, a download that raises or that gives no data) is reported
    as processed with no content type: no file, no fingerprint and no
    content row is stored for it.  In a turn of the monitor the cursor
    of the channel is then at least the id of the message, so that no
    later turn is handed the message again. *)
Theorem failed_download_is_passed_over
  (st : State) (msg : TgMessage) (channel : string) (cidv : Z)
  (c : Cycle) (meta : ChannelMeta) :
  nonempty (tg_message msg) = false ->
  media_unavailable st msg ->
  tg_id msg <> 0 ->
  dict_get channel (monitored_channels st) = Some meta ->
  let r := _save_telethon_message st msg channel (Some cidv) in
  let t := monitor_message channel cidv (st, c) msg in
  snd r = (true, [])
  /\ disk (fst r) = disk st
  /\ processed_content (fst r) = processed_content st
  /\ same_content_rows st (fst r)
  /\ tg_id msg <= cursor (fst t) channel
  /\ forall entity,
       ~ In msg (iter_messages_since entity (cursor (fst t) channel)).
Proof.
  intros Ht Hm Hid Hget r t.
  assert (Hr : r = (fst (reconcile st msg (Some cidv)
                           (mark_processed initial_locals)), (true, []))).
  { subst r. now rewrite (save_unavailable _ _ _ _ Ht Hm). }
  pose proof (reconcile_kept st msg (Some cidv) (mark_processed initial_locals))
    as (_ & _ & _ & Hpc & Hdisk).
  pose proof (reconcile_same_content st msg (Some cidv)
                (mark_processed initial_locals)) as Hrows.
  assert (Hcur : tg_id msg <= cursor (fst t) channel).
  { pose proof (monitor_message_cursor channel cidv st c msg) as (_ & Hc & _).
    fold r in Hc. rewrite Hr in Hc. cbn [fst snd] in Hc.
    destruct (Hc meta Hget) as (meta' & Hget' & _ & Hlast).
    subst t. unfold cursor. rewrite Hget', Hlast. unfold advance.
    cbn [fst snd]. apply Z.eqb_neq in Hid. rewrite Hid. cbn [negb andb].
    destruct (meta_last_id meta <? tg_id msg) eqn:E; [lia|].
    apply Z.ltb_ge in E. exact E. }
  rewrite Hr. cbn [fst snd].
  split; [reflexivity|]. split; [exact Hdisk|]. split; [exact Hpc|].
  split; [exact Hrows|]. split; [exact Hcur|].
  intros entity Hin. unfold iter_messages_since in Hin.
  apply filter_In in Hin as [_ Hin]. apply Z.ltb_lt in Hin. lia.
Qed.

Lemma failed_download_is_passed_over_witness :
  snd (_save_telethon_message registered m107 "@chan" (Some 1)) = (true, [])
  /\ disk (fst (_save_telethon_message registered m107 "@chan" (Some 1)))
     = disk registered
  /\ tg_id m107
     <= cursor (fst (monitor_message "@chan" 1 (registered, no_cycle) m107))
               "@chan".
Proof.
  assert (Hm : media_unavailable registered m107).
  { exists DownloadRaises. split; [reflexivity|]. right. now left. }
  assert (Hid : tg_id m107 <> 0) by discriminate.
  destruct (failed_download_is_passed_over registered m107 "@chan" 1 no_cycle
              {| meta_is_active := true; meta_last_id := 100;
                 meta_channel_id := 1 |} eq_refl Hm Hid eq_refl)
    as (Hres & Hdisk & _ & _ & Hcur & _).
  split; [exact Hres|]. split; [exact Hdisk | exact Hcur].
Defined.

(** ** The unified table stays consistent *)

Lemma unified_consistent_same (db db' : Database) :
  mc_tbl db' = mc_tbl db -> mc_seq db' = mc_seq db ->
  channel_tbl db' = channel_tbl db ->
  unified_consistent db -> unified_consistent db'.
Proof.
  unfold unified_consistent, channel_known. intros -> -> ->. tauto.
Qed.

Lemma hash_taken_omap (db : Database) (h : string) :
  hash_taken db (Some h) = false -> ~ In h (omap file_hash (mc_tbl db)).
Proof.
  unfold hash_taken. intros Hf Hin.
  apply list_elem_of_In, list_elem_of_omap in Hin as (r & Hin & Hr).
  apply list_elem_of_In in Hin.
  assert (Ht : existsb (fun r => bool_decide (file_hash r = Some h)) (mc_tbl db)
               = true).
  { apply existsb_exists. exists r. split; [exact Hin|].
    now apply bool_decide_eq_true. }
  congruence.
Qed.

Lemma omap_snoc {A B} (f : A -> option B) (l : list A) (x : A) :
  omap f (l ++ [x]) = omap f l ++ match f x with Some y => [y] | None => [] end.
Proof.
  rewrite omap_app. simpl. now destruct (f x).
Qed.

(** An [INSERT] into [message_channel] for a key that has no record. *)
Lemma insert_message_channel_consistent (db : Database)
  (row : Z -> MessageChannelRow) :
  message_id (row (mc_seq db)) = mc_seq db ->
  (forall cid tmid,
      same_key cid tmid (row (mc_seq db)) = true ->
      records_for cid tmid (mc_tbl db) = []) ->
  unified_consistent db ->
  unified_consistent (fst (insert_message_channel db row)).
Proof.
  intros Hkey Hfree (Hseq & Hids & Hnd & Hone & Hhash & Hfk).
  assert (Hburnt : unified_consistent (with_mc db (mc_tbl db) (mc_seq db + 1))).
  { unfold unified_consistent, channel_known.
    cbn [mc_tbl mc_seq channel_tbl with_mc]. repeat split; try assumption;
      [lia|]. eapply Forall_impl; [exact Hids|]. simpl. intros; lia. }
  unfold insert_message_channel. set (r := row (mc_seq db)) in *.
  destruct (channel_known db (mc_channel_id r)) eqn:Hknown; cbn [andb];
    [|exact Hburnt].
  destruct (hash_taken db (file_hash r)) eqn:Htaken; cbn [negb andb];
    [exact Hburnt|].
  destruct (match file_hash r with
            | Some h => sql_length h <=? 64
            | None => true
            end); cbn [fst]; [|exact Hburnt].
  unfold unified_consistent, channel_known.
  cbn [mc_tbl mc_seq channel_tbl with_mc].
  split; [lia|]. split; [|split; [|split; [|split]]].
  - apply Forall_app. split.
    + eapply Forall_impl; [exact Hids|]. simpl. intros; lia.
    + repeat constructor; lia.
  - rewrite map_app. apply NoDup_app. split; [exact Hnd|]. split.
    + intros k Hk Hr. apply list_elem_of_In in Hk, Hr.
      destruct Hr as [<- | []]. apply in_map_iff in Hk as (x & Hx & Hin).
      rewrite List.Forall_forall in Hids. specialize (Hids x Hin). lia.
    + apply NoDup_singleton.
  - intros cid tmid. unfold records_for. rewrite List.filter_app, length_app.
    cbn [List.filter]. destruct (same_key cid tmid r) eqn:Hk.
    + fold (records_for cid tmid (mc_tbl db)).
      rewrite (Hfree cid tmid Hk). simpl. lia.
    + specialize (Hone cid tmid). unfold records_for in Hone. simpl. lia.
  - rewrite omap_snoc. destruct (file_hash r) as [h|] eqn:Hh.
    + apply NoDup_app. split; [exact Hhash|]. split.
      * intros x Hx Hr. apply list_elem_of_In in Hx, Hr.
        destruct Hr as [<- | []]. now apply (hash_taken_omap db h).
      * apply NoDup_singleton.
    + now rewrite app_nil_r.
  - apply Forall_app. split; [exact Hfk|]. repeat constructor. exact Hknown.
Qed.

Lemma same_key_unified_row (l : Locals) (cid tmid created key cid' tmid' : Z) :
  same_key cid' tmid' (unified_row l cid tmid created key) = true ->
  cid' = cid /\ tmid' = tmid.
Proof.
  unfold same_key. cbn [unified_row telegram_message_id mc_channel_id].
  intros H. apply andb_true_iff in H as [H1 H2].
  apply bool_decide_eq_true in H1. apply Z.eqb_eq in H2.
  split; congruence.
Qed.

Lemma reconcile_consistent st msg cid l db :
  db_pool st = Some db ->
  unified_consistent db ->
  exists db',
    db_pool (fst (reconcile st msg cid l)) = Some db'
    /\ unified_consistent db'.
Proof.
  intros Hdb Hcons. unfold reconcile, db_ready. rewrite Hdb.
  destruct cid as [c|]; [|eauto].
  destruct (c =? 0); [eauto|].
  destruct (tg_id msg =? 0); [eauto|].
  destruct (truthy (select_existing db (tg_id msg) c)) eqn:Eex; [eauto|].
  assert (Hnone : records_for c (tg_id msg) (mc_tbl db) = []).
  { destruct (records_for c (tg_id msg) (mc_tbl db)) eqn:E; [reflexivity|].
    rewrite select_existing_found in Eex; [discriminate| |].
    - destruct Hcons as (_ & Hids & _). eapply Forall_impl; [exact Hids|].
      simpl. intros; lia.
    - rewrite E. discriminate. }
  destruct (_normalize_datetime st (tg_date msg)) as [st1 creation].
  pose proof (insert_message_channel_consistent db
                (unified_row l c (tg_id msg) (dt_wall creation))) as Hins.
  destruct (insert_message_channel db _) as [db' ok]. cbn [fst] in Hins.
  assert (Hdb' : unified_consistent db').
  { apply Hins; [reflexivity| |exact Hcons].
    intros cid' tmid' Hk. apply same_key_unified_row in Hk as [-> ->].
    exact Hnone. }
  destruct ok; exists db'; split; try reflexivity; exact Hdb'.
Qed.

(** X13.  Whatever the message and the channel, a call of
    [_save_telethon_message] on a connected store keeps the unified
    table consistent: keys from the sequence, at most one record for a
    (channel, platform message id), no fingerprint held by two
    records, and no record without its row of [channel]. *)
Theorem save_keeps_unified_consistent
  (st : State) (msg : TgMessage) (name : string) (cid_arg : option Z)
  (db : Database) :
  db_pool st = Some db ->
  unified_consistent db ->
  exists db',
    db_pool (fst (_save_telethon_message st msg name cid_arg)) = Some db'
    /\ unified_consistent db'.
Proof.
  intros Hdb Hcons. unfold _save_telethon_message.
  set (c := resolve_channel_id st name cid_arg).
  assert (Hkeep : forall st',
             channels_of st' = channels_of st ->
             unified_of st' = unified_of st ->
             exists db', db_pool st' = Some db' /\ unified_consistent db').
  { unfold channels_of, unified_of. rewrite Hdb. intros st' Hc Hu.
    destruct (db_pool st') as [db'|]; [|discriminate].
    cbn in Hc, Hu. injection Hc as Hc. injection Hu as Hu1 Hu2.
    exists db'. split; [reflexivity|].
    now apply (unified_consistent_same db db'). }
  pose proof (save_text_kept st msg c initial_locals) as Ht.
  destruct (save_text st msg c initial_locals) as [st1 [l1|]]; cbn [fst] in Ht.
  2:{ destruct Ht as (_ & _ & C & U). cbn [fst]. now apply Hkeep. }
  pose proof (save_media_kept st1 msg c l1) as Hm.
  destruct (save_media st1 msg c l1) as [st2 l2]; cbn [fst] in Hm.
  pose proof (note_empty_kept st2 msg l2) as He.
  destruct (note_empty st2 msg l2) as [st3 l3]; cbn [fst] in He.
  destruct Ht as (_ & _ & C1 & U1), Hm as (_ & _ & C2 & U2),
    He as (_ & _ & C3 & U3 & _).
  destruct (Hkeep st3) as (db3 & Hdb3 & Hcons3); [congruence | congruence|].
  pose proof (reconcile_consistent st3 msg c l3 db3 Hdb3 Hcons3) as Hr.
  destruct (reconcile st3 msg c l3) as [st4 l4]. exact Hr.
Qed.

Lemma save_keeps_unified_consistent_witness :
  exists db',
    db_pool (fst (_save_telethon_message after_101 m102 "@chan" (Some 1)))
    = Some db'
    /\ unified_consistent db'.
Proof.
  apply (save_keeps_unified_consistent after_101 m102 "@chan" (Some 1)
           after_101_db).
  - vm_compute. reflexivity.
  - unfold unified_consistent.
    split; [vm_compute; reflexivity|].
    split; [vm_compute; repeat constructor|].
    split; [vm_compute; repeat constructor; intros H; inversion H|].
    split; [|split; [vm_compute; repeat constructor; intros H; inversion H
                    |vm_compute; repeat constructor]].
    intros cid tmid. unfold records_for.
    etransitivity; [apply List.filter_length_le|].
    vm_compute. apply le_n.
Defined.

(** ** [fetch_last_messages] *)

Lemma extract_newest_length (msgs : list TgMessage) n rest :
  extract_newest msgs = Some (n, rest) -> length msgs = S (length rest).
Proof.
  revert n rest. induction msgs as [|m ms IH]; intros n rest; simpl;
    [discriminate|].
  destruct (extract_newest ms) as [[n0 rest0]|] eqn:E.
  - specialize (IH _ _ eq_refl).
    destruct (tg_id m <? tg_id n0); intros [= <- <-]; simpl; congruence.
  - destruct ms; [|simpl in E; destruct (extract_newest ms) as [[? ?]|];
                     try destruct (_ <? _); discriminate].
    now intros [= <- <-].
Qed.

Lemma iter_messages_limit_length (limit : nat) :
  forall msgs,
    (length (iter_messages_limit limit msgs) <= limit)%nat
    /\ (length (iter_messages_limit limit msgs) <= length msgs)%nat.
Proof.
  induction limit as [|k IH]; intros msgs; simpl; [lia|].
  destruct (extract_newest msgs) as [[n rest]|] eqn:E; simpl; [|lia].
  apply extract_newest_length in E. specialize (IH rest). lia.
Qed.

Lemma fetch_message_frame channel cid acc msg :
  let acc' := fetch_message channel cid acc msg in
  kept (fst acc) (fst acc')
  /\ channels_of (fst acc') = channels_of (fst acc)
  /\ snd acc <= snd acc' <= snd acc + 1.
Proof.
  destruct acc as [st n]. unfold fetch_message.
  pose proof (save_kept st msg channel (Some cid)) as H.
  destruct (_save_telethon_message st msg channel (Some cid))
    as [st' [success types]].
  cbn [fst snd] in *. destruct H as (K & _ & C).
  repeat split; try apply K; try exact C; destruct success; lia.
Qed.

Lemma fetch_fold_frame channel cid msgs :
  forall acc,
    let acc' := fold_left (fetch_message channel cid) msgs acc in
    kept (fst acc) (fst acc')
    /\ channels_of (fst acc') = channels_of (fst acc)
    /\ snd acc <= snd acc' <= snd acc + Z.of_nat (length msgs).
Proof.
  induction msgs as [|m ms IH]; intros acc; cbn [fold_left length].
  - split; [apply kept_refl|]. split; [reflexivity|lia].
  - specialize (IH (fetch_message channel cid acc m)).
    pose proof (fetch_message_frame channel cid acc m) as H.
    cbv zeta in IH, H. destruct IH as (K2 & C2 & N2), H as (K1 & C1 & N1).
    split; [eapply kept_trans; eassumption|].
    split; [congruence|lia].
Qed.

Lemma channels_of_some st db rows :
  db_pool st = Some db -> channels_of st = Some rows -> channel_tbl db = rows.
Proof. unfold channels_of. intros ->. simpl. congruence. Qed.

(** What a fetch does to the table of channels: nothing, or one new
    row that is inactive. *)
Lemma fetch_channel_rows st transport channel limit db :
  db_pool st = Some db ->
  exists db',
    db_pool (fst (fetch_last_messages st transport channel limit)) = Some db'
    /\ (channel_tbl db' = channel_tbl db
        \/ select_channel_id db channel = None
           /\ exists row,
               channel_tbl db' = channel_tbl db ++ [row]
               /\ varchar 50 channel = Some (tag_channel row)
               /\ (sql_length channel <= 50 -> tag_channel row = channel)
               /\ is_active row = false
               /\ last_message_id row = 0).
Proof.
  intros Hdb. unfold fetch_last_messages.
  destruct (tg_client st); cbn [negb]; [|eauto].
  destruct (transport channel) as [entity|]; [|eauto].
  rewrite Hdb.
  assert (Hfold : forall cid s0 d0,
             db_pool s0 = Some d0 ->
             exists db',
               db_pool (fst (fold_left (fetch_message channel cid)
                               (iter_messages_limit limit (ent_messages entity))
                               (s0, 0))) = Some db'
               /\ channel_tbl db' = channel_tbl d0).
  { intros cid s0 d0 Hs0.
    pose proof (fetch_fold_frame channel cid
                  (iter_messages_limit limit (ent_messages entity)) (s0, 0))
      as (_ & C & _).
    cbn [fst] in C. unfold channels_of in C. rewrite Hs0 in C.
    destruct (db_pool (fst (fold_left _ _ _))) as [db'|]; [|discriminate].
    exists db'. split; [reflexivity|]. simpl in C. congruence. }
  destruct (select_channel_id db channel) as [cid|] eqn:Hsel.
  - destruct (Hfold cid st db Hdb) as (db' & H1 & H2). eauto.
  - unfold insert_channel.
    destruct (varchar 50 channel) as [tag|] eqn:Htag;
      [|eexists; split; [reflexivity|]; now left].
    destruct (length_checked tag && length_checked tag).
    + match goal with
      | |- context [set_db ?d st] =>
          destruct (Hfold (channel_seq db) (set_db d st) d eq_refl)
            as (db' & H1 & H2)
      end.
      exists db'. split; [exact H1|]. right. split; [reflexivity|].
      eexists. split; [exact H2|]. cbn [tag_channel is_active last_message_id].
      repeat split.
      intros Hlen. unfold varchar in Htag.
      destruct (has_nul channel); [discriminate|].
      apply Z.leb_le in Hlen. rewrite Hlen in Htag. congruence.
    + eexists. split; [reflexivity|]. now left.
Qed.

(** What a fetch keeps, and the bounds of its count. *)
Lemma fetch_kept_count st transport channel limit :
  let result := fetch_last_messages st transport channel limit in
  kept st (fst result)
  /\ 0 <= snd result <= Z.of_nat limit
  /\ (forall entity, transport channel = Some entity ->
        snd result <= Z.of_nat (length (ent_messages entity))).
Proof.
  cbv zeta. split; [|split].
  all: unfold fetch_last_messages.
  all: destruct (tg_client st); cbn [negb];
    [|cbn [fst snd]; try apply kept_refl; intros; lia].
  all: destruct (transport channel) as [entity|];
    [|cbn [fst snd]; try apply kept_refl; intros; try discriminate; lia].
  all: destruct (db_pool st) as [db|];
    [|cbn [fst snd]; try apply kept_refl; intros; lia].
  all: pose proof (iter_messages_limit_length limit (ent_messages entity))
    as [Hl1 Hl2].
  all: destruct (select_channel_id db channel) as [cid|].
  all: try (destruct (insert_channel db channel channel false 0 0 (clock st))
             as [db1 [cid|]]).
  all: try match goal with
         | |- context [fold_left (fetch_message ?ch ?c) ?ms ?a] =>
             pose proof (fetch_fold_frame ch c ms a) as (K & _ & N);
             cbn [fst snd] in K, N
         end.
  all: cbn [fst snd].
  all: try (intros e [= <-]).
  all: try lia.
  all: try exact K.
  all: try (eapply kept_trans; [|exact K]).
  all: repeat split.
Qed.

(** X14.  A fetch changes nothing of what is monitored: the entries of
    [monitored_channels] with their cursors, the client, the timers and
    the notifications sent are as before, and so are the rows of
    [channel], but for one new row, inactive and with cursor 0, when
    the store did not know the channel; the tag of that row is the
    channel as the column takes it, the channel itself when it has at
    most 50 characters.  The count returned is between 0 and the limit,
    and at most the number of messages of the channel. *)
Theorem fetch_leaves_monitoring
  (st : State) (transport : Transport) (channel : string) (limit : nat) :
  let result := fetch_last_messages st transport channel limit in
  kept st (fst result)
  /\ 0 <= snd result <= Z.of_nat limit
  /\ (forall entity, transport channel = Some entity ->
        snd result <= Z.of_nat (length (ent_messages entity)))
  /\ (forall db, db_pool st = Some db ->
        exists db',
          db_pool (fst result) = Some db'
          /\ (channel_tbl db' = channel_tbl db
              \/ select_channel_id db channel = None
                 /\ exists row,
                     channel_tbl db' = channel_tbl db ++ [row]
                     /\ varchar 50 channel = Some (tag_channel row)
                     /\ (sql_length channel <= 50 ->
                         tag_channel row = channel)
                     /\ is_active row = false
                     /\ last_message_id row = 0)).
Proof.
  cbv zeta.
  destruct (fetch_kept_count st transport channel limit) as (K & N & L).
  split; [exact K|]. split; [exact N|]. split; [exact L|].
  intros db Hdb. now apply fetch_channel_rows.
Qed.

(** X15.  A channel that the store did not know and that was only
    fetched is not monitored by the process that starts next on the
    same store: the row that the fetch made for it is inactive, and
    [start] loads the active rows only. *)
Theorem fetched_channel_stays_unmonitored
  (st : State) (transport : Transport) (channel : string) (limit : nat)
  (db : Database) :
  db_pool st = Some db ->
  select_channel_id db channel = None ->
  let st' := fst (fetch_last_messages st transport channel limit) in
  dict_get channel (monitored_channels (load_channels (new_process st')))
  = None.
Proof.
  intros Hdb Hsel st'.
  destruct (fetch_channel_rows st transport channel limit db Hdb)
    as (db' & Hdb' & Hrows).
  apply (inactive_channel_not_loaded st' db' channel Hdb').
  assert (Hold : Forall (fun r => tag_channel r = channel -> is_active r = false)
                   (channel_tbl db)).
  { unfold select_channel_id in Hsel.
    destruct (List.find _ (channel_tbl db)) eqn:Hfind; [discriminate|].
    apply find_tag_none in Hfind. eapply Forall_impl; [exact Hfind|].
    simpl. intros r Hne Heq. contradiction. }
  destruct Hrows as [-> | (_ & row & -> & _ & _ & Hoff & _)]; [exact Hold|].
  apply Forall_app. split; [exact Hold|]. repeat constructor.
  intros _. exact Hoff.
Qed.

Lemma fetched_channel_stays_unmonitored_witness :
  dict_get "@chan"
    (monitored_channels
       (load_channels
          (new_process
             (fst (fetch_last_messages fresh_bot (channel_c [m101; m100])
                     "@chan" 2)))))
  = None.
Proof.
  apply (fetched_channel_stays_unmonitored fresh_bot (channel_c [m101; m100])
           "@chan" 2 empty_db); reflexivity.
Defined.

(** ** The stop buttons and their callback *)






Lemma dict_set_keys {V} (k : string) (v v0 : V) (d : list (string * V)) :
  dict_get k d = Some v0 -> map fst (dict_set k v d) = map fst d.
Proof.
  induction d as [|[k' v'] d IH]; simpl; [discriminate|].
  destruct (String.eqb k' k) eqn:E.
  - apply String.eqb_eq in E. subst. reflexivity.
  - intros H. simpl. f_equal. now apply IH.
Qed.

Lemma keyboard_data_of_keys (st st' : State) :
  map fst (monitored_channels st') = map fst (monitored_channels st) ->
  map (map callback_data) (_list_inline_keyboard st')
  = map (map callback_data) (_list_inline_keyboard st).
Proof.
  unfold _list_inline_keyboard.
  generalize (monitored_channels st) as d, (monitored_channels st') as d'.
  intros d d' Hkeys.
  assert (Hrows : forall d1 d2 : list (string * ChannelMeta),
             map fst d1 = map fst d2 ->
             map (map callback_data)
               (map (fun entry : string * ChannelMeta =>
                       let '(channel, meta) := entry in
                       let state : string :=
                         if meta_is_active meta then "🟢" else "🔴" in
                       [ {| button_text := state +:+ " " +:+ channel;
                            callback_data := "noop|" +:+ channel |};
                         {| button_text := "⏹ Stop";
                            callback_data := "stop|" +:+ channel |} ]) d1)
             = map (map callback_data)
                 (map (fun entry : string * ChannelMeta =>
                         let '(channel, meta) := entry in
                         let state : string :=
                           if meta_is_active meta then "🟢" else "🔴" in
                         [ {| button_text := state +:+ " " +:+ channel;
                              callback_data := "noop|" +:+ channel |};
                           {| button_text := "⏹ Stop";
                              callback_data := "stop|" +:+ channel |} ]) d2)).
  { induction d1 as [|[k1 m1] d1 IH]; intros [|[k2 m2] d2]; simpl;
      try discriminate; [reflexivity|].
    intros [= -> Hrest]. f_equal. now apply IH. }
  specialize (Hrows d' d Hkeys).
  destruct d as [|[k m] d], d' as [|[k' m'] d']; try discriminate;
    [reflexivity|exact Hrows].
Qed.

(** X17.  Stopping removes nothing from the list: after [_stop_channel],
    whether it succeeds or not, [monitored_channels] has the same
    channels in the same order, the entries of the other channels are
    as before, and the keyboard has the same buttons with the same
    callbacks. *)
Theorem stop_keeps_the_list (st : State) (channel : string) :
  let st' := fst (_stop_channel st channel) in
  map fst (monitored_channels st') = map fst (monitored_channels st)
  /\ (forall other,
         other <> channel ->
         dict_get other (monitored_channels st')
         = dict_get other (monitored_channels st))
  /\ map (map callback_data) (_list_inline_keyboard st')
     = map (map callback_data) (_list_inline_keyboard st).
Proof.
  cbv zeta.
  assert (Hkeys : map fst (monitored_channels (fst (_stop_channel st channel)))
                  = map fst (monitored_channels st)
                  /\ forall other,
                      other <> channel ->
                      dict_get other
                        (monitored_channels (fst (_stop_channel st channel)))
                      = dict_get other (monitored_channels st)).
  { unfold _stop_channel.
    destruct (db_pool st) as [db|].
    - destruct (update_channel db channel _) as [db' n].
      destruct (bool_decide (n = O)); cbn [fst];
        [split; reflexivity|].
      change (monitored_channels (set_db db' st)) with (monitored_channels st).
      destruct (dict_get channel (monitored_channels st)) as [meta|] eqn:E;
        [|split; reflexivity].
      cbn. split; [now apply (dict_set_keys _ _ meta)|].
      intros other Hne. apply dict_get_set_ne. congruence.
    - cbn [fst].
      destruct (dict_get channel (monitored_channels st)) as [meta|] eqn:E;
        [|split; reflexivity].
      cbn. split; [now apply (dict_set_keys _ _ meta)|].
      intros other Hne. apply dict_get_set_ne. congruence. }
  destruct Hkeys as [Hk Ho]. split; [exact Hk|]. split; [exact Ho|].
  now apply keyboard_data_of_keys.
Qed.

(** ** The channel named by a command *)

Lemma strip_prefix_contains (c : ascii) (p : string) :
  contains c p = true ->
  forall s r, strip_prefix p s = Some r -> contains c s = true.
Proof.
  induction p as [|a p IH]; simpl; [discriminate|].
  intros Hc [|b s] r; simpl; [discriminate|].
  destruct (Ascii.eqb a b) eqn:Eab; [|discriminate].
  apply Ascii.eqb_eq in Eab. subst b. intros Hs.
  destruct (Ascii.eqb a c); [reflexivity|]. simpl in *.
  eapply IH; eassumption.
Qed.

Lemma startswith_without (c : ascii) (p s : string) :
  contains c p = true -> contains c s = false -> startswith p s = false.
Proof.
  intros Hp Hs. unfold startswith.
  destruct (strip_prefix p s) as [r|] eqn:E; [|reflexivity].
  rewrite (strip_prefix_contains c p Hp s r E) in Hs. discriminate.
Qed.

Lemma remove_all_without (c : ascii) (old s : string) :
  contains c old = true -> contains c s = false -> remove_all old s = s.
Proof.
  intros Hold. unfold remove_all.
  induction s as [|a s IH]; [reflexivity|].
  intros Hs. cbn [remove_from].
  destruct (strip_prefix old (String a s)) as [r|] eqn:E.
  - rewrite (strip_prefix_contains c old Hold _ r E) in Hs. discriminate.
  - f_equal. apply IH. simpl in Hs. now apply orb_false_iff in Hs.
Qed.

Lemma split_once_without (c : ascii) (s : string) :
  contains c s = false -> split_once (String c EmptyString) s = None.
Proof.
  induction s as [|a s IH]; [reflexivity|].
  simpl. intros Hs. apply orb_false_iff in Hs as [Ha Hs].
  rewrite Ascii.eqb_sym, Ha. now rewrite IH.
Qed.

Lemma split_once_at (c : ascii) (s post : string) :
  contains c s = false ->
  split_once (String c EmptyString) (s +:+ String c post) = Some (s, post).
Proof.
  induction s as [|a s IH].
  - intros _. simpl. now rewrite Ascii.eqb_refl.
  - simpl. intros Hs. apply orb_false_iff in Hs as [Ha Hs].
    rewrite Ascii.eqb_sym, Ha. now rewrite (IH Hs).
Qed.

Lemma with_at_plain (name : string) :
  startswith "@" name = false -> with_at name = "@" +:+ name.
Proof. unfold with_at. now intros ->. Qed.

Lemma strip_prefix_sep (c : ascii) (q : string) :
  contains c q = false ->
  forall s post r,
    contains c s = false ->
    strip_prefix (q +:+ String c EmptyString) (s +:+ String c post) = Some r ->
    s = q.
Proof.
  induction q as [|b q IH]; intros Hq [|a s] post r Hs; simpl.
  - reflexivity.
  - simpl in Hs. apply orb_false_iff in Hs as [Ha _].
    rewrite Ascii.eqb_sym, Ha. discriminate.
  - simpl in Hq. apply orb_false_iff in Hq as [Hb _]. rewrite Hb.
    discriminate.
  - simpl in Hq, Hs. apply orb_false_iff in Hq as [_ Hq].
    apply orb_false_iff in Hs as [_ Hs].
    destruct (Ascii.eqb b a) eqn:E; [|discriminate].
    apply Ascii.eqb_eq in E. subst. intros H. f_equal.
    now apply (IH Hq s post r).
Qed.

Lemma collect_target_link (tail : string) :
  collect_target ("https://t.me/" +:+ tail)
  = (if startswith "+" tail
     then TargetInvite (first_part "/" (drop_first tail))
     else if startswith "joinchat/" tail then
       match split_once "/" tail with
       | Some (_, rest) => TargetInvite (first_part "/" rest)
       | None => TargetError
       end
     else if startswith "c/" tail then TargetPrivate
     else TargetChannel (with_at ("@" +:+ first_part "/" tail)))
  /\ collect_target ("http://t.me/" +:+ tail)
     = collect_target ("https://t.me/" +:+ tail)
  /\ collect_target ("@https://t.me/" +:+ tail)
     = collect_target ("https://t.me/" +:+ tail)
  /\ collect_target ("@http://t.me/" +:+ tail)
     = collect_target ("https://t.me/" +:+ tail).
Proof. repeat split. Qed.

(** The channel that each command makes of a spelling, once the
    argument is stripped. *)
Lemma spelling_targets (name : string) :
  contains "/" name = false ->
  startswith "@" name = false ->
  startswith "+" name = false ->
  let target := "@" +:+ name in
  (collect_target name = TargetChannel target
   /\ collect_target ("@" +:+ name) = TargetChannel target
   /\ collect_target ("https://t.me/" +:+ name) = TargetChannel target
   /\ collect_target ("http://t.me/" +:+ name) = TargetChannel target
   /\ collect_target ("@https://t.me/" +:+ name) = TargetChannel target)
  /\ (stop_target name = target
      /\ stop_target ("@" +:+ name) = target
      /\ stop_target ("https://t.me/" +:+ name) = target
      /\ stop_target ("@https://t.me/" +:+ name) = target
      /\ stop_target ("http://t.me/" +:+ name) = "@http://t.me/" +:+ name)
  /\ (fetch_target name = target
      /\ fetch_target ("@" +:+ name) = target
      /\ fetch_target ("https://t.me/" +:+ name) = target
      /\ fetch_target ("http://t.me/" +:+ name) = "@http://t.me/" +:+ name
      /\ fetch_target ("@https://t.me/" +:+ name)
         = "@https://t.me/" +:+ name).
Proof.
  intros Hslash Hat Hplus target.
  assert (S1 : startswith "@http://" name = false)
    by now apply (startswith_without "/").
  assert (S2 : startswith "@https://" name = false)
    by now apply (startswith_without "/").
  assert (S3 : startswith "https://t.me/" name = false)
    by now apply (startswith_without "/").
  assert (S4 : startswith "http://t.me/" name = false)
    by now apply (startswith_without "/").
  assert (S5 : startswith "http://" name = false)
    by now apply (startswith_without "/").
  assert (S6 : startswith "https://" name = false)
    by now apply (startswith_without "/").
  assert (S7 : startswith "joinchat/" name = false)
    by now apply (startswith_without "/").
  assert (S8 : startswith "c/" name = false)
    by now apply (startswith_without "/").
  assert (S9 : startswith "ttps://t.me/" name = false)
    by now apply (startswith_without "/").
  assert (S10 : startswith "ttp://t.me/" name = false)
    by now apply (startswith_without "/").
  assert (R : remove_all "https://t.me/" name = name)
    by now apply (remove_all_without "/").
  assert (F : first_part "/" name = name)
    by (unfold first_part; now rewrite (split_once_without "/" name Hslash)).
  assert (A1 : forall s, startswith "@http://" ("@" +:+ s) = startswith "http://" s)
    by reflexivity.
  assert (A2 : forall s, startswith "@https://" ("@" +:+ s) = startswith "https://" s)
    by reflexivity.
  assert (A3 : forall s, startswith "https://t.me/" ("@" +:+ s) = false)
    by reflexivity.
  assert (A4 : forall s, startswith "http://t.me/" ("@" +:+ s) = false)
    by reflexivity.
  assert (A5 : forall s, with_at ("@" +:+ s) = "@" +:+ s) by reflexivity.
  destruct (collect_target_link name) as (E1 & E2 & E3 & _).
  assert (Hlink : collect_target ("https://t.me/" +:+ name)
                  = TargetChannel target)
    by (rewrite E1, Hplus, S7, S8, F; reflexivity).
  split; [|split].
  - split; [|split; [|split; [|split]]].
    + unfold collect_target, drop_stray_at. rewrite S1, S2. cbn [orb].
      rewrite S3, S4. cbn [orb]. now rewrite with_at_plain.
    + unfold collect_target, drop_stray_at. rewrite A1, A2, S5, S6. cbn [orb].
      rewrite A3, A4. reflexivity.
    + exact Hlink.
    + now rewrite E2.
    + now rewrite E3.
  - split; [|split; [|split; [|split]]].
    + unfold stop_target, drop_stray_at. rewrite S1, S2. cbn [orb].
      rewrite S3. now apply with_at_plain.
    + unfold stop_target, drop_stray_at. rewrite A1, A2, S5, S6. cbn [orb].
      rewrite A3. reflexivity.
    + transitivity (with_at (remove_all "https://t.me/" name));
        [reflexivity|]. rewrite R. now apply with_at_plain.
    + transitivity (with_at (remove_all "https://t.me/" name));
        [reflexivity|]. rewrite R. now apply with_at_plain.
    + reflexivity.
  - split; [|split; [|split; [|split]]].
    + unfold fetch_target. rewrite S3. now apply with_at_plain.
    + unfold fetch_target. rewrite A3. reflexivity.
    + transitivity (with_at (remove_all "https://t.me/" name));
        [reflexivity|]. rewrite R. now apply with_at_plain.
    + reflexivity.
    + reflexivity.
Qed.

(** What each command does once the target of its stripped argument
    is known. *)
Lemma cmd_collect_channel st transport join a user target :
  nonempty a = true ->
  collect_target (strip a) = TargetChannel target ->
  cmd_collect st transport join (Some a) user
  = if tg_client st
    then (fst (_add_channel st transport target user),
          if snd (_add_channel st transport target user)
          then CollectAdded target else CollectNotAdded target)
    else (st, CollectNoClient).
Proof.
  intros Ha Ht. unfold cmd_collect. rewrite Ha, Ht. cbn [negb].
  destruct (tg_client st); cbn [negb]; [|reflexivity].
  destruct (_add_channel st transport target user) as [st' [|]]; reflexivity.
Qed.

Lemma cmd_collect_invite st transport join a user invite :
  nonempty a = true ->
  collect_target (strip a) = TargetInvite invite ->
  cmd_collect st transport join (Some a) user
  = (st, if tg_client st && join invite
         then CollectJoined invite else CollectJoinFailed invite).
Proof.
  intros Ha Ht. unfold cmd_collect. rewrite Ha, Ht. cbn [negb].
  destruct (tg_client st && join invite); reflexivity.
Qed.

Lemma cmd_collect_private st transport join a user :
  nonempty a = true ->
  collect_target (strip a) = TargetPrivate ->
  cmd_collect st transport join (Some a) user = (st, CollectPrivateLink).
Proof. intros Ha Ht. unfold cmd_collect. now rewrite Ha, Ht. Qed.

Lemma cmd_stop_channel st a target :
  nonempty a = true ->
  stop_target (strip a) = target ->
  cmd_stop st (Some a)
  = (fst (_stop_channel st target),
     if snd (_stop_channel st target)
     then StopDone target else StopNotFound target).
Proof.
  intros Ha Ht. unfold cmd_stop. rewrite Ha, Ht. cbn [negb].
  destruct (_stop_channel st target) as [st' [|]]; reflexivity.
Qed.

Lemma cmd_fetch_channel st transport a target :
  nonempty a = true ->
  fetch_target (strip a) = target ->
  cmd_fetch st transport (Some a)
  = if tg_client st
    then (fst (fetch_last_messages st transport target 2),
          if 0 <? snd (fetch_last_messages st transport target 2)
          then FetchSaved (snd (fetch_last_messages st transport target 2))
          else FetchNothing)
    else (st, FetchNoClient).
Proof.
  intros Ha Ht. unfold cmd_fetch. rewrite Ha, Ht. cbn [negb].
  destruct (tg_client st); cbn [negb]; [|reflexivity].
  destruct (fetch_last_messages st transport target 2) as [st' saved].
  reflexivity.
Qed.

(** X18.  The commands take a channel in several spellings.  Let the
    argument of the command, stripped of the whitespace around it, be a
    spelling of a name that has no [/] and no U+0000 and does not start
    with [@] or [+].  [/collect] registers [@name], or reports that there is no
    client, when the spelling is the bare name, the name with [@], the
    [https://t.me/] or [http://t.me/] link, or such a link with a stray
    [@] in front.  [/stop] stops [@name] for the bare name, the name
    with [@], the [https://t.me/] link and that link with a stray [@];
    [/fetch] reads [@name] for the bare name, the name with [@] and the
    [https://t.me/] link.  [/stop] and [/fetch] do not take the
    [http://] link, and [/fetch] not the stray [@]: they put [@] before
    the whole argument. *)
Theorem channel_spellings
  (st : State) (transport : Transport) (join : string -> bool) (user : Z)
  (name a : string) :
  contains "/" name = false ->
  has_nul name = false ->
  startswith "@" name = false ->
  startswith "+" name = false ->
  nonempty a = true ->
  let registers target :=
    cmd_collect st transport join (Some a) user
    = if tg_client st
      then (fst (_add_channel st transport target user),
            if snd (_add_channel st transport target user)
            then CollectAdded target else CollectNotAdded target)
      else (st, CollectNoClient) in
  let stops target :=
    cmd_stop st (Some a)
    = (fst (_stop_channel st target),
       if snd (_stop_channel st target)
       then StopDone target else StopNotFound target) in
  let fetches target :=
    cmd_fetch st transport (Some a)
    = if tg_client st
      then (fst (fetch_last_messages st transport target 2),
            if 0 <? snd (fetch_last_messages st transport target 2)
            then FetchSaved (snd (fetch_last_messages st transport target 2))
            else FetchNothing)
      else (st, FetchNoClient) in
  (In (strip a) [ name; "@" +:+ name;
                  "https://t.me/" +:+ name; "http://t.me/" +:+ name;
                  "@https://t.me/" +:+ name; "@http://t.me/" +:+ name ] ->
   registers ("@" +:+ name))
  /\ (In (strip a) [ name; "@" +:+ name;
                     "https://t.me/" +:+ name; "@https://t.me/" +:+ name ] ->
      stops ("@" +:+ name))
  /\ (strip a = "http://t.me/" +:+ name ->
      stops ("@http://t.me/" +:+ name))
  /\ (In (strip a) [ name; "@" +:+ name; "https://t.me/" +:+ name ] ->
      fetches ("@" +:+ name))
  /\ (strip a = "http://t.me/" +:+ name ->
      fetches ("@http://t.me/" +:+ name))
  /\ (strip a = "@https://t.me/" +:+ name ->
      fetches ("@https://t.me/" +:+ name)).
Proof.
  intros Hslash _ Hat Hplus Ha registers stops fetches.
  destruct (spelling_targets name Hslash Hat Hplus)
    as ((C1 & C2 & C3 & C4 & C5) & (S1 & S2 & S3 & S4 & S5)
        & (F1 & F2 & F3 & F4 & F5)).
  destruct (collect_target_link name) as (_ & _ & _ & C6).
  rewrite C3 in C6.
  split; [|split; [|split; [|split; [|split]]]].
  - intros Hin. apply cmd_collect_channel; [exact Ha|].
    cbn [In] in Hin.
    destruct Hin as [<-|[<-|[<-|[<-|[<-|[<-|[]]]]]]]; assumption.
  - intros Hin. apply cmd_stop_channel; [exact Ha|].
    cbn [In] in Hin.
    destruct Hin as [<-|[<-|[<-|[<-|[]]]]]; assumption.
  - intros E. apply cmd_stop_channel; [exact Ha|]. now rewrite E.
  - intros Hin. apply cmd_fetch_channel; [exact Ha|].
    cbn [In] in Hin.
    destruct Hin as [<-|[<-|[<-|[]]]]; assumption.
  - intros E. apply cmd_fetch_channel; [exact Ha|]. now rewrite E.
  - intros E. apply cmd_fetch_channel; [exact Ha|]. now rewrite E.
Qed.

Lemma channel_spellings_witness :
  cmd_collect fresh_bot (channel_c [m100]) (fun _ => false)
    (Some "  @https://t.me/chan ") 5
  = (fst (_add_channel fresh_bot (channel_c [m100]) "@chan" 5),
     CollectAdded "@chan")
  /\ cmd_stop fresh_bot (Some "  @https://t.me/chan ")
     = (fst (_stop_channel fresh_bot "@chan"), StopNotFound "@chan")
  /\ cmd_fetch fresh_bot (channel_c [m100]) (Some "  @https://t.me/chan ")
     = (fst (fetch_last_messages fresh_bot (channel_c [m100])
               "@https://t.me/chan" 2),
        FetchNothing).
Proof.
  destruct (channel_spellings fresh_bot (channel_c [m100]) (fun _ => false) 5
              "chan" "  @https://t.me/chan "
              eq_refl eq_refl eq_refl eq_refl eq_refl)
    as (Hcollect & Hstop & _ & _ & _ & Hfetch).
  split; [|split].
  - rewrite Hcollect; [reflexivity|].
    right. right. right. right. left. reflexivity.
  - rewrite Hstop; [reflexivity|].
    right. right. right. left. reflexivity.
  - rewrite Hfetch; reflexivity.
Defined.

(** What [collect_target] makes of a link. *)
Lemma link_targets (name invite : string) :
  contains "/" name = false ->
  startswith "+" name = false ->
  String.eqb name "joinchat" = false ->
  String.eqb name "c" = false ->
  contains "/" invite = false ->
  (forall post,
      collect_target ("https://t.me/" +:+ name +:+ "/" +:+ post)
      = TargetChannel ("@" +:+ name))
  /\ (forall post,
         collect_target ("https://t.me/+" +:+ invite +:+ "/" +:+ post)
         = TargetInvite invite)
  /\ collect_target ("https://t.me/+" +:+ invite) = TargetInvite invite
  /\ collect_target ("https://t.me/joinchat/" +:+ invite)
     = TargetInvite invite
  /\ (forall rest,
         collect_target ("https://t.me/c/" +:+ rest) = TargetPrivate).
Proof.
  intros Hslash Hplus Hjoin Hc Hinv.
  assert (Hfirst : forall s post,
             contains "/" s = false ->
             first_part "/" (s +:+ String "/" post) = s).
  { intros s post Hs. unfold first_part.
    now rewrite (split_once_at "/" s post Hs). }
  assert (Hwhole : first_part "/" invite = invite).
  { unfold first_part. now rewrite (split_once_without "/" invite Hinv). }
  split; [|split; [|split; [|split]]].
  - intros post.
    change ("https://t.me/" +:+ name +:+ "/" +:+ post)
      with ("https://t.me/" +:+ (name +:+ String "/" post)).
    destruct (collect_target_link (name +:+ String "/" post)) as (-> & _).
    assert (T1 : startswith "+" (name +:+ String "/" post) = false).
    { destruct name as [|a n]; [reflexivity|].
      rewrite append_cons. unfold startswith in *.
      cbn [strip_prefix] in *.
      destruct (Ascii.eqb "+" a); [discriminate|reflexivity]. }
    assert (T2 : startswith "joinchat/" (name +:+ String "/" post) = false).
    { unfold startswith.
      destruct (strip_prefix "joinchat/" (name +:+ String "/" post))
        as [r|] eqn:E; [|reflexivity].
      apply (strip_prefix_sep "/" "joinchat" eq_refl name post r Hslash) in E.
      subst name. discriminate. }
    assert (T3 : startswith "c/" (name +:+ String "/" post) = false).
    { unfold startswith.
      destruct (strip_prefix "c/" (name +:+ String "/" post))
        as [r|] eqn:E; [|reflexivity].
      apply (strip_prefix_sep "/" "c" eq_refl name post r Hslash) in E.
      subst name. discriminate. }
    rewrite T1, T2, T3, (Hfirst name post Hslash). reflexivity.
  - intros post.
    change ("https://t.me/+" +:+ invite +:+ "/" +:+ post)
      with ("https://t.me/" +:+ ("+" +:+ (invite +:+ String "/" post))).
    destruct (collect_target_link ("+" +:+ (invite +:+ String "/" post)))
      as (-> & _).
    change (startswith "+" ("+" +:+ (invite +:+ String "/" post))) with true.
    change (drop_first ("+" +:+ (invite +:+ String "/" post)))
      with (invite +:+ String "/" post).
    now rewrite (Hfirst invite post Hinv).
  - change (collect_target ("https://t.me/+" +:+ invite))
      with (TargetInvite (first_part "/" invite)).
    now rewrite Hwhole.
  - change (collect_target ("https://t.me/joinchat/" +:+ invite))
      with (TargetInvite (first_part "/" invite)).
    now rewrite Hwhole.
  - reflexivity.
Qed.

(** X19.  What [/collect] makes of a link, its argument stripped of
    the whitespace around it.  A link to a post of a public channel
    names the channel: the path after the name is dropped, and [@name]
    is registered, or the lack of a client reported.  A link with [+]
    or [joinchat/] is an invitation: the bot joins with the hash, up to
    the next [/], and registers nothing; without a client, or when the
    request is refused, it reports that it could not join.  A link
    whose first segment is [c] is a link by internal id, and the
    command only says so.  The name has no [/], does not start with [+]
    and is neither [joinchat] nor [c]; the hash has no [/]. *)
Theorem collect_link_forms
  (st : State) (transport : Transport) (join : string -> bool) (user : Z)
  (name invite a : string) :
  contains "/" name = false ->
  startswith "+" name = false ->
  String.eqb name "joinchat" = false ->
  String.eqb name "c" = false ->
  contains "/" invite = false ->
  nonempty a = true ->
  let result := cmd_collect st transport join (Some a) user in
  let target := "@" +:+ name in
  let registered :=
    if tg_client st
    then (fst (_add_channel st transport target user),
          if snd (_add_channel st transport target user)
          then CollectAdded target else CollectNotAdded target)
    else (st, CollectNoClient) in
  let invited :=
    (st, if tg_client st && join invite
         then CollectJoined invite else CollectJoinFailed invite) in
  (forall post,
      strip a = "https://t.me/" +:+ name +:+ "/" +:+ post ->
      result = registered)
  /\ (forall post,
         strip a = "https://t.me/+" +:+ invite +:+ "/" +:+ post ->
         result = invited)
  /\ (strip a = "https://t.me/+" +:+ invite -> result = invited)
  /\ (strip a = "https://t.me/joinchat/" +:+ invite -> result = invited)
  /\ (forall rest,
         strip a = "https://t.me/c/" +:+ rest ->
         result = (st, CollectPrivateLink)).
Proof.
  intros Hslash Hplus Hjoin Hc Hinv Ha result target registered invited.
  destruct (link_targets name invite Hslash Hplus Hjoin Hc Hinv)
    as (T1 & T2 & T3 & T4 & T5).
  split; [|split; [|split; [|split]]].
  - intros post E. apply cmd_collect_channel; [exact Ha|].
    rewrite E. apply T1.
  - intros post E. apply cmd_collect_invite; [exact Ha|].
    rewrite E. apply T2.
  - intros E. apply cmd_collect_invite; [exact Ha|]. now rewrite E.
  - intros E. apply cmd_collect_invite; [exact Ha|]. now rewrite E.
  - intros rest E. apply cmd_collect_private; [exact Ha|].
    rewrite E. apply T5.
Qed.

Lemma collect_link_forms_witness :
  cmd_collect fresh_bot (channel_c [m100]) (fun _ => true)
    (Some " https://t.me/chan/15 ") 5
  = (fst (_add_channel fresh_bot (channel_c [m100]) "@chan" 5),
     CollectAdded "@chan")
  /\ cmd_collect fresh_bot (channel_c [m100]) (fun _ => true)
       (Some "https://t.me/+AbCd  ") 5
     = (fresh_bot, CollectJoined "AbCd").
Proof.
  split.
  - destruct (collect_link_forms fresh_bot (channel_c [m100]) (fun _ => true) 5
                "chan" "AbCd" " https://t.me/chan/15 "
                eq_refl eq_refl eq_refl eq_refl eq_refl eq_refl)
      as (Hpost & _).
    rewrite (Hpost "15" eq_refl). reflexivity.
  - destruct (collect_link_forms fresh_bot (channel_c [m100]) (fun _ => true) 5
                "chan" "AbCd" "https://t.me/+AbCd  "
                eq_refl eq_refl eq_refl eq_refl eq_refl eq_refl)
      as (_ & _ & Hinvite & _).
    rewrite (Hinvite eq_refl). reflexivity.
Defined.

(** ** The files of Bot API messages *)

Lemma append_cancel_r (e : string) :
  forall s1 s2, s1 +:+ e = s2 +:+ e -> s1 = s2.
Proof.
  intros s1 s2 H.
  assert (Hlen : String.length s1 = String.length s2).
  { apply (f_equal String.length) in H. rewrite !length_append in H. lia. }
  revert s2 H Hlen.
  induction s1 as [|a s1 IH]; intros [|b s2] H Hlen; simpl in Hlen;
    try discriminate; [reflexivity|].
  rewrite !append_cons in H. injection H as -> H.
  f_equal. apply IH; [exact H|lia].
Qed.

Lemma startswith_char (c a : ascii) (s : string) :
  startswith (String c EmptyString) (String a s) = Ascii.eqb c a.
Proof.
  unfold startswith. cbn [strip_prefix]. now destruct (Ascii.eqb c a).
Qed.

(** Files written at different readings of the clock have different
    paths. *)
Lemma file_path_of_clock (st st' : State) (n : option string) (ct : string) :
  download_path st' = download_path st ->
  clock st' <> clock st ->
  file_path_of st' n ct <> file_path_of st n ct.
Proof.
  intros Hdl Hclock. unfold file_path_of. rewrite Hdl.
  assert (Hname : exists suffix,
             snd (_generate_filename st n ct)
             = ct +:+ "_" +:+ pretty (clock st) +:+ suffix
             /\ snd (_generate_filename st' n ct)
                = ct +:+ "_" +:+ pretty (clock st') +:+ suffix).
  { unfold _generate_filename, datetime_now.
    destruct n as [name|]; [destruct (nonempty name)|]; cbn [snd];
      try (exists EmptyString; rewrite !append_nil_r; split; reflexivity).
    eexists. split; reflexivity. }
  destruct Hname as (suffix & -> & ->).
  generalize (path_join (download_path st) ct) as dir. intros dir Heq.
  assert (Hfile : ct +:+ "_" +:+ pretty (clock st') +:+ suffix
                  = ct +:+ "_" +:+ pretty (clock st) +:+ suffix).
  { unfold path_join in Heq.
    assert (Hsame : startswith "/" (ct +:+ "_" +:+ pretty (clock st') +:+ suffix)
                    = startswith "/" (ct +:+ "_" +:+ pretty (clock st) +:+ suffix))
      by (destruct ct; [reflexivity|];
          rewrite !append_cons, !startswith_char; reflexivity).
    rewrite Hsame in Heq.
    destruct (startswith "/" _); [exact Heq|].
    destruct (negb (nonempty dir) || bool_decide (last_char dir = Some "/"%char)).
    - now apply (inj (String.append dir)) in Heq.
    - apply (inj (String.append dir)) in Heq. now injection Heq. }
  apply (inj (String.append ct)) in Hfile. injection Hfile as Hfile.
  rewrite !append_nil_l in Hfile.
  apply append_cancel_r in Hfile. apply (inj pretty) in Hfile.
  contradiction.
Qed.

(** A call of [_process_single_file] that returns [True]. *)
Lemma process_single_file_true st f ct n :
  snd (_process_single_file st f ct n) = true ->
  exists data,
    _download_file st f = Some data
    /\ data <> []
    /\ _is_duplicate st (_calculate_file_hash data) = false
    /\ disk_writable st (file_path_of st n ct) = true
    /\ fst (_process_single_file st f ct n)
       = record_fingerprint
           (set_disk (insert (file_path_of st n ct) data)
                     (fst (_generate_filename st n ct)))
           (_calculate_file_hash data) (file_path_of st n ct).
Proof.
  unfold _process_single_file, file_path_of.
  destruct (_download_file st f) as [[|b data]|]; cbn [snd]; try discriminate.
  destruct (_is_duplicate st _) eqn:Hdup; cbn [snd]; [discriminate|].
  assert (Hg : download_path (fst (_generate_filename st n ct)) = download_path st
               /\ disk_writable (fst (_generate_filename st n ct))
                  = disk_writable st).
  { unfold _generate_filename, datetime_now.
    destruct n as [name|]; [destruct (nonempty name)|]; split; reflexivity. }
  destruct (_generate_filename st n ct) as [sg filename]. cbn [fst snd] in *.
  destruct Hg as [Hdl Hw]. unfold _save_file_locally. rewrite Hdl, Hw.
  destruct (disk_writable st _) eqn:Hwr; cbn [snd]; [|discriminate].
  intros _. exists (b :: data). repeat split; try assumption. discriminate.
Qed.

(** A call of [_process_single_file] for data that is not on record, on
    a disk that takes the file. *)
Lemma process_single_file_fresh st f ct n data :
  _download_file st f = Some data ->
  data <> [] ->
  _is_duplicate st (_calculate_file_hash data) = false ->
  disk_writable st (file_path_of st n ct) = true ->
  _process_single_file st f ct n
  = (record_fingerprint
       (set_disk (insert (file_path_of st n ct) data)
                 (fst (_generate_filename st n ct)))
       (_calculate_file_hash data) (file_path_of st n ct), true).
Proof.
  intros Hd Hne Hdup Hw. unfold _process_single_file, file_path_of in *.
  rewrite Hd. destruct data as [|b data]; [contradiction|].
  rewrite Hdup.
  assert (Hg : download_path (fst (_generate_filename st n ct)) = download_path st
               /\ disk_writable (fst (_generate_filename st n ct))
                  = disk_writable st).
  { unfold _generate_filename, datetime_now.
    destruct n as [name|]; [destruct (nonempty name)|]; split; reflexivity. }
  destruct (_generate_filename st n ct) as [sg filename]. cbn [fst snd] in *.
  destruct Hg as [Hdl Hwr]. unfold _save_file_locally. rewrite Hdl, Hwr, Hw.
  reflexivity.
Qed.

Lemma generate_filename_state st n ct :
  fst (_generate_filename st n ct) = set_clock (clock st + 1) st.
Proof.
  unfold _generate_filename, datetime_now.
  destruct n as [name|]; [destruct (nonempty name)|]; reflexivity.
Qed.

Lemma record_fingerprint_duplicate st h p :
  _is_duplicate (record_fingerprint st h p) h = true.
Proof.
  unfold _is_duplicate, record_fingerprint, datetime_now. cbn.
  apply bool_decide_eq_true. rewrite lookup_insert_eq. eauto.
Qed.

(** X20.  A file is processed once in a process: after a call of
    [_process_single_file] that returned [True], a call for the same
    bytes, under whatever file id, content type and name, returns
    [False] and changes nothing but the log; no second file is
    written. *)
Theorem file_processed_once
  (st : State) (f ct f' ct' : string) (n n' : option string) :
  snd (_process_single_file st f ct n) = true ->
  _download_file st f' = _download_file st f ->
  let st1 := fst (_process_single_file st f ct n) in
  _process_single_file st1 f' ct' n' = (add_log LogDuplicateFile st1, false)
  /\ disk (fst (_process_single_file st1 f' ct' n')) = disk st1
  /\ processed_content (fst (_process_single_file st1 f' ct' n'))
     = processed_content st1.
Proof.
  intros Hok Hsame st1.
  destruct (process_single_file_true st f ct n Hok)
    as (data & Hd & Hne & _ & _ & Hst).
  assert (H : _process_single_file st1 f' ct' n'
              = (add_log LogDuplicateFile st1, false)).
  { subst st1. rewrite Hst. unfold _process_single_file at 1.
    assert (Hd' : _download_file
                    (record_fingerprint
                       (set_disk (insert (file_path_of st n ct) data)
                          (fst (_generate_filename st n ct)))
                       (_calculate_file_hash data) (file_path_of st n ct)) f'
                  = Some data).
    { rewrite generate_filename_state. rewrite <- Hd, <- Hsame. reflexivity. }
    rewrite Hd'. destruct data as [|b data]; [contradiction|].
    now rewrite record_fingerprint_duplicate. }
  rewrite H. repeat split.
Qed.

Lemma file_processed_once_witness :
  let st1 := fst (_process_single_file fresh_bot "F1" "image" None) in
  _process_single_file st1 "F1" "document" (Some "copy.bin")
  = (add_log LogDuplicateFile st1, false)
  /\ disk (fst (_process_single_file st1 "F1" "document" (Some "copy.bin")))
     = disk st1
  /\ processed_content
       (fst (_process_single_file st1 "F1" "document" (Some "copy.bin")))
     = processed_content st1.
Proof.
  apply (file_processed_once fresh_bot "F1" "image" "F1" "document" None
           (Some "copy.bin")).
  - vm_compute. reflexivity.
  - reflexivity.
Defined.

(** The state that a successful call of [_process_single_file] or of
    [_process_text] ends in. *)
Lemma file_recorded_state st n ct data h :
  let st1 :=
    record_fingerprint
      (set_disk (insert (file_path_of st n ct) data)
                (fst (_generate_filename st n ct)))
      h (file_path_of st n ct) in
  bot_api_files st1 = bot_api_files st
  /\ disk_writable st1 = disk_writable st
  /\ download_path st1 = download_path st
  /\ clock st1 = clock st + 2
  /\ disk st1 = <[file_path_of st n ct := data]> (disk st)
  /\ _is_duplicate st1 h = true.
Proof.
  cbv zeta. rewrite generate_filename_state.
  repeat split; try reflexivity.
  - unfold record_fingerprint, datetime_now. cbn. lia.
  - apply record_fingerprint_duplicate.
Qed.

Lemma process_text_true st text :
  snd (_process_text st text) = true ->
  nonempty text = true
  /\ disk_writable st (file_path_of st None "text") = true
  /\ fst (_process_text st text)
     = record_fingerprint
         (set_disk (insert (file_path_of st None "text") (encode_utf8 text))
                   (fst (_generate_filename st None "text")))
         (_calculate_file_hash (encode_utf8 text))
         (file_path_of st None "text").
Proof.
  unfold _process_text, file_path_of.
  destruct (nonempty text); cbn [negb snd]; [|discriminate].
  unfold _generate_filename, datetime_now, _save_file_locally.
  cbn [fst snd download_path disk_writable set_clock].
  destruct (disk_writable st _) eqn:Hw; cbn [snd]; [|discriminate].
  destruct (_is_duplicate _ _); cbn [negb snd]; [discriminate|].
  intros _. repeat split.
Qed.

(** X21.  A text is recorded once in a process but written every time:
    after a call of [_process_text] that returned [True], a call for
    the same text returns [False] and records nothing, and yet, the
    disk taking the file, the text is written again, to a file of its
    own beside the first. *)
Theorem repeated_text_written_again (st : State) (text : string) :
  snd (_process_text st text) = true ->
  let st1 := fst (_process_text st text) in
  disk_writable st (file_path_of st1 None "text") = true ->
  let again := _process_text st1 text in
  snd again = false
  /\ processed_content (fst again) = processed_content st1
  /\ disk (fst again)
     = <[file_path_of st1 None "text" := encode_utf8 text]> (disk st1)
  /\ disk st1 !! file_path_of st None "text" = Some (encode_utf8 text)
  /\ file_path_of st1 None "text" <> file_path_of st None "text".
Proof.
  intros Hok st1 Hw again.
  destruct (process_text_true st text Hok) as (Hne & _ & Hst).
  destruct (file_recorded_state st None "text" (encode_utf8 text)
              (_calculate_file_hash (encode_utf8 text)))
    as (_ & Hwr & Hdl & Hclock & Hdisk & Hdup).
  cbv zeta in *. fold st1 in Hst. rewrite <- Hst in *.
  assert (Hagain : again
                   = (set_disk (insert (file_path_of st1 None "text")
                                       (encode_utf8 text))
                               (set_clock (clock st1 + 1) st1), false)).
  { subst again. unfold _process_text. rewrite Hne. cbn [negb].
    unfold _generate_filename, datetime_now, _save_file_locally.
    cbn [fst snd download_path disk_writable set_clock].
    change (path_join (path_join (download_path st1) "text")
              ("text" +:+ "_" +:+ pretty (clock st1)))
      with (file_path_of st1 None "text").
    rewrite Hwr, Hw.
    change (_is_duplicate (set_disk _ (set_clock _ st1)) ?h)
      with (_is_duplicate st1 h).
    now rewrite Hdup. }
  rewrite Hagain. cbn [fst snd].
  split; [reflexivity|]. split; [reflexivity|]. split; [reflexivity|].
  split.
  - rewrite Hdisk. apply lookup_insert_eq.
  - apply file_path_of_clock; [exact Hdl|lia].
Qed.

Lemma repeated_text_written_again_witness :
  let st1 := fst (_process_text fresh_bot "see https://b.org/page") in
  let again := _process_text st1 "see https://b.org/page" in
  snd again = false
  /\ processed_content (fst again) = processed_content st1
  /\ disk (fst again)
     = <[file_path_of st1 None "text"
         := encode_utf8 "see https://b.org/page"]> (disk st1)
  /\ disk st1 !! file_path_of fresh_bot None "text"
     = Some (encode_utf8 "see https://b.org/page")
  /\ file_path_of st1 None "text" <> file_path_of fresh_bot None "text".
Proof.
  apply (repeated_text_written_again fresh_bot "see https://b.org/page").
  - vm_compute. reflexivity.
  - reflexivity.
Defined.

Lemma file_path_of_new_process st n ct :
  file_path_of (new_process st) n ct = file_path_of st n ct.
Proof.
  unfold file_path_of, _generate_filename, datetime_now.
  destruct n as [name|]; [destruct (nonempty name)|]; reflexivity.
Qed.

(** X22.  The fingerprints are those of the process: started anew, the
    bot takes a file it has processed as new.  After a call of
    [_process_single_file] that returned [True], the same call in a
    new process on the same disk returns [True] again, and the bytes
    are then on the disk twice, in two files. *)
Theorem restart_forgets_fingerprints
  (st : State) (f ct : string) (n : option string) :
  (forall p, disk_writable st p = true) ->
  snd (_process_single_file st f ct n) = true ->
  let st1 := fst (_process_single_file st f ct n) in
  let again := _process_single_file (new_process st1) f ct n in
  snd (_process_single_file st1 f ct n) = false
  /\ snd again = true
  /\ exists data,
       _download_file st f = Some data
       /\ disk (fst again) !! file_path_of st n ct = Some data
       /\ disk (fst again) !! file_path_of st1 n ct = Some data
       /\ file_path_of st1 n ct <> file_path_of st n ct.
Proof.
  intros Hwritable Hok st1 again.
  destruct (process_single_file_true st f ct n Hok)
    as (data & Hd & Hne & _ & _ & Hst).
  destruct (file_recorded_state st n ct data (_calculate_file_hash data))
    as (Hfiles & Hwr & Hdl & Hclock & Hdisk & Hdup).
  cbv zeta in *. fold st1 in Hst. rewrite <- Hst in *.
  assert (Hpath : file_path_of st1 n ct <> file_path_of st n ct)
    by (apply file_path_of_clock; [exact Hdl|lia]).
  split.
  - unfold _process_single_file at 1. unfold _download_file in *.
    rewrite Hfiles, Hd. destruct data as [|b data]; [contradiction|].
    now rewrite Hdup.
  - assert (Hagain : again
                     = (record_fingerprint
                          (set_disk (insert (file_path_of st1 n ct) data)
                             (fst (_generate_filename (new_process st1) n ct)))
                          (_calculate_file_hash data)
                          (file_path_of st1 n ct), true)).
    { subst again. rewrite <- (file_path_of_new_process st1 n ct).
      apply (process_single_file_fresh (new_process st1) f ct n data).
      - unfold _download_file in *.
        change (bot_api_files (new_process st1)) with (bot_api_files st1).
        now rewrite Hfiles.
      - exact Hne.
      - unfold _is_duplicate. apply bool_decide_eq_false.
        change (processed_content (new_process st1)) with
          (∅ : gmap string ProcessedContent).
        rewrite lookup_empty. intros [x Hx]. discriminate.
      - change (disk_writable (new_process st1)) with (disk_writable st1).
        rewrite Hwr. apply Hwritable. }
    rewrite Hagain. cbn [fst snd]. split; [reflexivity|].
    exists data. split; [exact Hd|].
    rewrite generate_filename_state.
    assert (Hd2 : disk (record_fingerprint
                          (set_disk (insert (file_path_of st1 n ct) data)
                             (set_clock (clock (new_process st1) + 1)
                                        (new_process st1)))
                          (_calculate_file_hash data) (file_path_of st1 n ct))
                  = <[file_path_of st1 n ct := data]> (disk st1))
      by reflexivity.
    rewrite Hd2, Hdisk. split; [|split; [|exact Hpath]].
    + rewrite lookup_insert_ne by exact Hpath. apply lookup_insert_eq.
    + apply lookup_insert_eq.
Qed.

Lemma restart_forgets_fingerprints_witness :
  let st1 := fst (_process_single_file fresh_bot "F1" "image" None) in
  let again := _process_single_file (new_process st1) "F1" "image" None in
  snd (_process_single_file st1 "F1" "image" None) = false
  /\ snd again = true
  /\ exists data,
       _download_file fresh_bot "F1" = Some data
       /\ disk (fst again) !! file_path_of fresh_bot None "image" = Some data
       /\ disk (fst again) !! file_path_of st1 None "image" = Some data
       /\ file_path_of st1 None "image" <> file_path_of fresh_bot None "image".
Proof.
  apply (restart_forgets_fingerprints fresh_bot "F1" "image" None).
  - intros p. reflexivity.
  - vm_compute. reflexivity.
Defined.

(** ** The fingerprints on record *)

Ltac keep_fingerprint :=
  let h := fresh "h" in
  let Hh := fresh "Hh" in
  intros h Hh; cbn in *; try exact Hh;
  try (apply lookup_insert_is_Some'; right; exact Hh).

Lemma save_text_fingerprints st msg cid l :
  forall h,
    is_Some (processed_content st !! h) ->
    is_Some (processed_content (fst (save_text st msg cid l)) !! h).
Proof.
  unfold save_text. unfold_small.
  crush_cases; keep_fingerprint.
Qed.

Lemma save_media_fingerprints st msg cid l :
  forall h,
    is_Some (processed_content st !! h) ->
    is_Some (processed_content (fst (save_media st msg cid l)) !! h).
Proof.
  unfold save_media. unfold_small.
  crush_cases; keep_fingerprint.
Qed.

Lemma save_fingerprints st msg name cid :
  forall h,
    is_Some (processed_content st !! h) ->
    is_Some (processed_content (fst (_save_telethon_message st msg name cid))
             !! h).
Proof.
  intros h Hh. unfold _save_telethon_message.
  set (c := resolve_channel_id st name cid).
  pose proof (save_text_fingerprints st msg c initial_locals h Hh) as Ht.
  destruct (save_text st msg c initial_locals) as [st1 [l1|]]; cbn [fst] in *;
    [|exact Ht].
  pose proof (save_media_fingerprints st1 msg c l1 h Ht) as Hm.
  destruct (save_media st1 msg c l1) as [st2 l2]; cbn [fst] in Hm.
  pose proof (note_empty_kept st2 msg l2) as He.
  destruct (note_empty st2 msg l2) as [st3 l3]; cbn [fst] in He.
  pose proof (reconcile_kept st3 msg c l3) as Hr.
  destruct (reconcile st3 msg c l3) as [st4 l4]; cbn [fst] in Hr.
  destruct He as (_ & _ & _ & _ & _ & P3 & _), Hr as (_ & _ & _ & P4 & _).
  cbn [fst]. rewrite P4, P3. exact Hm.
Qed.

Lemma process_content_fingerprints st message :
  forall h,
    is_Some (processed_content st !! h) ->
    is_Some (processed_content (_process_message_content st message) !! h).
Proof.
  unfold _process_message_content, _process_text, _process_photo,
    _process_document, _process_video, _process_audio, _process_sticker,
    _process_animation, _process_single_file, _download_file.
  unfold_small.
  crush_cases; keep_fingerprint.
Qed.

Lemma fold_fingerprints {A B} (step : State * A -> B -> State * A)
  (items : list B) :
  (forall acc item h,
      is_Some (processed_content (fst acc) !! h) ->
      is_Some (processed_content (fst (step acc item)) !! h)) ->
  forall acc h,
    is_Some (processed_content (fst acc) !! h) ->
    is_Some (processed_content (fst (fold_left step items acc)) !! h).
Proof.
  intros Hstep. induction items as [|x items IH]; intros acc h Hh; simpl;
    [exact Hh|].
  apply IH. now apply Hstep.
Qed.

Lemma advance_cursor_fingerprints st channel id :
  processed_content (advance_cursor st channel id) = processed_content st.
Proof.
  unfold advance_cursor.
  destruct (dict_get channel (monitored_channels st));
    cbn [db_pool set_monitored_channels]; destruct (db_pool st); reflexivity.
Qed.

Lemma monitor_message_fingerprints channel cid acc msg h :
  is_Some (processed_content (fst acc) !! h) ->
  is_Some (processed_content (fst (monitor_message channel cid acc msg)) !! h).
Proof.
  destruct acc as [st c]. cbn [fst]. intros Hh. unfold monitor_message.
  pose proof (save_fingerprints st msg channel (Some cid) h Hh) as Hs.
  destruct (_save_telethon_message st msg channel (Some cid))
    as [st1 [success types]]. cbn [fst] in Hs.
  destruct success; [|exact Hs].
  destruct (negb (tg_id msg =? 0) && (cursor st1 channel <? tg_id msg));
    cbn [fst]; [|exact Hs].
  now rewrite advance_cursor_fingerprints.
Qed.

Lemma fetch_message_fingerprints channel cid acc msg h :
  is_Some (processed_content (fst acc) !! h) ->
  is_Some (processed_content (fst (fetch_message channel cid acc msg)) !! h).
Proof.
  destruct acc as [st c]. cbn [fst]. intros Hh. unfold fetch_message.
  pose proof (save_fingerprints st msg channel (Some cid) h Hh) as Hs.
  now destruct (_save_telethon_message st msg channel (Some cid))
    as [st1 [success types]].
Qed.

(** X23.  Within a process a fingerprint on record stays on record:
    content that is a duplicate before the saving of a channel message,
    a turn of the monitor, a fetch or the handling of a Bot API message
    is a duplicate after it. *)
Theorem fingerprints_are_kept (st : State) (file_hash : string) :
  _is_duplicate st file_hash = true ->
  (forall msg name cid,
      _is_duplicate (fst (_save_telethon_message st msg name cid)) file_hash
      = true)
  /\ (forall transport channel,
         _is_duplicate (fst (monitor_channel st transport channel)) file_hash
         = true)
  /\ (forall transport channel limit,
         _is_duplicate (fst (fetch_last_messages st transport channel limit))
           file_hash = true)
  /\ (forall message,
         _is_duplicate (_process_message_content st message) file_hash = true).
Proof.
  unfold _is_duplicate. intros Hdup. apply bool_decide_eq_true in Hdup.
  split; [|split; [|split]].
  - intros msg name cid. apply bool_decide_eq_true.
    now apply save_fingerprints.
  - intros transport channel. apply bool_decide_eq_true.
    unfold monitor_channel.
    destruct (dict_get channel (monitored_channels st)) as [meta|];
      [|exact Hdup].
    destruct (meta_is_active meta); cbn [negb]; [|exact Hdup].
    destruct (transport channel) as [entity|]; [|exact Hdup].
    pose proof (fold_fingerprints
                  (monitor_message channel (meta_channel_id meta))
                  (iter_messages_since entity (meta_last_id meta))
                  (monitor_message_fingerprints channel (meta_channel_id meta))
                  (st, no_cycle) file_hash Hdup) as Hfold.
    unfold no_cycle in Hfold.
    destruct (fold_left _ _ _) as [st1 c]. cbn [fst] in Hfold.
    destruct (negb (new_count c =? 0) && truthy (notification_chat_id st1));
      cbn [db_pool send_message]; destruct (db_pool st1); exact Hfold.
  - intros transport channel limit. apply bool_decide_eq_true.
    unfold fetch_last_messages.
    destruct (tg_client st); cbn [negb]; [|exact Hdup].
    destruct (transport channel) as [entity|]; [|exact Hdup].
    destruct (db_pool st) as [db|]; [|exact Hdup].
    destruct (select_channel_id db channel) as [cid|].
    + apply fold_fingerprints; [apply fetch_message_fingerprints|exact Hdup].
    + destruct (insert_channel db channel channel false 0 0 (clock st))
        as [db1 [cid|]]; [|exact Hdup].
      apply fold_fingerprints; [apply fetch_message_fingerprints|exact Hdup].
  - intros message. apply bool_decide_eq_true.
    now apply process_content_fingerprints.
Qed.

Lemma fingerprints_are_kept_witness :
  (forall msg name cid,
      _is_duplicate (fst (_save_telethon_message after_f1 msg name cid))
        (_calculate_file_hash [x01; x02]) = true)
  /\ (forall transport channel,
         _is_duplicate (fst (monitor_channel after_f1 transport channel))
           (_calculate_file_hash [x01; x02]) = true)
  /\ (forall transport channel limit,
         _is_duplicate
           (fst (fetch_last_messages after_f1 transport channel limit))
           (_calculate_file_hash [x01; x02]) = true)
  /\ (forall message,
         _is_duplicate (_process_message_content after_f1 message)
           (_calculate_file_hash [x01; x02]) = true).
Proof.
  apply (fingerprints_are_kept after_f1 (_calculate_file_hash [x01; x02])).
  vm_compute. reflexivity.
Defined.

(** ** A pass of the monitor *)

Lemma entries_advance_refl d : entries_advance d d.
Proof.
  intros channel. destruct (dict_get channel d) as [meta|] eqn:E;
    [|reflexivity].
  exists meta. split; [reflexivity|]. split; [split; reflexivity|].
  split; [lia|]. intros _. reflexivity.
Qed.

Lemma entries_advance_trans d1 d2 d3 :
  entries_advance d1 d2 -> entries_advance d2 d3 -> entries_advance d1 d3.
Proof.
  intros H12 H23 channel. specialize (H12 channel). specialize (H23 channel).
  destruct (dict_get channel d1) as [m1|].
  - destruct H12 as (m2 & G2 & S2 & L2 & I2). rewrite G2 in H23.
    destruct H23 as (m3 & G3 & S3 & L3 & I3).
    exists m3. split; [exact G3|]. split; [eauto using same_entry_trans|].
    split; [lia|]. intros Hoff. rewrite <- (I2 Hoff). apply I3.
    destruct S2 as [A _]. congruence.
  - now rewrite H12 in H23.
Qed.

Lemma monitor_channel_advances st transport channel :
  entries_advance (monitored_channels st)
    (monitored_channels (fst (monitor_channel st transport channel))).
Proof.
  pose proof (monitor_channel_cursor st transport channel) as H.
  destruct (monitor_channel st transport channel) as [st' [c|]]; cbn [fst].
  2:{ subst st'. apply entries_advance_refl. }
  destruct H as (meta & entity & meta' & Hget & Hact & _ & _ & Hget' & Hsame
                 & Hlast & Hother).
  intros ch. destruct (String.eqb ch channel) eqn:E.
  - apply String.eqb_eq in E. subst ch. rewrite Hget.
    exists meta'. split; [exact Hget'|]. split; [exact Hsame|].
    split; [rewrite Hlast; apply fold_advance_ge|].
    intros Hoff. congruence.
  - apply String.eqb_neq in E. rewrite (Hother ch E).
    destruct (dict_get ch (monitored_channels st)) as [m|]; [|reflexivity].
    exists m. split; [reflexivity|]. split; [split; reflexivity|].
    split; [lia|]. intros _. reflexivity.
Qed.

Lemma monitor_pass_advances st transport :
  entries_advance (monitored_channels st)
    (monitored_channels (monitor_pass st transport)).
Proof.
  unfold monitor_pass.
  destruct (tg_client st && bool_decide (monitored_channels st <> []));
    [|apply entries_advance_refl].
  generalize (map fst (monitored_channels st)) as channels.
  intros channels.
  assert (H : forall s,
             entries_advance (monitored_channels s)
               (monitored_channels
                  (fold_left (fun st ch => fst (monitor_channel st transport ch))
                             channels s))).
  { induction channels as [|ch channels IH]; intros s; cbn [fold_left].
    - apply entries_advance_refl.
    - eapply entries_advance_trans; [|apply IH].
      apply monitor_channel_advances. }
  apply H.
Qed.

(** X24.  A pass of the monitor over the channels keeps every entry of
    [monitored_channels]: the channel stays active or inactive as it
    was, with its reference, and its cursor has not moved backwards;
    the entry of a channel that is not active is left as it was, and
    no entry is added. *)
Theorem pass_keeps_entries
  (st : State) (transport : Transport) (channel : string) (meta : ChannelMeta) :
  dict_get channel (monitored_channels st) = Some meta ->
  (exists meta',
      dict_get channel (monitored_channels (monitor_pass st transport))
      = Some meta'
      /\ meta_is_active meta' = meta_is_active meta
      /\ meta_channel_id meta' = meta_channel_id meta
      /\ meta_last_id meta <= meta_last_id meta'
      /\ (meta_is_active meta = false -> meta' = meta))
  /\ (forall other,
         dict_get other (monitored_channels st) = None ->
         dict_get other (monitored_channels (monitor_pass st transport))
         = None).
Proof.
  intros Hget. pose proof (monitor_pass_advances st transport) as H.
  split.
  - specialize (H channel). rewrite Hget in H.
    destruct H as (meta' & G & [A C] & L & I). exists meta'.
    repeat split; assumption.
  - intros other Hnone. specialize (H other). now rewrite Hnone in H.
Qed.

Lemma pass_keeps_entries_witness :
  (exists meta',
      dict_get "@chan"
        (monitored_channels
           (monitor_pass registered (channel_c [m102; m101; m100])))
      = Some meta'
      /\ meta_is_active meta'
         = meta_is_active
             {| meta_is_active := true; meta_last_id := 100;
                meta_channel_id := 1 |}
      /\ meta_channel_id meta'
         = meta_channel_id
             {| meta_is_active := true; meta_last_id := 100;
                meta_channel_id := 1 |}
      /\ meta_last_id
           {| meta_is_active := true; meta_last_id := 100;
              meta_channel_id := 1 |} <= meta_last_id meta'
      /\ (meta_is_active
            {| meta_is_active := true; meta_last_id := 100;
               meta_channel_id := 1 |} = false ->
          meta' = {| meta_is_active := true; meta_last_id := 100;
                     meta_channel_id := 1 |}))
  /\ (forall other,
         dict_get other (monitored_channels registered) = None ->
         dict_get other
           (monitored_channels
              (monitor_pass registered (channel_c [m102; m101; m100])))
         = None).
Proof.
  apply (pass_keeps_entries registered (channel_c [m102; m101; m100]) "@chan"
           {| meta_is_active := true; meta_last_id := 100;
              meta_channel_id := 1 |}).
  vm_compute. reflexivity.
Defined.

(** ** The two readings of [iter_messages] agree *)

Lemma extract_newest_newest (msgs : list TgMessage) :
  fst <$> extract_newest msgs = newest msgs.
Proof.
  induction msgs as [|m ms IH]; [reflexivity|]. simpl.
  destruct (extract_newest ms) as [[n rest]|], (newest ms) as [n'|];
    simpl in IH; try discriminate.
  - injection IH as ->. now destruct (tg_id m <? tg_id n').
  - reflexivity.
Qed.

Lemma iter_messages_limit_one (msgs : list TgMessage) :
  iter_messages_limit 1 msgs = option_list (newest msgs).
Proof.
  rewrite <- extract_newest_newest. simpl.
  now destruct (extract_newest msgs) as [[n rest]|].
Qed.

Lemma extract_newest_in (msgs : list TgMessage) n rest :
  extract_newest msgs = Some (n, rest) ->
  In n msgs /\ incl rest msgs.
Proof.
  revert n rest. induction msgs as [|m ms IH]; intros n rest; simpl;
    [discriminate|].
  destruct (extract_newest ms) as [[n0 rest0]|].
  - destruct (IH _ _ eq_refl) as [Hin Hincl].
    destruct (tg_id m <? tg_id n0); intros [= <- <-].
    + split; [now right|]. intros x [<-|Hx]; [now left|right; now apply Hincl].
    + split; [now left|]. intros x Hx. now right.
  - intros [= <- <-]. split; [now left|]. intros x [].
Qed.

Lemma iter_messages_limit_in (limit : nat) :
  forall msgs, incl (iter_messages_limit limit msgs) msgs.
Proof.
  induction limit as [|k IH]; intros msgs; simpl; [intros x []|].
  destruct (extract_newest msgs) as [[n rest]|] eqn:E; [|intros x []].
  apply extract_newest_in in E as [Hin Hincl].
  intros x [<-|Hx]; [exact Hin|]. apply Hincl. now apply IH.
Qed.

(** ** The values of the environment *)

Lemma string_of_list_ascii_app (l1 l2 : list ascii) :
  string_of_list_ascii (l1 ++ l2)
  = string_of_list_ascii l1 +:+ string_of_list_ascii l2.
Proof.
  induction l1 as [|a l1 IH]; [reflexivity|].
  simpl. now rewrite IH.
Qed.

Lemma string_rev_app (a b : string) :
  string_rev (a +:+ b) = string_rev b +:+ string_rev a.
Proof.
  unfold string_rev.
  now rewrite list_ascii_append, rev_app_distr, string_of_list_ascii_app.
Qed.

Lemma string_rev_involutive (s : string) : string_rev (string_rev s) = s.
Proof.
  unfold string_rev.
  now rewrite list_ascii_of_string_of_list_ascii, rev_involutive,
    string_of_list_ascii_of_string.
Qed.

Lemma string_rev_cons (c : ascii) (s : string) :
  string_rev (String c s) = string_rev s +:+ String c EmptyString.
Proof. exact (string_rev_app (String c EmptyString) s). Qed.

Lemma string_rev_snoc (c : ascii) (s : string) :
  string_rev (s +:+ String c EmptyString) = String c (string_rev s).
Proof. now rewrite string_rev_app. Qed.

(** A string between two characters that no white space starts or ends
    with is stripped to itself. *)
Lemma strip_fixed (c1 c2 : ascii) (v : string) :
  (forall t, strip_one whitespace (String c1 t) = None) ->
  (forall t, strip_one (map string_rev whitespace) (String c2 t) = None) ->
  strip (String c1 (v +:+ String c2 EmptyString))
  = String c1 (v +:+ String c2 EmptyString).
Proof.
  intros Hfront Hback. unfold strip.
  assert (Hl : lstrip (String c1 (v +:+ String c2 EmptyString))
               = String c1 (v +:+ String c2 EmptyString)).
  { unfold lstrip. cbn [String.length strip_front]. now rewrite Hfront. }
  rewrite Hl. unfold rstrip.
  change (String c1 (v +:+ String c2 EmptyString))
    with (String c1 v +:+ String c2 EmptyString).
  rewrite string_rev_snoc.
  cbn [String.length strip_front]. rewrite length_append.
  rewrite Nat.add_comm. cbn [String.length Nat.add strip_front].
  rewrite Hback. rewrite <- string_rev_snoc. apply string_rev_involutive.
Qed.

Lemma drop_last_snoc (c : ascii) (v : string) :
  drop_last (v +:+ String c EmptyString) = v.
Proof.
  unfold drop_last. rewrite string_rev_snoc. cbn [drop_first].
  apply string_rev_involutive.
Qed.

Lemma endswith_char (q c1 c2 : ascii) (w : string) :
  endswith (String q EmptyString) (String c1 (w +:+ String c2 EmptyString))
  = Ascii.eqb q c2.
Proof.
  unfold endswith.
  change (String c1 (w +:+ String c2 EmptyString))
    with (String c1 w +:+ String c2 EmptyString).
  rewrite string_rev_snoc. apply startswith_char.
Qed.

Lemma snoc_snoc (v : string) (c d : ascii) :
  v +:+ String c (String d EmptyString)
  = (v +:+ String c EmptyString) +:+ String d EmptyString.
Proof. now rewrite <- append_assoc. Qed.

(** [_clean] of a value between two characters that no white space
    starts or ends with. *)
Lemma clean_between (c1 c2 : ascii) (w : string) :
  (forall t, strip_one whitespace (String c1 t) = None) ->
  (forall t, strip_one (map string_rev whitespace) (String c2 t) = None) ->
  _clean (Some (String c1 (w +:+ String c2 EmptyString)))
  = Some (strip (if (Ascii.eqb "034" c1 && Ascii.eqb "034" c2)
                    || (Ascii.eqb "'" c1 && Ascii.eqb "'" c2)
                 then w
                 else String c1 (w +:+ String c2 EmptyString))).
Proof.
  intros Hfront Hback. unfold _clean.
  rewrite (strip_fixed c1 c2 w Hfront Hback).
  unfold double_quote, single_quote.
  rewrite !startswith_char, !endswith_char.
  destruct ((Ascii.eqb "034" c1 && Ascii.eqb "034" c2)
            || (Ascii.eqb "'" c1 && Ascii.eqb "'" c2)); [|reflexivity].
  cbn [drop_first]. now rewrite drop_last_snoc.
Qed.

Lemma strip_blank_quoted (v : string) :
  strip (String " " (String "034" (v +:+ String "034" " ")))
  = String "034" (v +:+ String "034" EmptyString).
Proof.
  assert (Fd : forall t, strip_one whitespace (String "034" t) = None)
    by reflexivity.
  assert (Bd : forall t,
             strip_one (map string_rev whitespace) (String "034" t) = None)
    by reflexivity.
  unfold strip.
  assert (Hl : lstrip (String " " (String "034" (v +:+ String "034" " ")))
               = String "034" (v +:+ String "034" " ")).
  { unfold lstrip. cbn [String.length strip_front].
    change (strip_one whitespace
              (String " " (String "034" (v +:+ String "034" " "))))
      with (Some (String "034" (v +:+ String "034" " "))).
    cbn [strip_front]. now rewrite Fd. }
  rewrite Hl. unfold rstrip.
  rewrite (snoc_snoc v "034" " ").
  change (String "034" ((v +:+ String "034" EmptyString)
                        +:+ String " " EmptyString))
    with (String "034" (v +:+ String "034" EmptyString)
          +:+ String " " EmptyString).
  rewrite string_rev_snoc.
  change (String "034" (v +:+ String "034" EmptyString))
    with (String "034" v +:+ String "034" EmptyString).
  rewrite string_rev_snoc.
  rewrite !length_append.
  replace (String.length (String "034" v)
           + String.length (String "034" EmptyString)
           + String.length " ")%nat
    with (S (S (String.length (String "034" v))))
    by (cbn [String.length]; lia).
  cbn [strip_front].
  change (strip_one (map string_rev whitespace)
            (String " " (String "034" (string_rev (String "034" v)))))
    with (Some (String "034" (string_rev (String "034" v)))).
  cbn [strip_front]. rewrite Bd. rewrite <- string_rev_snoc.
  apply string_rev_involutive.
Qed.

Lemma clean_of_strip (value value' : string) :
  strip value = strip value' -> _clean (Some value) = _clean (Some value').
Proof. unfold _clean. now intros ->. Qed.

(** X25.  What [_clean] does to a value of the environment between
    quotes: a value between two double quotes or between two single
    quotes, also with blanks around them, is cleaned to what is
    between the quotes, stripped.  One pair of quotes is removed, not
    two, and quotes that do not match are kept.  A variable that is
    not set stays so. *)
Theorem clean_removes_one_pair_of_quotes (v : string) :
  _clean None = None
  /\ _clean (Some (double_quote +:+ v +:+ double_quote)) = Some (strip v)
  /\ _clean (Some (single_quote +:+ v +:+ single_quote)) = Some (strip v)
  /\ _clean (Some (" " +:+ double_quote +:+ v +:+ double_quote +:+ " "))
     = Some (strip v)
  /\ _clean (Some (double_quote +:+ double_quote +:+ v
                   +:+ double_quote +:+ double_quote))
     = Some (double_quote +:+ v +:+ double_quote)
  /\ _clean (Some (double_quote +:+ v +:+ single_quote))
     = Some (double_quote +:+ v +:+ single_quote)
  /\ _clean (Some (single_quote +:+ v +:+ double_quote))
     = Some (single_quote +:+ v +:+ double_quote).
Proof.
  assert (Fd : forall t, strip_one whitespace (String "034" t) = None)
    by reflexivity.
  assert (Fs : forall t, strip_one whitespace (String "'" t) = None)
    by reflexivity.
  assert (Bd : forall t,
             strip_one (map string_rev whitespace) (String "034" t) = None)
    by reflexivity.
  assert (Bs : forall t,
             strip_one (map string_rev whitespace) (String "'" t) = None)
    by reflexivity.
  assert (Hd : forall w,
             _clean (Some (String "034" (w +:+ String "034" EmptyString)))
             = Some (strip w))
    by (intros w; now rewrite (clean_between "034" "034" w Fd Bd)).
  split; [reflexivity|]. split; [apply Hd|].
  split; [apply (clean_between "'" "'" v Fs Bs)|].
  split; [|split; [|split]].
  - rewrite <- (Hd v).
    apply clean_of_strip.
    rewrite (strip_fixed "034" "034" v Fd Bd). apply strip_blank_quoted.
  - change (double_quote +:+ double_quote +:+ v
            +:+ double_quote +:+ double_quote)
      with (String "034"
              (String "034" (v +:+ String "034" (String "034" EmptyString)))).
    rewrite (snoc_snoc v "034" "034").
    change (String "034" ((v +:+ String "034" EmptyString)
                          +:+ String "034" EmptyString))
      with (String "034" (v +:+ String "034" EmptyString)
            +:+ String "034" EmptyString).
    rewrite Hd. now rewrite (strip_fixed "034" "034" v Fd Bd).
  - change (double_quote +:+ v +:+ single_quote)
      with (String "034" (v +:+ String "'" EmptyString)).
    rewrite (clean_between "034" "'" v Fd Bs).
    change (Some (strip (String "034" (v +:+ String "'" EmptyString)))
            = Some (String "034" (v +:+ String "'" EmptyString))).
    now rewrite (strip_fixed "034" "'" v Fd Bs).
  - change (single_quote +:+ v +:+ double_quote)
      with (String "'" (v +:+ String "034" EmptyString)).
    rewrite (clean_between "'" "034" v Fs Bd).
    change (Some (strip (String "'" (v +:+ String "034" EmptyString)))
            = Some (String "'" (v +:+ String "034" EmptyString))).
    now rewrite (strip_fixed "'" "034" v Fs Bd).
Qed.

(** ** The commands and what is monitored *)

Lemma with_at_starts (channel : string) :
  startswith "@" (with_at channel) = true.
Proof.
  unfold with_at. destruct (startswith "@" channel) eqn:E;
    [exact E|reflexivity].
Qed.

Lemma collect_target_at (raw channel : string) :
  collect_target raw = TargetChannel channel ->
  startswith "@" channel = true.
Proof.
  unfold collect_target.
  destruct (_ || _).
  - destruct (split_once "t.me/" (drop_stray_at raw)) as [[pre tail]|];
      [|discriminate].
    destruct (startswith "+" tail); [discriminate|].
    destruct (startswith "joinchat/" tail).
    + destruct (split_once "/" tail) as [[? ?]|]; discriminate.
    + destruct (startswith "c/" tail); [discriminate|].
      intros [= <-]. apply with_at_starts.
  - intros [= <-]. apply with_at_starts.
Qed.

(** The two outcomes of a registration, for [monitored_channels]. *)
Lemma add_channel_outcome st transport channel added_by :
  match _add_channel st transport channel added_by with
  | (st', true) =>
      (exists meta,
          dict_get channel (monitored_channels st') = Some meta
          /\ meta_is_active meta = true)
      /\ (forall other,
             other <> channel ->
             dict_get other (monitored_channels st')
             = dict_get other (monitored_channels st))
  | (st', false) => monitored_channels st' = monitored_channels st
  end.
Proof.
  unfold _add_channel.
  destruct (tg_client st); cbn [negb]; [|reflexivity].
  destruct (transport channel) as [entity|]; [|reflexivity].
  destruct (db_pool st) as [db|]; [|reflexivity].
  destruct (match select_channel_id db channel with
            | Some existing => _
            | None => _
            end) as [db' [cid|]]; [|reflexivity].
  split.
  - eexists. split; [apply dict_get_set_eq|reflexivity].
  - intros other Hne. apply dict_get_set_ne. congruence.
Qed.

(** The two outcomes of a stop, for [monitored_channels]. *)
Lemma stop_channel_outcome st channel :
  match _stop_channel st channel with
  | (st', true) =>
      (forall meta,
          dict_get channel (monitored_channels st') = Some meta ->
          meta_is_active meta = false)
      /\ (forall other,
             other <> channel ->
             dict_get other (monitored_channels st')
             = dict_get other (monitored_channels st))
  | (st', false) => monitored_channels st' = monitored_channels st
  end.
Proof.
  assert (Hmem : forall s : State,
             let s' :=
               match dict_get channel (monitored_channels s) with
               | Some meta =>
                   set_monitored_channels
                     (dict_set channel (with_is_active false meta)) s
               | None => s
               end in
             (forall meta,
                 dict_get channel (monitored_channels s') = Some meta ->
                 meta_is_active meta = false)
             /\ (forall other,
                    other <> channel ->
                    dict_get other (monitored_channels s')
                    = dict_get other (monitored_channels s))).
  { intros s. cbv zeta.
    destruct (dict_get channel (monitored_channels s)) as [meta0|] eqn:E.
    - cbn. split.
      + intros meta. rewrite dict_get_set_eq. now intros [= <-].
      + intros other Hne. apply dict_get_set_ne. congruence.
    - split; [|reflexivity]. intros meta. rewrite E. discriminate. }
  unfold _stop_channel. destruct (db_pool st) as [db|].
  - destruct (update_channel db channel _) as [db' n].
    destruct (bool_decide (n = O)); [reflexivity|].
    apply (Hmem (set_db db' st)).
  - apply (Hmem st).
Qed.

(** X26.  The commands change what is monitored only as they answer.
    [/collect] changes [monitored_channels] only when it answers that
    the channel was added: the channel it names starts with [@], its
    entry is then active, and the other entries are as before.
    [/stop] names a channel that starts with [@]; when it answers that
    the channel was stopped, the entry of the channel, if there is
    one, is inactive and the others are as before, and when it answers
    that the channel was not found, nothing is changed.  [/fetch]
    never changes [monitored_channels], and the count it reports is 1
    or 2. *)
Theorem commands_and_monitoring (st : State) :
  (forall transport join args user,
      match cmd_collect st transport join args user with
      | (st', CollectAdded channel) =>
          startswith "@" channel = true
          /\ (exists meta,
                 dict_get channel (monitored_channels st') = Some meta
                 /\ meta_is_active meta = true)
          /\ (forall other,
                 other <> channel ->
                 dict_get other (monitored_channels st')
                 = dict_get other (monitored_channels st))
      | (st', _) => monitored_channels st' = monitored_channels st
      end)
  /\ (forall args,
         match cmd_stop st args with
         | (st', StopDone channel) =>
             startswith "@" channel = true
             /\ (forall meta,
                    dict_get channel (monitored_channels st') = Some meta ->
                    meta_is_active meta = false)
             /\ (forall other,
                    other <> channel ->
                    dict_get other (monitored_channels st')
                    = dict_get other (monitored_channels st))
         | (st', StopNotFound channel) =>
             startswith "@" channel = true
             /\ monitored_channels st' = monitored_channels st
         | (st', StopUsage) => st' = st
         end)
  /\ (forall transport args,
         match cmd_fetch st transport args with
         | (st', FetchSaved saved) =>
             monitored_channels st' = monitored_channels st
             /\ 1 <= saved <= 2
         | (st', _) => monitored_channels st' = monitored_channels st
         end).
Proof.
  split; [|split].
  - intros transport join args user. unfold cmd_collect.
    destruct args as [a|]; [|reflexivity].
    destruct (nonempty a); cbn [negb]; [|reflexivity].
    destruct (collect_target (strip a)) as [h| |channel|] eqn:Ht;
      try reflexivity.
    + destruct (tg_client st && join h); reflexivity.
    + destruct (tg_client st); cbn [negb]; [|reflexivity].
      pose proof (add_channel_outcome st transport channel user) as H.
      destruct (_add_channel st transport channel user) as [st' [|]];
        [|exact H].
      split; [exact (collect_target_at _ _ Ht)|exact H].
  - intros args. unfold cmd_stop.
    destruct args as [a|]; [|reflexivity].
    destruct (nonempty a); cbn [negb]; [|reflexivity].
    pose proof (stop_channel_outcome st (stop_target (strip a))) as H.
    destruct (_stop_channel st (stop_target (strip a))) as [st' [|]].
    + split; [apply with_at_starts|exact H].
    + split; [apply with_at_starts|exact H].
  - intros transport args. unfold cmd_fetch.
    destruct args as [a|]; [|reflexivity].
    destruct (nonempty a); cbn [negb]; [|reflexivity].
    destruct (tg_client st); cbn [negb]; [|reflexivity].
    destruct (fetch_kept_count st transport (fetch_target (strip a)) 2)
      as (K & N & _).
    destruct (fetch_last_messages st transport (fetch_target (strip a)) 2)
      as [st' saved]. cbn [fst snd] in K, N.
    destruct K as (_ & Hmon & _).
    destruct (0 <? saved) eqn:E; [|exact Hmon].
    split; [exact Hmon|]. apply Z.ltb_lt in E. lia.
Qed.
